(* ===== verification/_CoqProject ===== *)
-Q . S2P
Prelude.v
Http.v
Upload.v
Router.v
Tasks.v
AppList.v
Templates.v
Editor.v
Console.v
Output.v
