(* ===== verification/Prelude.v ===== *)
(** * A verification development of the FAST presentation console

    (f5devcentral/f5-appsvcs-templates, [src/iappslx/presentation/app.js])

    ** The program

    [app.js] is the single-page console of the FAST template service.  Its
    parts, leaves first, and how they interact:

    - the HTTP helper [getJSON] (lines 13-18): a GET to
      [/mgmt/shared/fast/<endPoint>], rejecting with an [Error] whose message
      carries the status on a non-2xx response;
    - the output sink [dispOutput] (lines 24-29) writing into the global
      [outputElem] that only some controllers re-target;
    - the chunked uploader [multipartUpload] (lines 31-65): a self-recursive
      promise chain POSTing 1,000,000-byte slices of a file with a
      [Content-Range] header, stopping after the chunk that ends at
      [file.size - 1];
    - the router (lines 160-231): the [routes] and [navTitles] JS objects
      filled by [route] and [addRouteToHeader] at start-up (lines 235-241 and
      the six [route] calls), and [router], run on every [hashchange] and on
      [load], which rebuilds the navigation bar, clears the content region,
      hides both, calls the page controller and shows them again in the
      controller promise's [finally];
    - the page controllers passed to [route]: the application list (242-316),
      create (317-344), modify (345-354), tasks with its self-rescheduling
      poll (356-402), api (404) and templates (406-541), which fetch through
      [getJSON], render rows, and wire buttons back to [fetch];
    - the editor builder [newEditor] (68-158) driving the third-party
      JSONEditor widget.

    ** The library

    Each file requires the prelude and the components it calls.

    - [Prelude] (this file): the JS values the code manipulates.
      - Strings are Stdlib [string].
      - [js_split]/[js_join] are [String.prototype.split] and
        [Array.prototype.join] on a one-character separator.
      - [js_str_slice] is [String.prototype.slice] with its index clamping.
      - A JS object used as a dictionary is an insertion-ordered association
        list ([jsobj]).  Its [js_keys] follow [Object.keys]: array-index keys
        first in ascending order, then the others in insertion order.  Its
        [js_lookup] falls back to the members of [Object.prototype], as
        [routes[k]] does.
      - A settled promise is [settled].  [p >>= f] is [.then] and [catch_] is
        [.catch].
      - The scope [fast_scope], the hint databases [fast] and [fast_rw], and
        the generic lemmas on splitting, slicing and objects.
    - [Http]: [getJSON] (lines 13-18) over a [Response] record; [dispOutput]
      (24-29) as an append to the list of texts shown.
    - [Upload], Module [Uploader]: [uploadPart] and [multipartUpload]
      (31-65).
      - The server is a response oracle from the chunk index to a
        [fetch_result].
      - [uploadPart_request] is the request each call emits.
      - [chunk_requests] is the reference chunking: [nchunks] slices of
        [CHUNK_SIZE] bytes.
    - [Router], Module [Router]: [route], [addRouteToHeader], [router]
      (160-241) and the page [Dom].
      - The Section [Router] takes the route table, the nav titles and the
        presence of the page's templates as variables.
      - [router] returns the new [Dom] and a [RouterResult]: route not found,
        controller threw, or controller called with its argument.
      - The [World] record adds the controller promises not yet settled.
        [world_step] and the Inductive [step] are the two events of the
        browser: a [hashchange] that runs [router] and the settling of a
        pending promise that runs its [finally].
      - [reachable] is the reflexive-transitive closure of [step] from
        [world_init].
    - [Tasks], Module [Tasks]: [renderTaskList] and its poll (356-402).
      - [poll] is the chain of timer firings.  Each firing fetches the task
        list, renders it, and schedules the next firing only while a task is
        in progress ([inProgressJob]).
    - [AppList], Module [AppList]: the application list controller (242-316).
      - [render_app_list] is the table of rows with tenant dividers.
      - [apps_controller] is the whole controller, errors included.
      - [delete_click] is the Delete button.
    - [Templates], Module [Templates]: the templates controller (406-541).
      - [setMap] and [appDict] are the two reduces into plain objects;
        [js_assign] keeps the [__proto__] case apart and [js_lookup] the
        inherited members.
      - [createRow] threads the shared counter; [template_rows], [set_rows]
        and [sets_rows] are the nested [forEach] loops with the error that
        stops them.
      - [templates_controller] joins the two fetches with [promise_all2],
        whose rejection depends on which fetch settles first.
      - [remove_click] and [update_click] are the two set actions.
      - [install_chain] is the file-input handler.  It is a client of the
        uploader through [Uploader.upload_outcome] and
        [Uploader.multipartUpload_outcome].
      - The reference [group_by_template] (a filter per template in use) and
        [templates_page] are the specifications the reduces and loops refine.
    - [Editor], Module [Editor]: [newEditor] (68-158) and the create and
      modify controllers (317-354).
      - The class [TemplateLib] is the interface of the template library and
        [js-yaml]; the theorems hold for every instance.
      - [EditorState] keeps a store of every widget created with its life
        cycle (loading, ready, destroyed), the widgets whose elements are in
        [#form-div], the global [editor] (which [destroy()] does not reset),
        the pending template loads, the buttons' flags, the closures they
        captured and the exceptions the handlers throw.
      - The widget follows json-editor's contract: [destroy()] is a no-op
        on an instance that is not ready and otherwise empties the shared
        [#form-div]; [getValue()] throws on an instance that is not ready.
      - [editor_step] handles six events: a [newEditor] call, a load
        settling, [ready], [change], a view button click and a submit
        click.
      - [create_controller] and [modify_controller] produce the [newEditor]
        events their buttons and fetches cause.
    - [Console], Module [Console]: the router and the tasks poll together
      (lines 222-231 and 356-402).
      - [ConsoleState] is the router's [World] plus the children of
        [#task-list] on the page shown, the poll loops whose [setTimeout] is
        pending, and the rejections nobody catches.
      - [console_step] handles three events: a [hashchange] (running
        [Router.world_step], and a first [renderTaskList] when the tasks
        controller is called), the settling of a controller promise, and the
        firing of one loop's timer.
      - [run_render] is one [renderTaskList] on the page shown.  It calls
        [Tasks.renderTaskList] when [#task-list] exists and throws on the
        [null] element elsewhere.

    - [Output], Module [Output]: where [dispOutput] writes (lines 22-29
      and each controller's [outputElem = document.getElementById('output')]).
      - [OutputState] keeps the router's [World], a [gmap] from each
        [#output] element ever rendered to the text written into it, the
        element of the page shown, [outputElem] as a pointer into that
        store, and the console log.
      - [output_step] handles a navigation ([new_page] renders a fresh
        element, then [controller_entry] runs the controller's synchronous
        start: re-target and loading text for apps, create, modify and
        templates, nothing for tasks and api), the settling of a
        controller promise, and a later [dispOutput] from any handler.
      - Which page templates hold an [#output] element is the Section
        variable [has_output]: [index.html] is not under [src/].

    ** The theorems, by group

    - Uploader (equivalence, round trip, termination, error):
      - the requests of [multipartUpload] are exactly [chunk_requests];
      - the uploaded slices concatenate to the file;
      - the upload stops with [nchunks] requests;
      - the first rejected chunk stops the chain and its error is
        propagated.
    - Router (functional, error, invariant, counterexample):
      - [router] calls the controller of the path's top segment with the rest
        of the path, and reports a missing route;
      - a route name inherited from [Object.prototype] (such as
        [#constructor]) makes [router] throw;
      - the content is visible once every pending promise has settled;
      - two overlapping navigations from any quiet page leave the nav bar
        hidden when their promises settle in call order, and restore it
        only in the reverse order.
    - Tasks (liveness, termination, error):
      - the poll stops at the first firing with no task in progress;
      - it never stops while the server keeps a task in progress;
      - a failed fetch stops it.
    - AppList (functional, refinement):
      - the rendered rows are the application pairs, with a tenant divider
        wherever the tenant differs from the previous row's;
      - when applications are grouped by tenant each tenant is labelled once;
      - the Modify link dispatches to the modify controller;
      - Delete sends a DELETE for the application's path and re-routes.
    - Templates (refinement, safety, error, round trip):
      - [appDict] builds exactly the reference grouping;
      - it rejects with a [TypeError] exactly when a template is named like a
        member of [Object.prototype];
      - the rows are the reference page: each set, then its templates with
        the applications of [set/template];
      - the install handler reloads exactly when every chunk and the install
        succeeded, installs [n] for [n.zip], and reports a failed upload;
      - a failed install's message does not depend on the HTTP status;
      - Update ignores the HTTP statuses;
      - a failed fetch leaves the page loading, with no catch.
    - Editor (invariant, safety, error, functional):
      - [#form-div] always holds exactly the widgets created since the last
        effective [destroy()], none of them destroyed;
      - used serially, the page holds at most the global editor;
      - two overlapping loads leave two widgets; the leaked one stays while
        the global editor is loading and is removed, not destroyed, by the
        next [newEditor] once it is ready;
      - the form submits the template whose load settled last;
      - a failed load leaves an empty form whose enabled submit button
        throws from [getValue()] and posts nothing;
      - a loaded widget's schema and start value come from the library as
        the code composes them (§8 of the spec is [spec_editor_defaults]);
      - [change] follows the global editor's validation, and throws when
        the global editor is not ready;
      - the create buttons and the modify page open the editor on their
        template.
    - Console (safety, invariant, bounds):
      - every event keeps the pending poll loops distinct and started;
      - leaving [#tasks] does not cancel its poll: the timer fires, fetches
        again and throws on the missing [#task-list];
      - [n] visits to [#tasks] while a task runs leave [n] loops polling;
      - without navigation, at most one loop is pending.
    - Output (safety, functional):
      - [dispOutput] always logs, and shows its text exactly when
        [outputElem] is the page's own [#output];
      - on the page of a controller that re-targets [outputElem], the last
        text any handler writes is shown;
      - a controller the user has left writes into the next page: the
        templates controller clears the application list's loading text;
      - after a navigation to tasks or api every later write goes to the
        detached element of the page left and is never shown.

    ** Fuel and bounds

    - [uploadPart] takes fuel.  [upload_fuel] is [S (file.size / CHUNK_SIZE)],
      one unit per chunk, and [upload_fuel_enough] shows that this is at least
      [nchunks].  The theorems hold for any fuel at least that large, so the
      fuel never cuts a run that the code completes.
    - [poll] takes fuel: one unit per timer firing.  A poll with [k] firings
      is observed with fuel [k].  Non-termination is stated as "for every
      fuel the poll is still scheduled" ([poll_unbounded]).
    - The console machines ([Router.world_step], [Editor.editor_step],
      [Console.console_step], [Output.output_step]) take no fuel: a run is
      a finite list of events, and the theorems quantify over every such
      list.
    - Byte offsets are [Z].  JS numbers are exact on them below 2^53, far
      above the file sizes the browser gives.

    ** What is not modelled, and why

    - The third-party code the console calls: the template library of
      [@f5devcentral/fast] and [js-yaml] appear only through the class
      [Editor.TemplateLib].  The [JSONEditor] widget appears only through
      the events it emits, the value and validation it reports and the
      json-editor behaviour of [destroy()] and [getValue()] stated above; a
      new widget starts from its [startval] with no error, and the
      [change] json-editor emits right after [ready] is an [EvEdit] the run
      supplies.  The backend is the response oracle of each model.
    - The DOM, [fetch], timers and [window.location.reload] are modelled only
      through the values the code reads and writes.  Rendering is a list of
      rows, not HTML.  The page templates of [index.html] are not in the
      repository; [Router.page_templates] takes them from the spec.
    - Which page templates of [index.html] hold an [#output] element is
      not in the repository: the output theorems take it as a parameter.
      The [api] page's controller is [() => Promise.resolve()]: it writes
      nothing, which [Output.entry_text] records.
    - Timers are ordered by the events the reader supplies: the 5-second
      delay itself is not modelled, only which timer fires when.  In
      [Console] the first [GET /tasks] of a visit settles with the
      navigation and a timer's fetch with its firing, so a user who leaves
      [#tasks] while such a fetch is in flight is not represented.
    - [babel.config.js] is build configuration with no behaviour to verify. *)

From stdpp Require Export base list strings pretty sorting sets.
From Stdlib Require Export ZArith Lia.
From Stdlib Require Export Ascii.
From Stdlib Require String.


Declare Scope fast_scope.
Delimit Scope fast_scope with fast.
Open Scope fast_scope.

Create HintDb fast discriminated.
Create Rewrite HintDb fast_rw.

(** ** Characters and substrings *)

(** [str_has c s]: the character [c] occurs in [s]. *)
Fixpoint str_has (c : ascii) (s : string) : bool :=
  match s with
  | EmptyString => false
  | String x s' => Ascii.eqb x c || str_has c s'
  end.

(** [str_drop n s]: [s] without its first [n] characters. *)
Fixpoint str_drop (n : nat) (s : string) : string :=
  match n, s with
  | O, _ => s
  | S n', String _ s' => str_drop n' s'
  | S _, EmptyString => EmptyString
  end.

(** [str_contains pat s]: [pat] occurs in [s] at some position. *)
Fixpoint str_contains (pat s : string) : bool :=
  String.prefix pat s ||
  match s with EmptyString => false | String _ s' => str_contains pat s' end.

(** ** [String.prototype.split] and [Array.prototype.join] on one character *)

Fixpoint js_split (sep : ascii) (s : string) : list string :=
  match s with
  | EmptyString => [EmptyString]
  | String c s' =>
      let parts := js_split sep s' in
      if Ascii.eqb c sep then EmptyString :: parts
      else match parts with
           | p :: ps => String c p :: ps
           | [] => [String c EmptyString]
           end
  end.

Fixpoint js_join (sep : ascii) (l : list string) : string :=
  match l with
  | [] => EmptyString
  | [x] => x
  | x :: xs => x +:+ String sep (js_join sep xs)
  end.

(** [arr[0]] of a non-empty array, [arr.slice(1)] *)
Definition js_head (l : list string) : string :=
  match l with [] => EmptyString | x :: _ => x end.

(** ** [String.prototype.slice] *)

(** The relative index of the ECMAScript slice algorithms (also used by
    [Blob.prototype.slice]): negative indices count from the end, and the
    result is clamped to [0, len]. *)
Definition js_rel_index (len i : Z) : Z :=
  if (i <? 0)%Z then Z.max (len + i) 0 else Z.min i len.

Definition js_str_slice (s : string) (b e : Z) : string :=
  let len := Z.of_nat (String.length s) in
  let from := js_rel_index len b in
  let to := js_rel_index len e in
  String.substring (Z.to_nat from) (Z.to_nat (Z.max (to - from) 0)) s.

Lemma js_rel_index_in len i : (0 <= i <= len)%Z -> js_rel_index len i = i.
Proof. unfold js_rel_index. destruct (Z.ltb_spec i 0); lia. Qed.

(** [s.slice(b)] *)
Definition js_str_slice_from (s : string) (b : Z) : string :=
  js_str_slice s b (Z.of_nat (String.length s)).

(** Template-literal interpolation of an integral JS number. *)
Definition js_num (z : Z) : string := pretty z.

(** ** [JSON.stringify] of a string (QuoteJSONString) *)

Definition dquote : ascii := "034".
Definition backslash : ascii := "092".

(** A lower-case hexadecimal digit. *)
Definition hex_digit (n : nat) : ascii :=
  ascii_of_nat (if n <? 10 then 48 + n else 87 + n).

Definition json_escape_char (c : ascii) : string :=
  let n := nat_of_ascii c in
  if n =? 8 then String backslash "b"
  else if n =? 9 then String backslash "t"
  else if n =? 10 then String backslash "n"
  else if n =? 12 then String backslash "f"
  else if n =? 13 then String backslash "r"
  else if n =? 34 then String backslash (String dquote EmptyString)
  else if n =? 92 then String backslash (String backslash EmptyString)
  else if n <? 32 then
    String backslash (String "u" (String "0" (String "0"
      (String (hex_digit (n / 16)) (String (hex_digit (n mod 16)) EmptyString)))))
  else String c EmptyString.

Fixpoint json_escape (s : string) : string :=
  match s with
  | EmptyString => EmptyString
  | String c s' => json_escape_char c +:+ json_escape s'
  end.

Definition json_string (s : string) : string :=
  String dquote (json_escape s +:+ String dquote EmptyString).

(** [JSON.stringify({name: n})] *)
Definition json_name_body (n : string) : string :=
  "{" +:+ json_string "name" +:+ ":" +:+ json_string n +:+ "}".

(** ** JS objects used as dictionaries *)

(** Own enumerable data properties in insertion order.  A key is stored
    once; [js_set] on an existing key updates it in place. *)
Definition jsobj (V : Type) := list (string * V).

Definition js_set {V} (k : string) (v : V) (o : jsobj V) : jsobj V :=
  if existsb (fun p => String.eqb p.1 k) o
  then map (fun p => if String.eqb p.1 k then (k, v) else p) o
  else o ++ [(k, v)].

Fixpoint js_get_own {V} (k : string) (o : jsobj V) : option V :=
  match o with
  | [] => None
  | (k', v) :: o' => if String.eqb k' k then Some v else js_get_own k o'
  end.

(** The members every plain object inherits from [Object.prototype]; all of
    them are truthy (functions, or the prototype object for [__proto__]). *)
Definition object_prototype_members : list string :=
  ["constructor"; "__defineGetter__"; "__defineSetter__"; "hasOwnProperty";
   "__lookupGetter__"; "__lookupSetter__"; "isPrototypeOf";
   "propertyIsEnumerable"; "toString"; "valueOf"; "__proto__";
   "toLocaleString"]%string.

Inductive js_lookup_result (V : Type) :=
| JsOwn (v : V)
| JsInherited (name : string)
| JsUndefined.
Arguments JsOwn {V} v.
Arguments JsInherited {V} name.
Arguments JsUndefined {V}.

(** [o[k]] for a plain object [o]. *)
Definition js_lookup {V} (k : string) (o : jsobj V) : js_lookup_result V :=
  match js_get_own k o with
  | Some v => JsOwn v
  | None =>
      if existsb (String.eqb k) object_prototype_members then JsInherited k
      else JsUndefined
  end.

(** Canonical array-index keys ("0", "1", ..., below 2^32 - 1), which
    [Object.keys] lists first in ascending numeric order. *)
Fixpoint digits_val (s : string) (acc : N) : option N :=
  match s with
  | EmptyString => Some acc
  | String c s' =>
      match Ascii.is_nat c with
      | Some d => digits_val s' (acc * 10 + N.of_nat d)%N
      | None => None
      end
  end.

Definition is_array_index (s : string) : bool :=
  match s with
  | EmptyString => false
  | _ => match digits_val s 0 with
         | Some n => String.eqb (pretty n) s && (n <? 4294967295)%N
         | None => false
         end
  end.

Definition array_index_val (s : string) : N :=
  default 0%N (digits_val s 0).

Definition index_le (a b : string) : Prop := (array_index_val a <= array_index_val b)%N.
#[export] Instance index_le_dec : RelDecision index_le :=
  fun a b => decide (array_index_val a <= array_index_val b)%N.

(** [Object.keys(o)] *)
Definition js_keys {V} (o : jsobj V) : list string :=
  let ks := map fst o in
  merge_sort index_le (List.filter is_array_index ks)
    ++ List.filter (fun k => negb (is_array_index k)) ks.

(** [Object.values(o)], in the order of [Object.keys]. *)
Definition js_values {V} (o : jsobj V) : list V :=
  omap (fun k => js_get_own k o) (js_keys o).

(** The distinct elements of a list of strings, in the order of their
    first occurrence. *)
Fixpoint nub (l : list string) : list string :=
  match l with
  | [] => []
  | x :: l' => x :: List.filter (fun y => negb (String.eqb y x)) (nub l')
  end.

(** [Object.entries(o)] *)
Definition js_entries {V} (o : jsobj V) : list (string * V) :=
  omap (fun k => (fun v => (k, v)) <$> js_get_own k o) (js_keys o).

(** [o[k] = v] on a plain object: an assignment to [__proto__] replaces the
    object's prototype (the value is an object) and creates no own
    property; any other key is an own data property. *)
Definition js_assign {V} (k : string) (v : V) (o : jsobj V) : jsobj V :=
  if String.eqb k "__proto__" then o else js_set k v o.

(** ** Errors and settled promises *)

Record JsError := mkJsError { err_name : string; err_message : string }.

(** [new Error(msg)] *)
Definition Error (msg : string) : JsError := mkJsError "Error" msg.

(** The outcome of a promise once it has settled. *)
Inductive settled (A : Type) :=
| Fulfilled (a : A)
| Rejected (e : JsError).
Arguments Fulfilled {A} a.
Arguments Rejected {A} e.

(** [p.then(f)] *)
Definition then_ {A B} (p : settled A) (f : A -> settled B) : settled B :=
  match p with Fulfilled a => f a | Rejected e => Rejected e end.

(** [p.catch(h)] *)
Definition catch_ {A} (p : settled A) (h : JsError -> settled A) : settled A :=
  match p with Fulfilled a => Fulfilled a | Rejected e => h e end.

(** A [TypeError] raised by the engine (reading a property of [undefined],
    calling a non-function). *)
Definition TypeError (msg : string) : JsError := mkJsError "TypeError" msg.

(** [Promise.all([p, q])]: fulfils with both values, or rejects with the
    first rejection in time; [q_first] says whether [q] settles before [p]. *)
Definition promise_all2 {A B} (q_first : bool) (p : settled A) (q : settled B) : settled (A * B) :=
  match p, q with
  | Fulfilled a, Fulfilled b => Fulfilled (a, b)
  | Rejected e, Fulfilled _ => Rejected e
  | Fulfilled _, Rejected e => Rejected e
  | Rejected e1, Rejected e2 => Rejected (if q_first then e2 else e1)
  end.

Notation "p >>= f" := (then_ p f) (at level 50, left associativity) : fast_scope.
Notation "x <- p ;; k" := (then_ p (fun x => k))
  (at level 100, p at next level, right associativity) : fast_scope.

(** ** Lemmas on the JS string operations *)

Lemma js_split_nonempty sep s : js_split sep s <> [].
Proof.
  destruct s as [|c s']; simpl; [done|].
  destruct (Ascii.eqb c sep); [done|]. by destruct (js_split sep s').
Qed.

(** Splitting then joining on the same separator gives the string back. *)
Lemma js_join_split sep s : js_join sep (js_split sep s) = s.
Proof.
  induction s as [|c s IH]; [done|]. simpl.
  destruct (Ascii.eqb c sep) eqn:E.
  - apply Ascii.eqb_eq in E. subst c. simpl.
    pose proof (js_split_nonempty sep s).
    destruct (js_split sep s) as [|p ps] eqn:Hs; [done|]. by rewrite IH.
  - destruct (js_split sep s) as [|p [|q qs]] eqn:Hs; simpl in *; by rewrite <- IH.
Qed.

(** A string without the separator is one field. *)
Lemma js_split_no_sep sep s : str_has sep s = false -> js_split sep s = [s].
Proof.
  induction s as [|c s IH]; simpl; [done|].
  intros [Hc Hs]%orb_false_iff. rewrite Hc, IH by done. done.
Qed.

(** A separator-free prefix followed by the separator is split off. *)
Lemma js_split_app sep p r :
  str_has sep p = false ->
  js_split sep (p +:+ String sep r) = p :: js_split sep r.
Proof.
  induction p as [|c p IH]; simpl.
  - by rewrite Ascii.eqb_refl.
  - intros [Hc Hp]%orb_false_iff. rewrite Hc, IH by done. done.
Qed.

Lemma js_join_cons sep x xs :
  xs <> [] -> js_join sep (x :: xs) = x +:+ String sep (js_join sep xs).
Proof. destruct xs; done. Qed.

#[export] Hint Rewrite js_join_split : fast_rw.
#[export] Hint Resolve js_split_nonempty : fast.

Lemma prefix_cons_ne (c c' : ascii) p s :
  c <> c' -> String.prefix (String c p) (String c' s) = false.
Proof. intros Hne. simpl. by destruct (ascii_dec c c'). Qed.

Lemma str_app_nil_r s : s +:+ EmptyString = s.
Proof. induction s as [|c s IH]; [done|]. exact (f_equal (String c) IH). Qed.

Lemma substring_full s : String.substring 0 (String.length s) s = s.
Proof. induction s as [|c s IH]; simpl; [done|]. by rewrite IH. Qed.

Lemma substring_prefix s t : String.substring 0 (String.length s) (s +:+ t) = s.
Proof. induction s as [|c s IH]; simpl; [by destruct t|]. by rewrite IH. Qed.

Lemma length_str_app s t : String.length (s +:+ t) = String.length s + String.length t.
Proof. induction s as [|c s IH]; simpl; [done|]. by rewrite IH. Qed.

(** [(s + x).slice(0, -n)] is [s] when [x] has [n > 0] characters
    ([slice(0, -0)] is empty). *)
Lemma js_str_slice_drop_suffix s c x :
  js_str_slice (s +:+ String c x) 0 (- Z.of_nat (S (String.length x))) = s.
Proof.
  unfold js_str_slice. rewrite length_str_app. cbn [String.length].
  rewrite (js_rel_index_in _ 0) by lia.
  unfold js_rel_index. rewrite (proj2 (Z.ltb_lt _ _)) by lia.
  replace (Z.to_nat (Z.max _ 0)) with (String.length s) by lia. apply substring_prefix.
Qed.

(** [("#" + x).slice(1)] is [x]. *)
Lemma js_str_slice_from_1 c x : js_str_slice_from (String c x) 1 = x.
Proof.
  unfold js_str_slice_from, js_str_slice. cbn [String.length].
  rewrite !js_rel_index_in by lia.
  replace (Z.to_nat (Z.max (Z.of_nat (S (String.length x)) - 1) 0)) with (String.length x) by lia.
  simpl. apply substring_full.
Qed.

(** ** Lemmas on JS objects *)



Lemma js_get_own_set_eq {V} k (v : V) o : js_get_own k (js_set k v o) = Some v.
Proof.
  unfold js_set. destruct (existsb _ o) eqn:E.
  - induction o as [|[k' v'] o IH]; simpl in *; [done|].
    destruct (String.eqb k' k) eqn:Ek; simpl; [by rewrite String.eqb_refl|].
    rewrite Ek. auto.
  - induction o as [|[k' v'] o IH]; simpl in *; [by rewrite String.eqb_refl|].
    apply orb_false_iff in E as [-> E]. auto.
Qed.

Lemma js_get_own_set_ne {V} k k' (v : V) o :
  k <> k' -> js_get_own k' (js_set k v o) = js_get_own k' o.
Proof.
  intros Hne. assert (String.eqb k k' = false) as Hf by (by apply String.eqb_neq).
  unfold js_set. destruct (existsb _ o).
  - induction o as [|[k0 v0] o IH]; simpl; [done|].
    destruct (String.eqb k0 k) eqn:E0; simpl.
    + apply String.eqb_eq in E0 as ->. rewrite Hf. destruct (String.eqb k k') eqn:?; [congruence|auto].
    + destruct (String.eqb k0 k'); auto.
  - induction o as [|[k0 v0] o IH]; simpl; [by rewrite Hf|].
    destruct (String.eqb k0 k'); auto.
Qed.

Lemma js_get_own_None {V} k (o : jsobj V) : js_get_own k o = None <-> k ∉ map fst o.
Proof.
  induction o as [|[k' v] o IH]; simpl; [set_solver|].
  destruct (String.eqb_spec k' k) as [->|Hne]; [split; [done|set_solver]|].
  rewrite IH. set_solver.
Qed.

Lemma js_get_own_Some {V} k (v : V) (o : jsobj V) : js_get_own k o = Some v -> k ∈ map fst o.
Proof. intros Hv. destruct (decide (k ∈ map fst o)) as [|Hn]; [done|]. by rewrite (proj2 (js_get_own_None k o) Hn) in Hv. Qed.

(** Keys keep their first insertion position. *)
Lemma js_set_keys {V} k (v : V) o :
  map fst (js_set k v o) =
  if existsb (fun p => String.eqb p.1 k) o then map fst o else map fst o ++ [k].
Proof.
  unfold js_set. destruct (existsb _ o); [|by rewrite map_app].
  rewrite map_map. apply map_ext. intros [k' v']. simpl.
  destruct (String.eqb k' k) eqn:E; [by apply String.eqb_eq in E|done].
Qed.

(** Without array-index keys, [Object.keys] is the insertion order. *)
Lemma js_keys_plain {V} (o : jsobj V) :
  Forall (fun k => is_array_index k = false) (map fst o) ->
  js_keys o = map fst o.
Proof.
  intros Hall. unfold js_keys.
  assert (List.filter is_array_index (map fst o) = []) as ->.
  { induction Hall as [|k ks Hk _ IH]; simpl; [done|]. by rewrite Hk. }
  simpl. induction Hall as [|k ks Hk _ IH]; simpl; [done|]. by rewrite Hk, IH.
Qed.

Lemma js_set_nodup {V} k (v : V) o : NoDup (map fst o) -> NoDup (map fst (js_set k v o)).
Proof.
  intros Hnd. rewrite js_set_keys. destruct (existsb _ o) eqn:E; [done|].
  apply NoDup_app. split; [done|]. split; [|apply NoDup_singleton].
  intros x Hx ->%list_elem_of_singleton. apply list_elem_of_In, in_map_iff in Hx as [[k' v'] [<- Hin]].
  assert (existsb (fun p => String.eqb p.1 k') o = true) as Hc.
  { apply existsb_exists. exists (k', v'). by rewrite String.eqb_refl. }
  simpl in *. congruence.
Qed.

Lemma existsb_eqb_elem k (l : list string) : existsb (String.eqb k) l = bool_decide (k ∈ l).
Proof.
  induction l as [|x l IH]; simpl; [done|]. rewrite IH.
  destruct (String.eqb_spec k x) as [->|Hne].
  - symmetry. apply bool_decide_eq_true. set_solver.
  - simpl. apply bool_decide_ext. set_solver.
Qed.

Lemma existsb_fst_elem {V} k (o : jsobj V) :
  existsb (fun p => String.eqb p.1 k) o = bool_decide (k ∈ map fst o).
Proof.
  induction o as [|[k' v] o IH]; simpl; [done|]. rewrite IH.
  destruct (String.eqb_spec k' k) as [->|Hne].
  - symmetry. apply bool_decide_eq_true. set_solver.
  - simpl. apply bool_decide_ext. set_solver.
Qed.

Lemma js_set_absent {V} k (v : V) o : k ∉ map fst o -> js_set k v o = o ++ [(k, v)].
Proof. intros Hk. unfold js_set. rewrite existsb_fst_elem, bool_decide_eq_false_2; done. Qed.

(** Assigning twice to the same key keeps the last value. *)
Lemma js_set_set {V} k (v v' : V) o : js_set k v (js_set k v' o) = js_set k v o.
Proof.
  destruct (decide (k ∈ map fst o)) as [Hk|Hk].
  - assert (map fst (js_set k v' o) = map fst o) as Hks.
    { by rewrite js_set_keys, existsb_fst_elem, bool_decide_eq_true_2. }
    unfold js_set at 1. rewrite existsb_fst_elem, Hks, bool_decide_eq_true_2 by done.
    unfold js_set. rewrite existsb_fst_elem, bool_decide_eq_true_2 by done.
    rewrite map_map. apply map_ext. intros [k' w]. simpl.
    destruct (String.eqb_spec k' k) as [->|Hne]; simpl; rewrite ?String.eqb_refl; [done|].
    by rewrite (proj2 (String.eqb_neq _ _) Hne).
  - rewrite (js_set_absent k v' o Hk), (js_set_absent k v o Hk). unfold js_set.
    rewrite existsb_fst_elem, bool_decide_eq_true_2 by (rewrite map_app; set_solver).
    rewrite map_app. simpl. rewrite String.eqb_refl. f_equal.
    rewrite <- (map_id o) at 2. apply map_ext_in. intros [k' w] Hin. simpl.
    destruct (String.eqb_spec k' k) as [->|]; [|done].
    exfalso. apply Hk. apply (list_elem_of_fmap_2 fst _ (k, w)). by apply list_elem_of_In.
Qed.

(** An object whose entries are [(k, f k)] for distinct keys [ks]. *)
Lemma js_get_own_map {V} (f : string -> V) ks k :
  js_get_own k (map (fun k' => (k', f k')) ks) = if bool_decide (k ∈ ks) then Some (f k) else None.
Proof.
  induction ks as [|k' ks IH]; simpl; [done|].
  destruct (String.eqb_spec k' k) as [->|Hne].
  - by rewrite bool_decide_eq_true_2 by set_solver.
  - rewrite IH. destruct (decide (k ∈ ks)).
    + by rewrite !bool_decide_eq_true_2 by set_solver.
    + by rewrite !bool_decide_eq_false_2 by set_solver.
Qed.

Lemma js_set_map_in {V} (f : string -> V) ks k v :
  k ∈ ks ->
  js_set k v (map (fun k' => (k', f k')) ks) =
  map (fun k' => (k', if String.eqb k' k then v else f k')) ks.
Proof.
  intros Hk. unfold js_set. rewrite existsb_fst_elem, bool_decide_eq_true_2.
  - rewrite map_map. apply map_ext. intros k'. simpl. by destruct (String.eqb_spec k' k) as [->|].
  - by rewrite map_map, map_id.
Qed.

Lemma js_set_map_notin {V} (f : string -> V) ks k v :
  k ∉ ks -> js_set k v (map (fun k' => (k', f k')) ks) = map (fun k' => (k', f k')) ks ++ [(k, v)].
Proof. intros Hk. apply js_set_absent. by rewrite map_map, map_id. Qed.

Lemma elem_of_nub x l : x ∈ nub l <-> x ∈ l.
Proof.
  induction l as [|y l IH]; simpl; [done|].
  rewrite elem_of_cons, (list_elem_of_In (List.filter _ _)), filter_In, <- list_elem_of_In, IH.
  rewrite elem_of_cons. destruct (String.eqb_spec x y); naive_solver.
Qed.

Lemma NoDup_nub l : NoDup (nub l).
Proof.
  induction l as [|y l IH]; simpl; constructor.
  - rewrite list_elem_of_In, filter_In, String.eqb_refl. naive_solver.
  - apply NoDup_ListNoDup, List.NoDup_filter, NoDup_ListNoDup, IH.
Qed.

Lemma nub_snoc l x : nub (l ++ [x]) = nub l ++ (if bool_decide (x ∈ l) then [] else [x]).
Proof.
  induction l as [|y l IH]; simpl; [done|].
  rewrite IH, List.filter_app. f_equal. f_equal.
  destruct (String.eqb_spec x y) as [->|Hne].
  - rewrite (bool_decide_eq_true_2 (y ∈ y :: l)) by set_solver.
    destruct (bool_decide _); simpl; [done|]. by rewrite String.eqb_refl.
  - destruct (decide (x ∈ l)).
    + rewrite !bool_decide_eq_true_2 by set_solver. done.
    + rewrite !bool_decide_eq_false_2 by set_solver. simpl.
      by rewrite (proj2 (String.eqb_neq x y) Hne).
Qed.



Lemma js_get_own_elem {V} k (v : V) o : js_get_own k o = Some v -> (k, v) ∈ o.
Proof.
  induction o as [|[k' v'] o IH]; simpl; [done|].
  destruct (String.eqb_spec k' k) as [->|]; [intros [= ->]; set_solver|]. set_solver.
Qed.

Lemma elem_of_js_values {V} (v : V) o : v ∈ js_values o -> exists k, js_get_own k o = Some v.
Proof. unfold js_values. rewrite list_elem_of_omap. naive_solver. Qed.

Lemma str_has_app c s t : str_has c (s +:+ t) = str_has c s || str_has c t.
Proof. induction s as [|x s IH]; simpl; [done|]. by rewrite IH, orb_assoc. Qed.

(** No member of [Object.prototype] has a ['/'] in its name. *)
Lemma slash_not_member k : str_has "/" k = true -> k ∉ object_prototype_members.
Proof.
  intros H Hm. unfold object_prototype_members in Hm.
  repeat (rewrite elem_of_cons in Hm; destruct Hm as [->|Hm]; [vm_compute in H; discriminate|]).
  by apply elem_of_nil in Hm.
Qed.

(** ** Lemmas on lists *)

Lemma take_min_length {A} (l : list A) a : take (Nat.min a (length l)) l = take a l.
Proof.
  destruct (Nat.le_ge_cases a (length l)).
  - by rewrite Nat.min_l.
  - rewrite Nat.min_r by done. rewrite !take_ge; auto.
Qed.

(** Consecutive [c]-element windows starting at window [j] reassemble the
    suffix of [l] they cover. *)
Lemma concat_windows {A} (l : list A) (c j m : nat) :
  length l <= (j + m) * c ->
  concat (map (fun i => take c (drop (i * c) l)) (seq j m)) = drop (j * c) l.
Proof.
  revert j. induction m as [|m IH]; intros j Hlen; simpl.
  - rewrite drop_ge; [done|lia].
  - rewrite IH by lia. replace (S j * c) with (j * c + c) by lia.
    by rewrite <- drop_drop, take_drop.
Qed.
