(* ===== verification/Http.v ===== *)
(** * The HTTP helper: [fetch] outcomes and [getJSON] (app.js lines 11-18)

    A request issued by the program is a [Request] record; the network's
    answer is a [fetch_result]: the promise returned by [fetch] either
    rejects (network failure) or fulfils with a [Response], whose [json()]
    body is itself a settled promise (a parse failure rejects it). *)

From S2P Require Import Prelude.

Definition endPointUrl : string := "/mgmt/shared/fast".

Record Response (A : Type) := mkResponse {
  resp_ok : bool;
  resp_status : Z;
  resp_statusText : string;
  resp_json : settled A
}.
Arguments mkResponse {A} _ _ _ _.
Arguments resp_ok {A} _.
Arguments resp_status {A} _.
Arguments resp_statusText {A} _.
Arguments resp_json {A} _.

(** A [fetch] issued by the program: method, URL and JSON body if any. *)
Record Request := mkRequest {
  rq_method : string;
  rq_url : string;
  rq_body : option string
}.

(** The settled promise returned by [fetch]. *)
Definition fetch_result (A : Type) := settled (Response A).

(** [JSON.stringify(response)]: a [Response] has no own enumerable
    properties, so it always serialises to the empty object. *)
Definition stringify_response {A} (r : Response A) : string := "{}".

Definition getJSON_url (endPoint : string) : string :=
  endPointUrl +:+ "/" +:+ endPoint.

(** [getJSON(endPoint)], given the outcome of its [fetch]. *)
Definition getJSON {A} (endPoint : string) (fr : fetch_result A) : settled A :=
  data <- fr ;;
  if negb (resp_ok data) then
    Rejected (Error ("Failed to get data from " +:+ getJSON_url endPoint +:+ ": "
                     +:+ js_num (resp_status data) +:+ " " +:+ resp_statusText data))
  else resp_json data.

(** [dispOutput(output)] (lines 24-29): the text written to the console and
    to the current [outputElem]; the model keeps the sequence of texts. *)
Definition dispOutput (out : list string) (output : string) : list string := out ++ [output].
