(* ===== verification/Upload.v ===== *)
(** * The chunked uploader [multipartUpload] (app.js lines 31-65)

    [uploadPart start end] POSTs the bytes [start..end] of the file, and on
    success either stops (when [end = file.size - 1]) or recurses on the next
    range.  The network is the oracle [server]: [server k] is the settled
    [fetch] of the [k]-th POST.  The recursion is bounded by fuel;
    [multipartUpload] supplies [upload_fuel], and [multipartUpload_total]
    shows that it never runs out.

    The reference [chunk_range]/[nchunks] describes the chunking by index
    ([i * CHUNK_SIZE] to the minimum of the chunk end and [size - 1]); the
    theorems show that the offset arithmetic of the code produces exactly
    those ranges, in order, stopping at the first failed POST, and that the
    bodies concatenate to the file. *)

From S2P Require Import Prelude Http.

Module Uploader.

Local Open Scope Z_scope.

Definition CHUNK_SIZE : Z := 1000000.

(** The [File] object of the file input. *)
Record File := mkFile { file_name : string; file_size : Z }.

(** [Blob.prototype.slice(b, e)] of a blob of [size] bytes: the byte range
    [[from, to)] it denotes. *)
Definition blob_slice (size b e : Z) : Z * Z :=
  let from := js_rel_index size b in
  let to := js_rel_index size e in
  (from, from + Z.max (to - from) 0).

(** The bytes of a blob range of [data]. *)
Definition blob_bytes {A} (data : list A) (r : Z * Z) : list A :=
  take (Z.to_nat (r.2 - r.1)) (drop (Z.to_nat r.1) data).

Record UploadRequest := mkUploadRequest {
  up_method : string;
  up_url : string;
  up_headers : list (string * string);
  up_body : Z * Z
}.

Definition upload_url (file : File) : string :=
  "/mgmt/shared/file-transfer/uploads/" +:+ file_name file.

Definition content_range (start end_ size : Z) : string :=
  js_num start +:+ "-" +:+ js_num end_ +:+ "/" +:+ js_num size.

(** The [fetch] issued by [uploadPart(start, end)] (lines 34-44). *)
Definition uploadPart_request (file : File) (start end_ : Z) : UploadRequest :=
  {| up_method := "POST";
     up_url := upload_url file;
     up_headers := [("Content-Type", "application/octet-stream");
                    ("Content-Range", content_range start end_ (file_size file));
                    ("Content-Length", js_num ((end_ - start) + 1));
                    ("Connection", "keep-alive")];
     up_body := blob_slice (file_size file) start (end_ + 1) |}.

(** The rejection of a failed chunk (line 47). *)
Definition upload_error {A} (r : Response A) : JsError :=
  Error ("Failed to upload file: " +:+ stringify_response r).

(** The next range (lines 55-56). *)
Definition next_range (size start end_ : Z) : Z * Z :=
  (start + CHUNK_SIZE,
   if (end_ + CHUNK_SIZE >? size - 1)%Z then size - 1 else end_ + CHUNK_SIZE).

Section UploadPart.

Variable file : File.
Variable server : nat -> fetch_result unit.

(** The first [.then] of a chunk's [fetch] (lines 45-50). *)
Definition chunk_outcome (k : nat) : settled unit :=
  response <- server k ;;
  if negb (resp_ok response) then Rejected (upload_error response) else Fulfilled tt.

(** [uploadPart(start, end)] as the [k]-th POST; [None] when out of fuel. *)
Fixpoint uploadPart (fuel k : nat) (start end_ : Z)
    : list UploadRequest * option (settled unit) :=
  match fuel with
  | O => ([], None)
  | S fuel' =>
      let req := uploadPart_request file start end_ in
      match chunk_outcome k with
      | Rejected e => ([req], Some (Rejected e))
      | Fulfilled _ =>
          if (end_ =? file_size file - 1)%Z then ([req], Some (Fulfilled tt))
          else
            let '(nextStart, nextEnd) := next_range (file_size file) start end_ in
            let '(reqs, out) := uploadPart fuel' (S k) nextStart nextEnd in
            (req :: reqs, out)
      end
  end.

(** One POST per started megabyte, plus one. *)
Definition upload_fuel : nat := S (Z.to_nat (file_size file / CHUNK_SIZE)).

(** [multipartUpload(file)] (lines 61-64). *)
Definition multipartUpload : list UploadRequest * option (settled unit) :=
  if (CHUNK_SIZE <? file_size file)%Z
  then uploadPart upload_fuel 0 0 (CHUNK_SIZE - 1)
  else uploadPart upload_fuel 0 0 (file_size file - 1).

End UploadPart.

(** ** Reference chunking *)

(** The number of POSTs: one per chunk, and a single (empty) one for an
    empty file. *)
Definition nchunks (size : Z) : nat :=
  if (size <=? 0)%Z then 1%nat
  else Z.to_nat ((size + CHUNK_SIZE - 1) / CHUNK_SIZE).

Definition chunk_range (size : Z) (i : nat) : Z * Z :=
  let s := (Z.of_nat i * CHUNK_SIZE)%Z in
  (s, Z.min (s + CHUNK_SIZE - 1) (size - 1)).

Definition chunk_request (file : File) (i : nat) : UploadRequest :=
  let '(s, e) := chunk_range (file_size file) i in uploadPart_request file s e.

Definition chunk_requests (file : File) : list UploadRequest :=
  map (chunk_request file) (seq 0 (nchunks (file_size file))).

(** The settled outcome of POSTing chunks [i .. i + m - 1] in order,
    stopping at the first failure. *)
Fixpoint chunks_outcome (server : nat -> fetch_result unit) (i m : nat) : settled unit :=
  match m with
  | O => Fulfilled tt
  | S m' => _ <- chunk_outcome server i ;; chunks_outcome server (S i) m'
  end.

Definition upload_outcome (file : File) (server : nat -> fetch_result unit) : settled unit :=
  chunks_outcome server 0 (nchunks (file_size file)).

Lemma chunks_outcome_ok server i m :
  chunks_outcome server i m = Fulfilled tt <->
  forall k, (i <= k < i + m)%nat -> chunk_outcome server k = Fulfilled tt.
Proof.
  revert i. induction m as [|m IH]; intros i; simpl; [split; [lia|done]|].
  destruct (chunk_outcome server i) as [[]|e] eqn:Hi; simpl.
  - rewrite IH. split; intros H k Hk; [|apply H; lia].
    destruct (decide (k = i)) as [->|]; [done|]. apply H. lia.
  - split; [done|]. intros H. rewrite H in Hi by lia. done.
Qed.

Lemma chunks_outcome_first_failure server i m k e :
  (i <= k < i + m)%nat ->
  (forall j, (i <= j < k)%nat -> chunk_outcome server j = Fulfilled tt) ->
  chunk_outcome server k = Rejected e ->
  chunks_outcome server i m = Rejected e.
Proof.
  revert i. induction m as [|m IH]; intros i Hk Hok He; simpl; [lia|].
  destruct (decide (k = i)) as [->|Hne]; [by rewrite He|].
  rewrite Hok by lia. apply IH; auto with lia.
Qed.

(** ** Arithmetic of the chunking *)

Local Ltac chunk_arith := unfold chunk_range, next_range, CHUNK_SIZE in *; simpl in *; lia.

(** [nchunks size] is the least number of chunks covering the file (at
    least one). *)
Lemma nchunks_spec size :
  0 <= size ->
  (1 <= nchunks size)%nat /\
  (Z.of_nat (nchunks size) - 1) * CHUNK_SIZE < Z.max size 1 <= Z.of_nat (nchunks size) * CHUNK_SIZE.
Proof.
  intros Hs. unfold nchunks, CHUNK_SIZE. destruct (Z.leb_spec size 0); [simpl; lia|].
  pose proof (Z.div_mod (size + 1000000 - 1) 1000000 ltac:(lia)).
  pose proof (Z.mod_pos_bound (size + 1000000 - 1) 1000000 ltac:(lia)).
  rewrite Z2Nat.id; lia.
Qed.

(** A chunk that is not the last ends before [size - 1], and the code's
    [next_range] computes the next chunk of the reference. *)
Lemma chunk_next size i :
  0 <= size -> (S i < nchunks size)%nat ->
  (chunk_range size i).2 <> size - 1 /\
  next_range size (chunk_range size i).1 (chunk_range size i).2 = chunk_range size (S i).
Proof.
  intros Hs Hi. pose proof (nchunks_spec size Hs).
  unfold chunk_range, next_range, CHUNK_SIZE in *; simpl.
  rewrite Nat2Z.inj_succ. destruct (Z.gtb_spec (Z.min (Z.of_nat i * 1000000 + 1000000 - 1) (size - 1) + 1000000) (size - 1));
    split; try f_equal; lia.
Qed.

(** The last chunk ends at [size - 1]. *)
Lemma chunk_last size i :
  0 <= size -> S i = nchunks size -> (chunk_range size i).2 = size - 1.
Proof. intros Hs Hi. pose proof (nchunks_spec size Hs). chunk_arith. Qed.

(** The first range of [multipartUpload] is chunk 0. *)
Lemma chunk_first size :
  chunk_range size 0 = (0, if CHUNK_SIZE <? size then CHUNK_SIZE - 1 else size - 1).
Proof. unfold chunk_range, CHUNK_SIZE. destruct (Z.ltb_spec 1000000 size); f_equal; lia. Qed.

(** The fuel of [multipartUpload] covers every chunk. *)
Lemma upload_fuel_enough file :
  0 <= file_size file -> (nchunks (file_size file) <= upload_fuel file)%nat.
Proof.
  intros Hs. pose proof (nchunks_spec _ Hs). unfold upload_fuel, CHUNK_SIZE in *.
  pose proof (Z.div_mod (file_size file) 1000000 ltac:(lia)).
  pose proof (Z.mod_pos_bound (file_size file) 1000000 ltac:(lia)). lia.
Qed.

(** ** Unfolding [uploadPart] along the reference chunks *)

Section Unfold.

Variable file : File.
Variable server : nat -> fetch_result unit.
Hypothesis size_nonneg : 0 <= file_size file.

Definition upload_from (fuel i : nat) : list UploadRequest * option (settled unit) :=
  uploadPart file server fuel i (chunk_range (file_size file) i).1 (chunk_range (file_size file) i).2.

Lemma upload_from_step fuel i :
  (S i < nchunks (file_size file))%nat ->
  upload_from (S fuel) i =
  match chunk_outcome server i with
  | Rejected e => ([chunk_request file i], Some (Rejected e))
  | Fulfilled _ => let '(rs, o) := upload_from fuel (S i) in (chunk_request file i :: rs, o)
  end.
Proof.
  intros Hi. destruct (chunk_next (file_size file) i size_nonneg Hi) as [Hne Hnext].
  unfold upload_from, chunk_request. revert Hne Hnext.
  destruct (chunk_range (file_size file) i) as [s e]. cbn [fst snd uploadPart]. intros Hne Hnext.
  destruct (chunk_outcome server i); [|done].
  rewrite (proj2 (Z.eqb_neq _ _) Hne), Hnext. done.
Qed.

Lemma upload_from_last fuel i :
  S i = nchunks (file_size file) ->
  upload_from (S fuel) i = ([chunk_request file i], Some (chunk_outcome server i)).
Proof.
  intros Hi. pose proof (chunk_last (file_size file) i size_nonneg Hi) as Hend.
  unfold upload_from, chunk_request. revert Hend.
  destruct (chunk_range (file_size file) i) as [s e]. cbn [fst snd uploadPart]. intros Hend.
  destruct (chunk_outcome server i) as [[]|]; [|done]. by rewrite Hend, Z.eqb_refl.
Qed.

Lemma multipartUpload_from :
  multipartUpload file server = upload_from (upload_fuel file) 0.
Proof. unfold multipartUpload, upload_from. rewrite chunk_first. by destruct (_ <? _). Qed.

End Unfold.

Lemma blob_slice_in size b e : 0 <= b <= e -> e <= size -> blob_slice size b e = (b, e).
Proof.
  intros. unfold blob_slice. rewrite !js_rel_index_in by lia. f_equal. lia.
Qed.

(** The body of chunk [i] is the window of [CHUNK_SIZE] bytes at offset
    [i * CHUNK_SIZE] (shorter at the end of the file). *)
Lemma chunk_bytes {A} file (data : list A) i :
  0 <= file_size file -> length data = Z.to_nat (file_size file) ->
  (i < nchunks (file_size file))%nat ->
  blob_bytes data (up_body (chunk_request file i)) =
  take (Z.to_nat CHUNK_SIZE) (drop (i * Z.to_nat CHUNK_SIZE) data).
Proof.
  intros Hs Hlen Hi. pose proof (nchunks_spec _ Hs).
  unfold chunk_request, chunk_range. cbn [up_body uploadPart_request].
  rewrite blob_slice_in by (unfold CHUNK_SIZE in *; lia).
  unfold blob_bytes, CHUNK_SIZE in *. cbn [fst snd].
  replace (Z.to_nat (Z.of_nat i * 1000000)) with (i * Z.to_nat 1000000)%nat by lia.
  rewrite <- (take_min_length _ (Z.to_nat 1000000)), length_drop. f_equal. lia.
Qed.

Section Correctness.

Variable file : File.
Variable server : nat -> fetch_result unit.

Local Abbreviation n := (nchunks (file_size file)).
Local Abbreviation ok k := (chunk_outcome server k = Fulfilled tt).

Lemma upload_from_all_ok (Hs : 0 <= file_size file) m i fuel :
  (i + m = n)%nat -> (1 <= m <= fuel)%nat ->
  (forall k, (i <= k < n)%nat -> ok k) ->
  upload_from file server fuel i = (map (chunk_request file) (seq i m), Some (Fulfilled tt)).
Proof.
  revert i fuel. induction m as [|[|m] IH]; intros i [|fuel] Hn Hm Hok; try lia.
  - rewrite upload_from_last by (done || lia). by rewrite Hok by lia.
  - rewrite upload_from_step by (done || lia). rewrite Hok by lia.
    rewrite IH by (done || lia || (intros; apply Hok; lia)). done.
Qed.

Lemma upload_from_first_failure (Hs : 0 <= file_size file) m i fuel k e :
  (i + m = n)%nat -> (1 <= m <= fuel)%nat -> (i <= k < n)%nat ->
  (forall j, (i <= j < k)%nat -> ok j) -> chunk_outcome server k = Rejected e ->
  upload_from file server fuel i = (map (chunk_request file) (seq i (S (k - i))), Some (Rejected e)).
Proof.
  revert i fuel. induction m as [|[|m] IH]; intros i [|fuel] Hn Hm Hk Hok He; try lia.
  - assert (k = i) as -> by lia. rewrite upload_from_last by (done || lia).
    by rewrite He, Nat.sub_diag.
  - rewrite upload_from_step by (done || lia).
    destruct (decide (k = i)) as [->|Hki].
    + by rewrite He, Nat.sub_diag.
    + rewrite Hok by lia. rewrite IH by (done || lia || (intros; apply Hok; lia)).
      by replace (S (k - i)) with (S (S (k - S i))) by lia.
Qed.

Lemma upload_from_total (Hs : 0 <= file_size file) m i fuel :
  (i + m = n)%nat -> (1 <= m <= fuel)%nat -> (upload_from file server fuel i).2 <> None.
Proof.
  revert i fuel. induction m as [|[|m] IH]; intros i [|fuel] Hn Hm; try lia.
  - by rewrite upload_from_last by (done || lia).
  - rewrite upload_from_step by (done || lia).
    destruct (chunk_outcome server i); [|done].
    pose proof (IH (S i) fuel ltac:(lia) ltac:(lia)).
    by destruct (upload_from file server fuel (S i)).
Qed.

Lemma upload_from_fulfilled (Hs : 0 <= file_size file) m i fuel rs :
  (i + m = n)%nat -> (1 <= m)%nat ->
  upload_from file server fuel i = (rs, Some (Fulfilled tt)) ->
  forall k, (i <= k < n)%nat -> ok k.
Proof.
  revert i fuel rs. induction m as [|[|m] IH]; intros i [|fuel] rs Hn Hm Hup k Hk; try lia;
    try discriminate.
  - rewrite upload_from_last in Hup by (done || lia).
    assert (k = i) as -> by lia. by injection Hup as _ ->.
  - rewrite upload_from_step in Hup by (done || lia).
    destruct (chunk_outcome server i) as [[]|] eqn:Hi; [|discriminate].
    destruct (decide (k = i)) as [->|]; [done|].
    destruct (upload_from file server fuel (S i)) as [rs' o] eqn:Hr. injection Hup as _ ->.
    apply (IH (S i) fuel rs'); auto with lia.
Qed.

Lemma upload_from_outcome (Hs : 0 <= file_size file) m i fuel :
  (i + m = n)%nat -> (1 <= m <= fuel)%nat ->
  (upload_from file server fuel i).2 = Some (chunks_outcome server i m).
Proof.
  revert i fuel. induction m as [|[|m] IH]; intros i [|fuel] Hn Hm; try lia.
  - rewrite upload_from_last by (done || lia). simpl. by destruct (chunk_outcome server i) as [[]|].
  - rewrite upload_from_step by (done || lia). cbn [chunks_outcome].
    destruct (chunk_outcome server i); [|done]. simpl.
    pose proof (IH (S i) fuel ltac:(lia) ltac:(lia)) as IH'.
    destruct (upload_from file server fuel (S i)). by simpl in *.
Qed.

(** The uploader's outcome for a client: [multipartUpload] settles with
    the reference outcome of the chunk POSTs. *)
Lemma multipartUpload_outcome :
  0 <= file_size file -> (multipartUpload file server).2 = Some (upload_outcome file server).
Proof.
  intros Hs. pose proof (nchunks_spec _ Hs). pose proof (upload_fuel_enough file Hs).
  rewrite multipartUpload_from. apply upload_from_outcome; auto with lia.
Qed.

(** The requests of an upload whose POSTs all succeed. *)
Lemma multipartUpload_ok_requests :
  0 <= file_size file -> (forall k, (k < n)%nat -> ok k) ->
  (multipartUpload file server).1 = chunk_requests file.
Proof.
  intros Hs Hok. pose proof (nchunks_spec _ Hs). pose proof (upload_fuel_enough file Hs).
  rewrite multipartUpload_from, (upload_from_all_ok Hs n 0 (upload_fuel file)); auto with lia.
Qed.

(** ** The uploader's contract *)

(** C4. When every POST succeeds, [multipartUpload] issues exactly the
    reference chunk requests, in order, and fulfils. *)
Theorem multipartUpload_all_ok :
  0 <= file_size file -> (forall k, (k < n)%nat -> ok k) ->
  multipartUpload file server = (chunk_requests file, Some (Fulfilled tt)).
Proof.
  intros Hs Hok. pose proof (nchunks_spec _ Hs). pose proof (upload_fuel_enough file Hs).
  rewrite multipartUpload_from. apply upload_from_all_ok; auto with lia.
Qed.

(** C28. A failed POST stops the upload: when chunk [k] is the first to
    fail, exactly the chunks [0..k] were sent and the upload rejects with
    that chunk's error. *)
Theorem multipartUpload_first_failure k e :
  0 <= file_size file -> (k < n)%nat ->
  (forall j, (j < k)%nat -> ok j) -> chunk_outcome server k = Rejected e ->
  multipartUpload file server = (map (chunk_request file) (seq 0 (S k)), Some (Rejected e)).
Proof.
  intros Hs Hk Hok He. pose proof (nchunks_spec _ Hs). pose proof (upload_fuel_enough file Hs).
  rewrite multipartUpload_from.
  rewrite (upload_from_first_failure Hs n 0 _ k e); auto with lia.
  by rewrite Nat.sub_0_r.
Qed.

(** C29. [multipartUpload] always settles: its fuel is never exhausted,
    whatever the file size and the server's answers. *)
Theorem multipartUpload_total : (multipartUpload file server).2 <> None.
Proof.
  destruct (Z.leb_spec 0 (file_size file)) as [Hs|Hs].
  - pose proof (nchunks_spec _ Hs). pose proof (upload_fuel_enough file Hs).
    rewrite multipartUpload_from. apply (upload_from_total Hs n); lia.
  - unfold multipartUpload, upload_fuel.
    rewrite (proj2 (Z.ltb_ge _ _)) by (unfold CHUNK_SIZE; lia). cbn [uploadPart].
    destruct (chunk_outcome server 0); [|done]. by rewrite Z.eqb_refl.
Qed.

(** The upload fulfils only if every chunk's POST succeeded. *)
Theorem multipartUpload_fulfilled_all_ok :
  0 <= file_size file -> (multipartUpload file server).2 = Some (Fulfilled tt) ->
  forall k, (k < n)%nat -> ok k.
Proof.
  intros Hs Hup k Hk. pose proof (nchunks_spec _ Hs).
  rewrite multipartUpload_from in Hup.
  destruct (upload_from file server (upload_fuel file) 0) as [rs o] eqn:Hr. simpl in Hup. subst o.
  apply (upload_from_fulfilled Hs n 0 (upload_fuel file) rs ltac:(lia) ltac:(lia) Hr); lia.
Qed.

(** C5. The bodies of a successful upload, concatenated in order,
    reconstruct the file: no gap, no overlap. *)
Theorem multipartUpload_roundtrip {A} (data : list A) :
  0 <= file_size file -> length data = Z.to_nat (file_size file) ->
  (forall k, (k < n)%nat -> ok k) ->
  concat (map (fun r => blob_bytes data (up_body r)) (multipartUpload file server).1) = data.
Proof.
  intros Hs Hlen Hok. pose proof (nchunks_spec _ Hs).
  rewrite multipartUpload_ok_requests by done. unfold chunk_requests. rewrite map_map.
  rewrite (map_ext_in _ (fun i => take (Z.to_nat CHUNK_SIZE) (drop (i * Z.to_nat CHUNK_SIZE) data))).
  - rewrite concat_windows; [done|]. unfold CHUNK_SIZE in *. lia.
  - intros i Hi%in_seq. apply chunk_bytes; auto with lia.
Qed.

(** A successful upload of a non-empty file issues ceil(size /
    CHUNK_SIZE) requests: the least number of chunks that cover it. *)
Theorem multipartUpload_request_count :
  0 < file_size file -> (forall k, (k < n)%nat -> ok k) ->
  let m := Z.of_nat (length (multipartUpload file server).1) in
  (m - 1) * CHUNK_SIZE < file_size file <= m * CHUNK_SIZE.
Proof.
  intros Hs Hok. pose proof (nchunks_spec (file_size file) ltac:(lia)). intros m. subst m.
  rewrite multipartUpload_ok_requests by (done || lia). unfold chunk_requests.
  simpl. rewrite length_map, length_seq. lia.
Qed.

End Correctness.

(** Every request's headers agree with its body: [Content-Length] is
    the number of bytes sent, [Content-Range] names the same bytes, and a
    chunk holds at most [CHUNK_SIZE] bytes, at least one for a non-empty
    file. *)
Theorem chunk_request_headers file i :
  0 <= file_size file -> (i < nchunks (file_size file))%nat ->
  let r := chunk_request file i in
  let '(from, to) := up_body r in
  ("Content-Length", js_num (to - from)) ∈ up_headers r /\
  ("Content-Range", content_range from (to - 1) (file_size file)) ∈ up_headers r /\
  to - from <= CHUNK_SIZE /\ (0 < file_size file -> 0 < to - from).
Proof.
  intros Hs Hi. pose proof (nchunks_spec _ Hs).
  unfold chunk_request, chunk_range. cbn [up_body up_headers uploadPart_request].
  rewrite blob_slice_in by (unfold CHUNK_SIZE in *; lia).
  replace (_ + 1 - _) with (Z.min (Z.of_nat i * CHUNK_SIZE + CHUNK_SIZE - 1) (file_size file - 1)
                             - Z.of_nat i * CHUNK_SIZE + 1) by lia.
  replace (_ + 1 - 1) with (Z.min (Z.of_nat i * CHUNK_SIZE + CHUNK_SIZE - 1) (file_size file - 1)) by lia.
  split; [set_solver|]. split; [set_solver|]. unfold CHUNK_SIZE in *. lia.
Qed.

(** ** Witnesses *)

Definition ok_server : nat -> fetch_result unit :=
  fun _ => Fulfilled (mkResponse true 200 "OK" (Fulfilled tt)).

Definition fail_second : nat -> fetch_result unit :=
  fun k => if (k =? 1)%nat then Fulfilled (mkResponse false 500 "Internal Server Error" (Fulfilled tt))
           else ok_server k.

Definition ts_file : File := mkFile "f5-http-lb.zip" 2500000.

Lemma multipartUpload_all_ok_witness :
  multipartUpload ts_file ok_server = (chunk_requests ts_file, Some (Fulfilled tt)).
Proof. apply multipartUpload_all_ok; [compute; discriminate | intros; reflexivity]. Defined.

Lemma multipartUpload_first_failure_witness :
  multipartUpload ts_file fail_second =
  (map (chunk_request ts_file) (seq 0 2), Some (Rejected (Error "Failed to upload file: {}"))).
Proof.
  apply (multipartUpload_first_failure ts_file fail_second 1).
  - compute; discriminate.
  - vm_compute; lia.
  - intros j Hj. assert (j = 0%nat) as -> by lia. reflexivity.
  - reflexivity.
Defined.

Lemma multipartUpload_fulfilled_all_ok_witness :
  chunk_outcome ok_server 2 = Fulfilled tt.
Proof.
  apply (multipartUpload_fulfilled_all_ok ts_file ok_server);
    [compute; discriminate | vm_compute; reflexivity | vm_compute; lia].
Defined.

Lemma multipartUpload_roundtrip_witness :
  concat (map (fun r => blob_bytes (map Byte.to_nat [Byte.x50; Byte.x4b; Byte.x03]) (up_body r))
              (multipartUpload (mkFile "small.zip" 3) ok_server).1) =
  map Byte.to_nat [Byte.x50; Byte.x4b; Byte.x03].
Proof.
  apply multipartUpload_roundtrip; [compute; discriminate | reflexivity | intros; reflexivity].
Defined.

Lemma multipartUpload_request_count_witness :
  let m := Z.of_nat (length (multipartUpload ts_file ok_server).1) in
  (m - 1) * CHUNK_SIZE < 2500000 <= m * CHUNK_SIZE.
Proof. apply (multipartUpload_request_count ts_file ok_server); [reflexivity | intros; reflexivity]. Defined.

Lemma chunk_request_headers_witness :
  ("Content-Length", js_num (2500000 - 2000000)) ∈ up_headers (chunk_request ts_file 2).
Proof.
  pose proof (chunk_request_headers ts_file 2 ltac:(compute; discriminate) ltac:(vm_compute; lia)) as H.
  exact (proj1 H).
Defined.

(** The examples of the specification: 2,500,000 bytes go in three
    ranges, 500,000 bytes in one. *)
Example upload_ranges_2500000 :
  map (fun r => up_headers r !!! 1%nat) (multipartUpload ts_file ok_server).1 =
  [("Content-Range", "0-999999/2500000"); ("Content-Range", "1000000-1999999/2500000");
   ("Content-Range", "2000000-2499999/2500000")].
Proof. vm_compute. reflexivity. Qed.

Example upload_ranges_500000 :
  map (fun r => up_headers r !!! 1%nat) (multipartUpload (mkFile "a.zip" 500000) ok_server).1 =
  [("Content-Range", "0-499999/500000")].
Proof. vm_compute. reflexivity. Qed.

(** An empty file is still sent, as one POST announcing the range [0--1]. *)
Example upload_empty_file :
  map (fun r => (up_headers r !!! 1%nat, up_headers r !!! 2%nat))
      (multipartUpload (mkFile "empty.zip" 0) ok_server).1 =
  [(("Content-Range", "0--1/0"), ("Content-Length", "0"))].
Proof. vm_compute. reflexivity. Qed.

End Uploader.
