(* ===== verification/Router.v ===== *)
(** * The router (app.js lines 160-241 and the [route] calls)

    [routes] and [navTitles] are JS objects filled at start-up by [route]
    and [addRouteToHeader]; [router] runs on every [hashchange] and on
    [load].  Its synchronous part is [router]: it normalises the fragment
    ([replace_app_edit] is [rawUrl.replace(/\/application.*?\/edit/, '')]),
    splits it on ['/'], rebuilds the navigation bar, clears the content
    region and then either reports an unknown route, throws (when the page
    template is missing), or hides both regions and calls the controller.
    Its asynchronous part, the [.finally] that shows both regions again, is
    a pending finaliser of the [World] state machine ([world_step]) that
    runs when the controller's promise settles, in any order. *)

From S2P Require Import Prelude.

Module Router.

(** The page controllers registered by the [route] calls. *)
Inductive Controller :=
| CtlApps | CtlCreate | CtlModify | CtlTasks | CtlApi | CtlTemplates.

#[export] Instance Controller_eq_dec : EqDecision Controller.
Proof. solve_decision. Defined.

(** The value [routes[path]] holds. *)
Record RouteInfo := mkRouteInfo { pageName : string; pageFunc : option Controller }.

(** [route(path, pageName, pageFunc)] *)
Definition route (path pageName : string) (f : Controller) (routes : jsobj RouteInfo)
    : jsobj RouteInfo :=
  js_set path (mkRouteInfo pageName (Some f)) routes.

(** [addRouteToHeader(topRoute, title)]: the updated object and the
    returned title. *)
Definition addRouteToHeader (topRoute title : string) (navTitles : jsobj string)
    : jsobj string * string :=
  (js_set topRoute title navTitles, title).

(** The navigation titles after lines 235-239. *)
Definition navTitles_init : jsobj string :=
  let t := [] in
  let t := (addRouteToHeader "" "Application List" t).1 in
  let t := (addRouteToHeader "create" "Deploy" t).1 in
  let t := (addRouteToHeader "templates" "Templates" t).1 in
  let t := (addRouteToHeader "tasks" "Deploy Log" t).1 in
  (addRouteToHeader "api" "API" t).1.

(** The route table after the six [route] calls (lines 242, 317, 345, 356,
    404, 406). *)
Definition routes_init : jsobj RouteInfo :=
  let r := [] in
  let r := route "" "apps" CtlApps r in
  let r := route "create" "create" CtlCreate r in
  let r := route "modify" "create" CtlModify r in
  let r := route "tasks" "tasks" CtlTasks r in
  let r := route "api" "api" CtlApi r in
  route "templates" "templates" CtlTemplates r.

(** ** [rawUrl.replace(/\/application.*?\/edit/, '')] *)

(** The characters [.] does not match: line terminators. *)
Definition is_line_terminator (c : ascii) : bool :=
  Ascii.eqb c "010"%char || Ascii.eqb c "013"%char.

(** The lazy [.*?\/edit]: the text after the first ["/edit"] that is not
    preceded by a line terminator, if any. *)
Fixpoint lazy_edit (s : string) : option string :=
  if String.prefix "/edit" s then Some (str_drop 5 s)
  else match s with
       | EmptyString => None
       | String c s' => if is_line_terminator c then None else lazy_edit s'
       end.

(** The first (leftmost) match is removed; the rest is unchanged. *)
Fixpoint replace_app_edit (s : string) : string :=
  match (if String.prefix "/application" s then lazy_edit (str_drop 12 s) else None) with
  | Some rest => rest
  | None => match s with
            | EmptyString => EmptyString
            | String c s' => String c (replace_app_edit s')
            end
  end.

Lemma replace_app_edit_eq s :
  replace_app_edit s =
  match (if String.prefix "/application" s then lazy_edit (str_drop 12 s) else None) with
  | Some rest => rest
  | None => match s with
            | EmptyString => EmptyString
            | String c s' => String c (replace_app_edit s')
            end
  end.
Proof. by destruct s. Qed.

(** Without ["/application"] the URL is unchanged. *)
Lemma replace_app_edit_id s :
  str_contains "/application" s = false -> replace_app_edit s = s.
Proof.
  induction s as [|c s IH]; [done|]. intros [Hp Hs]%orb_false_iff.
  rewrite replace_app_edit_eq, Hp, IH by done. done.
Qed.

(** No match starts inside a prefix without ['/']. *)
Lemma replace_app_edit_app p s :
  str_has "/" p = false -> replace_app_edit (p +:+ s) = p +:+ replace_app_edit s.
Proof.
  induction p as [|c p IH]; [done|]. intros [Hc Hp]%orb_false_iff.
  change (String c p +:+ s) with (String c (p +:+ s)). rewrite replace_app_edit_eq.
  rewrite prefix_cons_ne by (intros <-; by rewrite Ascii.eqb_refl in Hc).
  by rewrite IH.
Qed.

(** ** The DOM the router writes *)

Inductive NavItem :=
| NavLink (href title : string)     (* <a class="btn-nav btn" href=...> *)
| NavSelected (title : string).     (* <div class="selected-nav"> *)

Inductive AppContent :=
| ContentEmpty
| ContentText (msg : string)
| ContentPage (pageName : string).

Record Dom := mkDom {
  navBar : list NavItem;
  navDisplay : string;
  appContent : AppContent;
  appDisplay : string
}.

(** One entry of the [Object.keys(navTitles).forEach] loop (lines 185-196). *)
Definition nav_item (navTitles : jsobj string) (current k : string) : NavItem :=
  let title := default "undefined" (js_get_own k navTitles) in
  if String.eqb k current then NavSelected title else NavLink ("#" +:+ k) title.

Definition render_nav (navTitles : jsobj string) (current : string) : list NavItem :=
  map (nav_item navTitles current) (js_keys navTitles).

(** What [routes[urlParts[0]]] yields: an own route, an inherited member of
    [Object.prototype] (truthy, with [pageName] and [pageFunc] undefined),
    or nothing. *)
Definition route_value (r : js_lookup_result RouteInfo) : option RouteInfo :=
  match r with
  | JsOwn ri => Some ri
  | JsInherited _ => Some (mkRouteInfo "undefined" None)
  | JsUndefined => None
  end.

Definition not_found_msg (url rawUrl : string) (routes : jsobj RouteInfo) : string :=
  "Could not find route info for url: " +:+ url +:+ " (raw was " +:+ rawUrl
  +:+ ", routes: " +:+ js_join "," (js_keys routes) +:+ ")".

(** [pageTmpl.content] on the [null] of a missing template. *)
Definition template_missing_error : JsError :=
  mkJsError "TypeError" "Cannot read properties of null (reading 'content')".

(** How the synchronous part of [router] ends. *)
Inductive RouterResult :=
| RouteNotFound (msg : string)
| RouteThrew (e : JsError)
| RouteCalled (f : option Controller) (arg : string) (savedNavDisplay : string).

Definition is_selected (i : NavItem) : bool :=
  match i with NavSelected _ => true | NavLink _ _ => false end.

Lemma filter_selected_keys nt top ks :
  NoDup ks ->
  List.filter is_selected (map (nav_item nt top) ks) =
  if bool_decide (top ∈ ks) then [NavSelected (default "undefined" (js_get_own top nt))] else [].
Proof.
  induction 1 as [|k ks Hk Hnd IH]; [done|]. simpl. rewrite IH. unfold nav_item at 1.
  destruct (String.eqb_spec k top) as [->|Hne]; simpl.
  - rewrite bool_decide_false, bool_decide_true by set_solver.
    unfold nav_item. by rewrite String.eqb_refl.
  - by rewrite (bool_decide_ext (top ∈ k :: ks) (top ∈ ks)) by set_solver.
Qed.

Section Router.

(** The [<template id="page-...">] elements of the page. *)
Variable has_template : string -> bool.
Variable routes : jsobj RouteInfo.
Variable navTitles : jsobj string.

(** [urlParts] (lines 174-176).  [hash.slice(1) || ''] is
    [hash.slice(1)]: [''] is the only falsy string. *)
Definition router_path (hash : string) : list string :=
  js_split "/" (replace_app_edit (js_str_slice_from hash 1)).

(** The synchronous part of [router()] (lines 173-223). *)
Definition router (hash : string) (dom : Dom) : Dom * RouterResult :=
  let rawUrl := js_str_slice_from hash 1 in
  let url := replace_app_edit rawUrl in
  let urlParts := router_path hash in
  let routeInfo := js_lookup (js_head urlParts) routes in
  let navBarDisplay := navDisplay dom in
  let bar := render_nav navTitles (js_head urlParts) in
  match route_value routeInfo with
  | None =>
      let msg := not_found_msg url rawUrl routes in
      (mkDom bar (navDisplay dom) (ContentText msg) (appDisplay dom), RouteNotFound msg)
  | Some ri =>
      if has_template (pageName ri) then
        (mkDom bar "none" (ContentPage (pageName ri)) "none",
         RouteCalled (pageFunc ri) (js_join "/" (tail urlParts)) navBarDisplay)
      else (mkDom bar (navDisplay dom) ContentEmpty (appDisplay dom), RouteThrew template_missing_error)
  end.

(** ** Navigations and settling controllers *)

(** The page state and the controller promises whose [.finally] has not
    run yet, each with the nav bar display its [router] call saved. *)
Record World := mkWorld {
  w_dom : Dom;
  w_pending : list (nat * string);
  w_next : nat;
  w_calls : list (option Controller * string)
}.

Inductive Event :=
| EvNavigate (hash : string)
| EvSettle (id : nat).

(** The [.finally] of lines 224-227. *)
Definition finally_show (saved : string) (dom : Dom) : Dom :=
  mkDom (navBar dom) saved (appContent dom) "block".

Definition world_step (w : World) (ev : Event) : World :=
  match ev with
  | EvNavigate h =>
      let '(dom', res) := router h (w_dom w) in
      match res with
      | RouteCalled f arg saved =>
          mkWorld dom' (w_pending w ++ [(w_next w, saved)]) (S (w_next w)) (w_calls w ++ [(f, arg)])
      | _ => mkWorld dom' (w_pending w) (w_next w) (w_calls w)
      end
  | EvSettle id =>
      match list_find (fun p => p.1 = id) (w_pending w) with
      | Some (i, (_, saved)) =>
          mkWorld (finally_show saved (w_dom w)) (delete i (w_pending w)) (w_next w) (w_calls w)
      | None => w
      end
  end.

Definition run_events (w : World) (evs : list Event) : World := foldl world_step w evs.

(** A navigation, or the settling of a pending controller promise. *)
Inductive step : World -> World -> Prop :=
| step_navigate w h : step w (world_step w (EvNavigate h))
| step_settle w id saved : (id, saved) ∈ w_pending w -> step w (world_step w (EvSettle id)).

Definition world_init (dom : Dom) : World := mkWorld dom [] 0 [].

Inductive reachable (dom0 : Dom) : World -> Prop :=
| reach_init : reachable dom0 (world_init dom0)
| reach_step w w' : reachable dom0 w -> step w w' -> reachable dom0 w'.

(** Navigating and waiting for the page to load before the next
    navigation. *)
Definition navigate_and_wait (w : World) (h : string) : World :=
  world_step (world_step w (EvNavigate h)) (EvSettle (w_next w)).

(** ** How [router] leaves the two display styles *)

Lemma router_displays h dom :
  let '(dom', res) := router h dom in
  match res with
  | RouteCalled _ _ saved =>
      saved = navDisplay dom /\ navDisplay dom' = "none" /\ appDisplay dom' = "none"
  | _ => navDisplay dom' = navDisplay dom /\ appDisplay dom' = appDisplay dom
  end.
Proof.
  unfold router. destruct (route_value _) as [ri|]; [|done].
  by destruct (has_template (pageName ri)).
Qed.

Lemma world_settle_cases w id :
  world_step w (EvSettle id) = w \/
  exists saved, (id, saved) ∈ w_pending w /\ w_dom (world_step w (EvSettle id)) = finally_show saved (w_dom w).
Proof.
  simpl. destruct (list_find _ _) as [[i [id' saved]]|] eqn:Hf; [|by left].
  right. apply list_find_Some in Hf as (Hi & Hid & _). simpl in Hid. subst id'.
  exists saved. split; [|done]. by eapply list_elem_of_lookup_2.
Qed.

(** The path of ["#p"] and ["#p/s"] when no ["/application"] is in the way. *)
Lemma router_path_app p sfx :
  str_has "/" p = false -> str_contains "/application" sfx = false ->
  sfx = EmptyString \/ (exists s, sfx = String "/" s) ->
  js_head (router_path ("#" +:+ p +:+ sfx)) = p /\
  js_join "/" (tail (router_path ("#" +:+ p +:+ sfx))) = str_drop 1 sfx.
Proof.
  intros Hp Hs Hsfx. unfold router_path.
  change ("#" +:+ p +:+ sfx) with (String "#" (p +:+ sfx)).
  rewrite js_str_slice_from_1, replace_app_edit_app, replace_app_edit_id by done.
  destruct Hsfx as [->|[s ->]].
  - rewrite str_app_nil_r, js_split_no_sep by done. done.
  - rewrite js_split_app by done. simpl. by rewrite js_join_split.
Qed.

Lemma world_navigate_eq w h :
  world_step w (EvNavigate h) =
  let '(dom', res) := router h (w_dom w) in
  match res with
  | RouteCalled f arg saved =>
      mkWorld dom' (w_pending w ++ [(w_next w, saved)]) (S (w_next w)) (w_calls w ++ [(f, arg)])
  | _ => mkWorld dom' (w_pending w) (w_next w) (w_calls w)
  end.
Proof. done. Qed.

(** A hidden content region has a pending controller behind it. *)
Lemma hidden_has_pending dom0 w :
  appDisplay dom0 <> "none" -> reachable dom0 w ->
  appDisplay (w_dom w) = "none" -> w_pending w <> [].
Proof.
  intros H0 Hr. induction Hr as [|w w' Hr IH Hs]; [done|].
  destruct Hs as [w h|w id saved Hin].
  - rewrite world_navigate_eq. pose proof (router_displays h (w_dom w)) as Hd.
    destruct (router h (w_dom w)) as [dom' [msg|e|f arg sv]]; simpl in *.
    + destruct Hd as [_ ->]. done.
    + destruct Hd as [_ ->]. done.
    + intros _. by destruct (w_pending w).
  - destruct (world_settle_cases w id) as [->|[sv [_ ->]]]; [done|]. done.
Qed.

Lemma settle_single w id sv :
  w_pending w = [(id, sv)] ->
  world_step w (EvSettle id) = mkWorld (finally_show sv (w_dom w)) [] (w_next w) (w_calls w).
Proof. intros Hp. simpl. rewrite Hp. simpl. by case_decide. Qed.

Lemma settle_none w id : w_pending w = [] -> world_step w (EvSettle id) = w.
Proof. intros Hp. simpl. by rewrite Hp. Qed.

(** Navigating then waiting for the controller, from a quiet page, is a
    run of the machine that leaves it quiet with the nav bar as it was. *)
Lemma navigate_and_wait_quiet dom0 w h :
  reachable dom0 w -> w_pending w = [] ->
  let w' := navigate_and_wait w h in
  reachable dom0 w' /\ w_pending w' = [] /\ navDisplay (w_dom w') = navDisplay (w_dom w).
Proof.
  intros Hr Hp. unfold navigate_and_wait.
  assert (Hr1 : reachable dom0 (world_step w (EvNavigate h))) by (eapply reach_step; [done|constructor]).
  pose proof (router_displays h (w_dom w)) as Hd.
  pose proof (world_navigate_eq w h) as Hw1.
  destruct (router h (w_dom w)) as [dom' [msg|e|f arg sv]];
    rewrite Hp in Hw1; rewrite Hw1 in Hr1 |- *.
  - rewrite settle_none by done. split; [done|]. split; [done|]. apply Hd.
  - rewrite settle_none by done. split; [done|]. split; [done|]. apply Hd.
  - destruct Hd as (-> & _ & _). split.
    + eapply reach_step; [exact Hr1|]. apply (step_settle _ _ (navDisplay (w_dom w))). simpl. set_solver.
    + rewrite (settle_single _ _ (navDisplay (w_dom w))) by done. done.
Qed.

(** An interleaving of events is a run when every settled promise is
    pending at that point. *)
Fixpoint run_valid (w : World) (evs : list Event) : bool :=
  match evs with
  | [] => true
  | EvNavigate h :: evs' => run_valid (world_step w (EvNavigate h)) evs'
  | EvSettle id :: evs' =>
      bool_decide (id ∈ map fst (w_pending w)) && run_valid (world_step w (EvSettle id)) evs'
  end.

Lemma reachable_run dom0 w evs :
  reachable dom0 w -> run_valid w evs = true -> reachable dom0 (run_events w evs).
Proof.
  revert w. induction evs as [|[h|id] evs IH]; intros w Hr Hv; simpl in *; [done| |].
  - apply IH; [eapply reach_step; [done|constructor]|done].
  - apply andb_true_iff in Hv as [Hin%bool_decide_eq_true Hv].
    apply list_elem_of_In, in_map_iff in Hin as [[id' sv] [<- Hin]].
    apply IH; [|done]. eapply reach_step; [done|]. apply (step_settle _ _ sv). by apply list_elem_of_In.
Qed.

(** ** The router's contract *)

(** The controller a navigation calls, for clients of the router. *)
Lemma navigate_calls w p sfx ri :
  str_has "/" p = false -> str_contains "/application" sfx = false ->
  sfx = EmptyString \/ (exists s, sfx = String "/" s) ->
  js_get_own p routes = Some ri -> has_template (pageName ri) = true ->
  w_calls (world_step w (EvNavigate ("#" +:+ p +:+ sfx))) = w_calls w ++ [(pageFunc ri, str_drop 1 sfx)].
Proof.
  intros Hp Hs Hsfx Hri Ht. destruct (router_path_app p sfx Hp Hs Hsfx) as [Hhead Harg].
  rewrite world_navigate_eq. unfold router. rewrite Hhead, Harg.
  unfold js_lookup. rewrite Hri. simpl. by rewrite Ht.
Qed.

(** C1. A fragment ["#p"] or ["#p/rest"] whose top segment [p] is a
    registered route (with its page template present) calls exactly that
    route's controller, with [rest] as argument, shows the page and hides
    the content region and the nav bar until the controller settles. *)
Theorem router_dispatch w p sfx ri :
  str_has "/" p = false -> str_contains "/application" sfx = false ->
  sfx = EmptyString \/ (exists s, sfx = String "/" s) ->
  js_get_own p routes = Some ri -> has_template (pageName ri) = true ->
  let w' := world_step w (EvNavigate ("#" +:+ p +:+ sfx)) in
  w_calls w' = w_calls w ++ [(pageFunc ri, str_drop 1 sfx)] /\
  w_pending w' = w_pending w ++ [(w_next w, navDisplay (w_dom w))] /\
  w_dom w' = mkDom (render_nav navTitles p) "none" (ContentPage (pageName ri)) "none".
Proof.
  intros Hp Hs Hsfx Hri Ht. destruct (router_path_app p sfx Hp Hs Hsfx) as [Hhead Harg].
  rewrite world_navigate_eq. unfold router. rewrite Hhead, Harg.
  unfold js_lookup. rewrite Hri. simpl. by rewrite Ht.
Qed.

(** C30. A fragment whose top segment is not a route (own or inherited)
    writes the error message into the content region, calls no controller
    and leaves both display styles unchanged. *)
Theorem router_not_found w h :
  js_lookup (js_head (router_path h)) routes = JsUndefined ->
  let w' := world_step w (EvNavigate h) in
  w_calls w' = w_calls w /\ w_pending w' = w_pending w /\
  appContent (w_dom w') =
    ContentText (not_found_msg (replace_app_edit (js_str_slice_from h 1)) (js_str_slice_from h 1) routes) /\
  navDisplay (w_dom w') = navDisplay (w_dom w) /\ appDisplay (w_dom w') = appDisplay (w_dom w).
Proof.
  intros Hl. rewrite world_navigate_eq. unfold router. rewrite Hl. done.
Qed.

(** C3. In every reachable state where no controller promise is pending,
    the content region is visible. *)
Theorem content_visible_when_settled dom0 w :
  appDisplay dom0 <> "none" -> reachable dom0 w -> w_pending w = [] ->
  appDisplay (w_dom w) <> "none".
Proof. intros H0 Hr Hp Hn. exact (hidden_has_pending dom0 w H0 Hr Hn Hp). Qed.

(** When each navigation waits for its controller, the nav bar's
    display style is restored after every page load. *)
Theorem serial_navigation_restores_nav dom0 w hs :
  reachable dom0 w -> w_pending w = [] ->
  let w' := foldl navigate_and_wait w hs in
  reachable dom0 w' /\ w_pending w' = [] /\ navDisplay (w_dom w') = navDisplay (w_dom w).
Proof.
  revert w. induction hs as [|h hs IH]; intros w Hr Hp; [done|]. simpl.
  destruct (navigate_and_wait_quiet dom0 w h Hr Hp) as (Hr' & Hp' & Hn').
  destruct (IH _ Hr' Hp') as (? & ? & ->). done.
Qed.

(** The settling of the first of two pending promises, and of the
    second. *)
Lemma settle_first w id1 sv1 rest :
  w_pending w = (id1, sv1) :: rest ->
  world_step w (EvSettle id1) = mkWorld (finally_show sv1 (w_dom w)) rest (w_next w) (w_calls w).
Proof. intros Hp. simpl. rewrite Hp. simpl. by rewrite decide_True. Qed.

Lemma settle_second w id1 sv1 id2 sv2 :
  id1 <> id2 -> w_pending w = [(id1, sv1); (id2, sv2)] ->
  world_step w (EvSettle id2) = mkWorld (finally_show sv2 (w_dom w)) [(id1, sv1)] (w_next w) (w_calls w).
Proof. intros Hne Hp. simpl. rewrite Hp. simpl. rewrite decide_False by done. by rewrite decide_True. Qed.

(** Two navigations that both call a controller, from a quiet page. *)
Lemma two_navigations w h1 h2 dom1 dom2 f1 a1 sv1 f2 a2 sv2 :
  w_pending w = [] ->
  router h1 (w_dom w) = (dom1, RouteCalled f1 a1 sv1) ->
  router h2 dom1 = (dom2, RouteCalled f2 a2 sv2) ->
  run_events w [EvNavigate h1; EvNavigate h2] =
  mkWorld dom2 [(w_next w, navDisplay (w_dom w)); (S (w_next w), "none")] (S (S (w_next w)))
          (w_calls w ++ [(f1, a1)] ++ [(f2, a2)]).
Proof.
  intros Hp H1 H2. pose proof (router_displays h1 (w_dom w)) as D1. pose proof (router_displays h2 dom1) as D2.
  rewrite H1 in D1. rewrite H2 in D2. destruct D1 as (-> & Hn1 & _). destruct D2 as (-> & _ & _).
  unfold run_events. cbn [foldl]. rewrite (world_navigate_eq w h1), H1. cbv iota.
  rewrite world_navigate_eq. cbn [w_dom w_pending w_next w_calls]. rewrite H2. cbv iota.
  rewrite Hp, Hn1. simpl. by rewrite <- app_assoc.
Qed.

(** C2. Two overlapping navigations that both call a controller, from any
    quiet page: when the first controller settles, the content region is
    shown while the second is still loading; when the promises settle in
    the order of the calls the nav bar ends hidden (the second [router]
    call saved [display: none]), and only the reverse order restores the
    display the page had. *)
Theorem overlapping_navigations_hide_nav_bar w h1 h2 dom1 dom2 f1 a1 sv1 f2 a2 sv2 :
  w_pending w = [] ->
  router h1 (w_dom w) = (dom1, RouteCalled f1 a1 sv1) ->
  router h2 dom1 = (dom2, RouteCalled f2 a2 sv2) ->
  let w2 := run_events w [EvNavigate h1; EvNavigate h2] in
  let w3 := world_step w2 (EvSettle (w_next w)) in
  w_pending w3 = [(S (w_next w), "none")] /\ appDisplay (w_dom w3) = "block" /\
  w_pending (world_step w3 (EvSettle (S (w_next w)))) = [] /\
  navDisplay (w_dom (world_step w3 (EvSettle (S (w_next w))))) = "none" /\
  navDisplay (w_dom (run_events w2 [EvSettle (S (w_next w)); EvSettle (w_next w)])) = navDisplay (w_dom w).
Proof.
  intros Hp H1 H2. cbv zeta. rewrite (two_navigations w h1 h2 dom1 dom2 f1 a1 sv1 f2 a2 sv2 Hp H1 H2).
  rewrite (settle_first _ (w_next w) (navDisplay (w_dom w)) [(S (w_next w), "none")]) by done.
  rewrite (settle_single _ (S (w_next w)) "none") by done.
  unfold run_events. cbn [foldl].
  rewrite (settle_second _ (w_next w) (navDisplay (w_dom w)) (S (w_next w)) "none") by (done || lia).
  rewrite (settle_single _ (w_next w) (navDisplay (w_dom w))) by done.
  done.
Qed.

End Router.

(** The page templates of index.html: one per registered page name. *)
Definition page_templates (name : string) : bool :=
  bool_decide (name ∈ ["apps"; "create"; "tasks"; "api"; "templates"]%string).

(** The page before the first navigation: no inline display style. *)
Definition dom_initial : Dom := mkDom [] "" ContentEmpty "".

(** The router of the application, on the route table and nav titles
    built at start-up (the listeners of lines 229-230). *)
Definition app_router := router page_templates routes_init navTitles_init.
Definition app_world_step := world_step page_templates routes_init navTitles_init.

Lemma app_world_dom w h : w_dom (app_world_step w (EvNavigate h)) = (app_router h (w_dom w)).1.
Proof.
  unfold app_world_step, world_step, app_router.
  by destruct (router _ _ _ h (w_dom w)) as [? [| |[]]].
Qed.

Lemma app_router_home dom :
  app_router "#" dom =
  (mkDom (render_nav navTitles_init "") "none" (ContentPage "apps") "none",
   RouteCalled (Some CtlApps) "" (navDisplay dom)).
Proof. reflexivity. Qed.

Lemma app_router_tasks dom :
  app_router "#tasks" dom =
  (mkDom (render_nav navTitles_init "tasks") "none" (ContentPage "tasks") "none",
   RouteCalled (Some CtlTasks) "" (navDisplay dom)).
Proof. reflexivity. Qed.

Lemma app_router_templates dom :
  app_router "#templates" dom =
  (mkDom (render_nav navTitles_init "templates") "none" (ContentPage "templates") "none",
   RouteCalled (Some CtlTemplates) "" (navDisplay dom)).
Proof. reflexivity. Qed.

Lemma app_router_api dom :
  app_router "#api" dom =
  (mkDom (render_nav navTitles_init "api") "none" (ContentPage "api") "none",
   RouteCalled (Some CtlApi) "" (navDisplay dom)).
Proof. reflexivity. Qed.

(** The nav bar built on every navigation lists all five tabs and
    marks as selected exactly the tab of the current top segment (none for
    a segment without a tab, such as ["modify"]). *)
Theorem nav_bar_selection top :
  List.filter is_selected (render_nav navTitles_init top) =
  match js_get_own top navTitles_init with Some t => [NavSelected t] | None => [] end.
Proof.
  unfold render_nav. rewrite js_keys_plain by (apply (bool_decide_unpack _); vm_compute; reflexivity).
  rewrite (filter_selected_keys navTitles_init top (map fst navTitles_init))
    by (apply (bool_decide_unpack _); vm_compute; reflexivity).
  destruct (js_get_own top navTitles_init) as [t|] eqn:E.
  - rewrite bool_decide_true; [done|].
    by eapply js_get_own_Some.
  - rewrite bool_decide_false; [done|]. by apply js_get_own_None.
Qed.

(** C38. A fragment naming a member of [Object.prototype] (["#constructor"],
    ["#toString"], ...) finds a truthy [routes] entry: the router shows no
    "route not found" message, clears the page and throws on the missing
    [#page-undefined] template. *)
Theorem router_inherited_member_throws dom p :
  p ∈ object_prototype_members ->
  router page_templates routes_init navTitles_init ("#" +:+ p) dom =
  (mkDom (render_nav navTitles_init p) (navDisplay dom) ContentEmpty (appDisplay dom),
   RouteThrew template_missing_error).
Proof.
  intros Hp. apply list_elem_of_In in Hp.
  destruct dom. repeat (destruct Hp as [<-|Hp]; [vm_compute; reflexivity|]). destruct Hp.
Qed.

Definition overlap_events : list Event :=
  [EvNavigate "#tasks"; EvNavigate "#templates"; EvSettle 0; EvSettle 1].

(** ** Witnesses *)

Lemma overlapping_navigations_hide_nav_bar_witness :
  navDisplay (w_dom (run_events page_templates routes_init navTitles_init (world_init dom_initial)
                      overlap_events)) = "none".
Proof.
  exact (proj1 (proj2 (proj2 (proj2
    (overlapping_navigations_hide_nav_bar page_templates routes_init navTitles_init (world_init dom_initial)
       "#tasks" "#templates" _ _ _ _ _ _ _ _ eq_refl eq_refl eq_refl))))).
Defined.

Lemma router_dispatch_witness :
  w_calls (world_step page_templates routes_init navTitles_init (world_init dom_initial)
             (EvNavigate "#modify/t1/app1")) = [(Some CtlModify, "t1/app1")].
Proof.
  destruct (router_dispatch page_templates routes_init navTitles_init (world_init dom_initial)
              "modify" "/t1/app1" (mkRouteInfo "create" (Some CtlModify))
              eq_refl eq_refl (or_intror (ex_intro _ "t1/app1" eq_refl)) eq_refl eq_refl) as [H _].
  exact H.
Defined.

Lemma router_not_found_witness :
  w_calls (world_step page_templates routes_init navTitles_init (world_init dom_initial)
             (EvNavigate "#foo")) = [].
Proof.
  destruct (router_not_found page_templates routes_init navTitles_init (world_init dom_initial)
              "#foo" eq_refl) as [H _].
  exact H.
Defined.

Lemma content_visible_when_settled_witness :
  appDisplay (w_dom (run_events page_templates routes_init navTitles_init (world_init dom_initial)
                      overlap_events)) <> "none".
Proof.
  apply (content_visible_when_settled page_templates routes_init navTitles_init dom_initial).
  - discriminate.
  - apply reachable_run; [constructor|vm_compute; reflexivity].
  - vm_compute. reflexivity.
Defined.

Lemma serial_navigation_restores_nav_witness :
  navDisplay (w_dom (foldl (navigate_and_wait page_templates routes_init navTitles_init)
                       (world_init dom_initial) ["#tasks"; "#templates"; "#bogus"])) = "".
Proof.
  destruct (serial_navigation_restores_nav page_templates routes_init navTitles_init dom_initial
              (world_init dom_initial) ["#tasks"; "#templates"; "#bogus"]
              (reach_init _ _ _ _) eq_refl) as (_ & _ & H).
  exact H.
Defined.

Lemma router_inherited_member_throws_witness :
  (router page_templates routes_init navTitles_init ("#" +:+ "constructor") dom_initial).2 =
  RouteThrew template_missing_error.
Proof.
  rewrite (router_inherited_member_throws dom_initial "constructor"); [reflexivity|].
  apply list_elem_of_In. left. reflexivity.
Defined.

(** The URL normalisation also fires inside a tenant or application name:
    the Modify link of application ["edit"] in tenant ["application"] loads
    the modify page for the empty application id. *)
Example modify_link_collapsed :
  (router page_templates routes_init navTitles_init "#modify/application/edit" dom_initial).2 =
  RouteCalled (Some CtlModify) "" "".
Proof. vm_compute. reflexivity. Qed.

End Router.
