(* ===== verification/Tasks.v ===== *)
(** * The tasks controller and its poll (app.js lines 356-402)

    [renderTaskList] fetches [tasks] through [getJSON], rewrites the
    [#task-list] element (a header, a rule, then one row and one rule per
    task, odd rows striped) and, when some task's message is the literal
    ["in progress"], schedules itself again with [setTimeout(.., 5000)].
    [poll] runs that loop against an oracle [server] giving the settled
    [fetch] of the [k]-th GET, one fuel unit per timer firing; its result
    says whether the loop stopped, failed, or is still scheduled. *)

From S2P Require Import Prelude Http.

Module Tasks.

(** An element of [GET /tasks]. *)
Record Task := mkTask {
  task_id : string;
  task_tenant : string;
  task_application : string;
  task_message : string
}.

(** The children of [#task-list]. *)
Inductive TaskElem :=
| TaskHeader                                   (* the appListRow of titles *)
| TaskHr                                       (* <hr> *)
| TaskRow (zebra : bool) (id tenant message : string).

(** The row of the [count]-th task (lines 369-390). *)
Definition task_row (count : nat) (item : Task) : list TaskElem :=
  [TaskRow (Nat.odd count) (task_id item)
           (task_tenant item +:+ "/" +:+ task_application item) (task_message item);
   TaskHr].

(** The [forEach] of lines 368-391, [count] counting from 1. *)
Fixpoint task_rows (count : nat) (data : list Task) : list TaskElem :=
  match data with
  | [] => []
  | item :: data' => task_row (S count) item ++ task_rows (S count) data'
  end.

Definition render_task_list (data : list Task) : list TaskElem :=
  TaskHeader :: TaskHr :: task_rows 0 data.

(** [data.filter(x => x.message === 'in progress').length !== 0] *)
Definition inProgressJob (data : list Task) : bool :=
  negb (length (List.filter (fun x => String.eqb (task_message x) "in progress") data) =? 0)%nat.

(** One [renderTaskList()]: the new content of [#task-list] and whether
    the timer was set; a rejection of [getJSON] leaves the list alone. *)
Definition renderTaskList (fr : fetch_result (list Task)) : settled (list TaskElem * bool) :=
  data <- getJSON "tasks" fr ;;
  Fulfilled (render_task_list data, inProgressJob data).

Inductive PollResult :=
| PollStopped (fetches : nat) (content : list TaskElem)
| PollFailed (fetches : nat) (content : list TaskElem) (e : JsError)
| PollScheduled (fetches : nat) (content : list TaskElem).

Section Poll.

Variable server : nat -> fetch_result (list Task).

(** The poll from the [k]-th fetch on, with [content] on the page. *)
Fixpoint poll (fuel k : nat) (content : list TaskElem) : PollResult :=
  match fuel with
  | O => PollScheduled k content
  | S fuel' =>
      match renderTaskList (server k) with
      | Rejected e => PollFailed (S k) content e
      | Fulfilled (rows, again) =>
          if again then poll fuel' (S k) rows else PollStopped (S k) rows
      end
  end.

Local Abbreviation busy k :=
  (exists d, getJSON "tasks" (server k) = Fulfilled d /\ inProgressJob d = true).

Lemma poll_busy fuel k c d :
  getJSON "tasks" (server k) = Fulfilled d -> inProgressJob d = true ->
  poll (S fuel) k c = poll fuel (S k) (render_task_list d).
Proof. intros Hd Hb. simpl. unfold renderTaskList. by rewrite Hd; simpl; rewrite Hb. Qed.

Lemma poll_quiet fuel k c d :
  getJSON "tasks" (server k) = Fulfilled d -> inProgressJob d = false ->
  poll (S fuel) k c = PollStopped (S k) (render_task_list d).
Proof. intros Hd Hb. simpl. unfold renderTaskList. by rewrite Hd; simpl; rewrite Hb. Qed.

Lemma poll_reject fuel k c e :
  getJSON "tasks" (server k) = Rejected e -> poll (S fuel) k c = PollFailed (S k) c e.
Proof. intros He. simpl. unfold renderTaskList. by rewrite He. Qed.

(** Busy responses from [i] to [k - 1] are skipped over. *)
Lemma poll_skip_busy i k fuel c :
  (i <= k)%nat -> (k - i < fuel)%nat -> (forall j, (i <= j < k)%nat -> busy j) ->
  exists c', poll fuel i c = poll (fuel - (k - i)) k c'.
Proof.
  remember (k - i)%nat as m eqn:Hm. revert i fuel c Hm.
  induction m as [|m IH]; intros i fuel c Hm Hik Hf Hb.
  - assert (i = k) as -> by lia. exists c. by rewrite Nat.sub_0_r.
  - destruct fuel as [|fuel]; [lia|]. destruct (Hb i ltac:(lia)) as (d & Hd & Hp).
    rewrite (poll_busy _ _ _ d) by done.
    destruct (IH (S i) fuel (render_task_list d) ltac:(lia) ltac:(lia) ltac:(lia)) as [c' Hc'];
      [intros; apply Hb; lia|].
    exists c'. rewrite Hc'; f_equal; lia.
Qed.

(** C6. The poll stops after exactly [k + 1] fetches when the [k]-th is
    the first list without an ["in progress"] task, leaving that list on
    the page. *)
Theorem poll_stops_at_first_quiet k d fuel c :
  (forall j, (j < k)%nat -> busy j) ->
  getJSON "tasks" (server k) = Fulfilled d -> inProgressJob d = false ->
  (k < fuel)%nat ->
  poll fuel 0 c = PollStopped (S k) (render_task_list d).
Proof.
  intros Hb Hd Hq Hf.
  destruct (poll_skip_busy 0 k fuel c ltac:(lia) ltac:(lia)) as [c' ->]; [intros; apply Hb; lia|].
  replace (fuel - (k - 0))%nat with (S (fuel - S k)) by lia.
  by apply poll_quiet.
Qed.

(** C17. While every list has a task ["in progress"], the poll never
    stops: after any number of fetches the timer is set again. *)
Theorem poll_unbounded fuel c :
  (forall j, busy j) -> exists c', poll fuel 0 c = PollScheduled fuel c'.
Proof.
  intros Hb. cut (forall i c, exists c', poll fuel i c = PollScheduled (i + fuel) c').
  { intros H. destruct (H 0%nat c) as [c' ->]. by exists c'. }
  induction fuel as [|fuel IH]; intros i c0.
  - exists c0. simpl. f_equal. lia.
  - destruct (Hb i) as (d & Hd & Hp). rewrite (poll_busy _ _ _ d) by done.
    destruct (IH (S i) (render_task_list d)) as [c' ->]. exists c'. f_equal. lia.
Qed.

(** A failed fetch ends the poll: no timer is set after it, and the
    page keeps the last list rendered. *)
Theorem poll_stops_on_error k e fuel c :
  (forall j, (j < k)%nat -> busy j) ->
  getJSON "tasks" (server k) = Rejected e -> (k < fuel)%nat ->
  exists c', poll fuel 0 c = PollFailed (S k) c' e.
Proof.
  intros Hb He Hf.
  destruct (poll_skip_busy 0 k fuel c ltac:(lia) ltac:(lia)) as [c' ->]; [intros; apply Hb; lia|].
  replace (fuel - (k - 0))%nat with (S (fuel - S k)) by lia.
  exists c'. by apply poll_reject.
Qed.

End Poll.

Lemma inProgressJob_spec data :
  inProgressJob data = true <-> exists t, t ∈ data /\ task_message t = "in progress".
Proof.
  unfold inProgressJob. induction data as [|t data IH]; simpl.
  - split; [done|]. intros (? & Hin & _). by apply elem_of_nil in Hin.
  - destruct (String.eqb_spec (task_message t) "in progress") as [Ht|Ht]; simpl.
    + split; [|done]. intros _. exists t. split; [left|done].
    + rewrite IH. split.
      * intros (t' & Hin & Hm). exists t'. split; [by right|done].
      * intros (t' & Hin%elem_of_cons & Hm). destruct Hin as [->|Hin]; [done|]. by exists t'.
Qed.

(** One [renderTaskList] run: when it succeeds the page shows the
    fetched list, and the re-fetch is scheduled exactly when some task's
    message is ["in progress"]. *)
Theorem renderTaskList_schedules fr rows again :
  renderTaskList fr = Fulfilled (rows, again) ->
  exists data, getJSON "tasks" fr = Fulfilled data /\ rows = render_task_list data /\
    (again = true <-> exists t, t ∈ data /\ task_message t = "in progress").
Proof.
  unfold renderTaskList. destruct (getJSON "tasks" fr) as [data|e]; simpl; [|done].
  intros [= <- <-]. exists data. split; [done|]. split; [done|]. apply inProgressJob_spec.
Qed.

(** The [i]-th task is drawn as the [2 i]-th child after the header,
    striped when its 1-based position is odd, followed by a rule. *)
Lemma task_rows_lookup c data i t :
  data !! i = Some t ->
  task_rows c data !! (2 * i)%nat =
    Some (TaskRow (Nat.odd (c + S i)) (task_id t) (task_tenant t +:+ "/" +:+ task_application t) (task_message t)) /\
  task_rows c data !! (2 * i + 1)%nat = Some TaskHr.
Proof.
  revert c i. induction data as [|t' data IH]; intros c i Hi; [done|].
  destruct i as [|i]; simpl in Hi.
  - injection Hi as ->. simpl. by rewrite Nat.add_1_r.
  - replace (2 * S i)%nat with (S (S (2 * i))) by lia. simpl.
    replace (c + S (S i))%nat with (S c + S i)%nat by lia. by apply IH.
Qed.

(** The rendered task list has the header, a rule, then for the
    [i]-th task its row (id, ["tenant/application"], message), striped on
    odd positions, and a rule: [2 n + 2] children for [n] tasks. *)
Theorem render_task_list_rows data :
  length (render_task_list data) = (2 * length data + 2)%nat /\
  forall i t, data !! i = Some t ->
    render_task_list data !! (2 * i + 2)%nat =
      Some (TaskRow (Nat.odd (S i)) (task_id t) (task_tenant t +:+ "/" +:+ task_application t) (task_message t)) /\
    render_task_list data !! (2 * i + 3)%nat = Some TaskHr.
Proof.
  split.
  - unfold render_task_list. simpl. cut (forall c, length (task_rows c data) = 2 * length data)%nat; [intros ->; lia|].
    induction data as [|t data IH]; intros c; simpl; [done|]. rewrite IH. lia.
  - intros i t Hi. destruct (task_rows_lookup 0 data i t Hi) as [H1 H2].
    unfold render_task_list. replace (2 * i + 2)%nat with (S (S (2 * i))) by lia.
    replace (2 * i + 3)%nat with (S (S (2 * i + 1))) by lia. simpl. by split.
Qed.

(** ** Witnesses *)

Definition task_running : Task := mkTask "1" "tenant1" "app1" "in progress".
Definition task_done : Task := mkTask "2" "tenant1" "app2" "success".

Definition ok_tasks (d : list Task) : fetch_result (list Task) :=
  Fulfilled (mkResponse true 200 "OK" (Fulfilled d)).

(** Two polls see a running task, the third sees it finished. *)
Definition tasks_server (k : nat) : fetch_result (list Task) :=
  if (k <? 2)%nat then ok_tasks [task_running; task_done] else ok_tasks [task_done].

Lemma poll_stops_at_first_quiet_witness :
  poll tasks_server 10 0 [] = PollStopped 3 (render_task_list [task_done]).
Proof.
  apply (poll_stops_at_first_quiet tasks_server 2 [task_done]); [|reflexivity|reflexivity|lia].
  intros j Hj. exists [task_running; task_done].
  destruct j as [|[|j]]; [split; reflexivity|split; reflexivity|lia].
Defined.

Lemma poll_unbounded_witness :
  exists c', poll (fun _ => ok_tasks [task_running]) 7 0 [] = PollScheduled 7 c'.
Proof. apply poll_unbounded. intros j. exists [task_running]. split; reflexivity. Defined.

Lemma poll_stops_on_error_witness :
  exists c', poll (fun _ => Fulfilled (mkResponse false 503 "Service Unavailable" (Fulfilled []))) 3 0 [] =
             PollFailed 1 c' (Error "Failed to get data from /mgmt/shared/fast/tasks: 503 Service Unavailable").
Proof. apply poll_stops_on_error; [lia|reflexivity|lia]. Defined.

Lemma renderTaskList_schedules_witness :
  exists t, t ∈ [task_running; task_done] /\ task_message t = "in progress".
Proof.
  destruct (renderTaskList_schedules (ok_tasks [task_running; task_done])
              (render_task_list [task_running; task_done]) true eq_refl) as (data & Hd & _ & Hs).
  injection Hd as <-. by apply Hs.
Defined.

Lemma render_task_list_rows_witness :
  render_task_list [task_running; task_done] !! 4%nat =
  Some (TaskRow false "2" "tenant1/app2" "success").
Proof.
  destruct (render_task_list_rows [task_running; task_done]) as [_ H].
  exact (proj1 (H 1%nat task_done eq_refl)).
Defined.

End Tasks.
