(* ===== verification/AppList.v ===== *)
(** * The application list controller (app.js lines 242-316)

    The controller registered for the empty route fetches [applications]
    and appends, for each application, a row (tenant, name, template, a
    Modify link to [#modify/tenant/name], a Delete button), striping odd
    rows and inserting a divider, with the tenant's name in the row,
    whenever the tenant differs from the previous row's ([lastTenant],
    initially ['']).  The Delete button issues a [DELETE] and then moves to
    [#tasks].  The Modify link is followed by the router: [modify_link_dispatch]
    connects this file to [Router]. *)

From S2P Require Import Prelude Http Router.

Module AppList.

Import Router.

(** An element of [GET /applications]. *)
Record App := mkApp { app_tenant : string; app_name : string; app_template : string }.

(** The children of [#applist]. *)
Inductive AppListElem :=
| AppHeader                                     (* the row of titles *)
| Divider (zebra : bool)                        (* <hr> *)
| AppRow (zebra : bool) (tenant_cell : option string) (name template : string)
         (modify_href : string) (pair : string).

#[export] Instance App_eq_dec : EqDecision App.
Proof. solve_decision. Defined.
#[export] Instance AppListElem_eq_dec : EqDecision AppListElem.
Proof. solve_decision. Defined.

(** [appPair.join('/')] *)
Definition app_pair (app : App) : string := js_join "/" [app_tenant app; app_name app].

(** The body of [appsList.forEach] (lines 257-311) with its state
    [(count, lastTenant)]. *)
Definition app_entry (st : nat * string) (app : App) : (nat * string) * list AppListElem :=
  let '(count, lastTenant) := st in
  let count' := S count in
  let zebra := Nat.odd count' in
  let row cell := AppRow zebra cell (app_name app) (app_template app)
                         ("#modify/" +:+ app_pair app) (app_pair app) in
  if negb (String.eqb (app_tenant app) lastTenant)
  then ((count', app_tenant app), [Divider zebra; row (Some (app_tenant app))])
  else ((count', lastTenant), [row None]).

Fixpoint app_entries (st : nat * string) (apps : list App) : list AppListElem :=
  match apps with
  | [] => []
  | app :: apps' => let '(st', elems) := app_entry st app in elems ++ app_entries st' apps'
  end.

Definition render_app_list (apps : list App) : list AppListElem :=
  AppHeader :: app_entries (0, "") apps.

(** The controller's promise (lines 247-315), given the fetch of
    [applications]: the texts written to the output and the new list, if
    any.  The [.catch] turns every failure into a message, so the promise
    always fulfils. *)
Definition apps_controller (fr : fetch_result (list App))
    : list string * option (list AppListElem) * settled unit :=
  let out := dispOutput [] "Fetching applications list" in
  match getJSON "applications" fr with
  | Fulfilled apps => (dispOutput out "", Some (render_app_list apps), Fulfilled tt)
  | Rejected e =>
      (dispOutput out ("Error fetching applications: " +:+ err_message e), None,
       catch_ (Rejected e) (fun _ => Fulfilled tt))
  end.

(** A click on the Delete button of the row of [pair] (lines 300-308): the
    text written, the request, and where [window.location.href] goes once
    the [fetch] has settled ([None]: it rejected, and nothing happens). *)
Definition delete_click (pair : string) (fr : fetch_result unit)
    : list string * Request * option string :=
  (dispOutput [] ("Deleting " +:+ pair),
   mkRequest "DELETE" (endPointUrl +:+ "/applications/" +:+ pair) None,
   match fr with Fulfilled _ => Some "#tasks" | Rejected _ => None end).

(** ** Reference: which rows name their tenant *)

(** The tenants labelled, in order, for a list of tenants read after
    [prev]: a tenant is labelled when it differs from the previous one. *)
Fixpoint tenant_labels (prev : string) (ts : list string) : list string :=
  match ts with
  | [] => []
  | t :: ts' => if String.eqb t prev then tenant_labels prev ts' else t :: tenant_labels t ts'
  end.

(** The tenants of a list come in blocks: a tenant followed by another one
    does not come back. *)
Fixpoint tenants_grouped (ts : list string) : bool :=
  match ts with
  | [] => true
  | t :: ts' =>
      match ts' with
      | [] => true
      | u :: _ => String.eqb t u || negb (existsb (String.eqb t) ts')
      end && tenants_grouped ts'
  end.

Definition shown_tenants (elems : list AppListElem) : list string :=
  omap (fun e => match e with AppRow _ (Some t) _ _ _ _ => Some t | _ => None end) elems.

Definition row_pairs (elems : list AppListElem) : list string :=
  omap (fun e => match e with AppRow _ _ _ _ _ p => Some p | _ => None end) elems.

Definition is_divider (e : AppListElem) : bool :=
  match e with Divider _ => true | _ => false end.

(** ** Lemmas *)

Lemma app_entries_cons c last app apps :
  app_entries (c, last) (app :: apps) =
  if String.eqb (app_tenant app) last
  then AppRow (Nat.odd (S c)) None (app_name app) (app_template app)
              ("#modify/" +:+ app_pair app) (app_pair app) :: app_entries (S c, last) apps
  else Divider (Nat.odd (S c)) ::
       AppRow (Nat.odd (S c)) (Some (app_tenant app)) (app_name app) (app_template app)
              ("#modify/" +:+ app_pair app) (app_pair app) :: app_entries (S c, app_tenant app) apps.
Proof. simpl. by destruct (String.eqb (app_tenant app) last). Qed.

Lemma app_entries_shown c last apps :
  shown_tenants (app_entries (c, last) apps) = tenant_labels last (map app_tenant apps).
Proof.
  revert c last. induction apps as [|app apps IH]; intros c last; [done|].
  rewrite app_entries_cons. simpl. destruct (String.eqb (app_tenant app) last); simpl; by rewrite IH.
Qed.

Lemma app_entries_pairs c last apps :
  row_pairs (app_entries (c, last) apps) = map app_pair apps.
Proof.
  revert c last. induction apps as [|app apps IH]; intros c last; [done|].
  rewrite app_entries_cons. destruct (String.eqb (app_tenant app) last); simpl; by rewrite IH.
Qed.

Lemma app_entries_dividers c last apps :
  length (List.filter is_divider (app_entries (c, last) apps)) =
  length (tenant_labels last (map app_tenant apps)).
Proof.
  revert c last. induction apps as [|app apps IH]; intros c last; [done|].
  rewrite app_entries_cons. simpl. destruct (String.eqb (app_tenant app) last); simpl; by rewrite IH.
Qed.

Lemma app_entries_rows c last apps z cell n t href pair :
  AppRow z cell n t href pair ∈ app_entries (c, last) apps ->
  exists app, app ∈ apps /\ href = "#modify/" +:+ app_pair app /\ pair = app_pair app.
Proof.
  revert c last. induction apps as [|app apps IH]; intros c last Hin;
    [by apply elem_of_nil in Hin|].
  rewrite app_entries_cons in Hin.
  destruct (String.eqb (app_tenant app) last); rewrite ?elem_of_cons in Hin.
  - destruct Hin as [Heq|Hin].
    + injection Heq as _ _ _ _ -> ->. exists app. split; [left|done].
    + destruct (IH _ _ Hin) as (a & ? & ?). exists a. split; [by right|done].
  - destruct Hin as [Hin|[Heq|Hin]]; [done| |].
    + injection Heq as _ _ _ _ -> ->. exists app. split; [left|done].
    + destruct (IH _ _ Hin) as (a & ? & ?). exists a. split; [by right|done].
Qed.

Lemma tenant_labels_sub prev ts x : x ∈ tenant_labels prev ts -> x ∈ ts.
Proof.
  revert prev. induction ts as [|t ts IH]; intros prev; simpl; [done|].
  destruct (String.eqb t prev); [set_solver|]. rewrite elem_of_cons. set_solver.
Qed.

Lemma tenant_labels_cover prev ts x : x ∈ ts -> x ∈ tenant_labels prev ts \/ x = prev.
Proof.
  revert prev. induction ts as [|t ts IH]; intros prev Hx; [by apply elem_of_nil in Hx|]. simpl.
  apply elem_of_cons in Hx as [<-|Hx].
  - destruct (String.eqb_spec x prev); [by right|left; by left].
  - destruct (String.eqb_spec t prev) as [->|]; [by apply IH|].
    destruct (IH t Hx) as [H| ->]; left; [by right|by left].
Qed.

(** In a grouped list, a tenant is not labelled again after its block. *)
Lemma tenant_labels_fresh t ts : tenants_grouped (t :: ts) = true -> t ∉ tenant_labels t ts.
Proof.
  induction ts as [|u ts IH]; simpl; [set_solver|].
  intros [Hg Hg']%andb_true_iff. destruct (String.eqb_spec u t) as [->|Hne].
  - apply IH. simpl. destruct ts as [|v ts]; [done|]. apply andb_true_iff in Hg' as [? ?].
    by apply andb_true_iff.
  - apply orb_true_iff in Hg as [Ht%String.eqb_eq|Hn]; [done|].
    rewrite not_elem_of_cons. split; [done|]. intros Hin%tenant_labels_sub.
    apply negb_true_iff in Hn. simpl in Hn. apply orb_false_iff in Hn as [_ Hn].
    assert (existsb (String.eqb t) ts = true) as Hc; [|congruence].
    apply existsb_exists. exists t. split; [by apply list_elem_of_In|apply String.eqb_refl].
Qed.

Lemma tenant_labels_nodup prev ts :
  tenants_grouped (prev :: ts) = true -> NoDup (tenant_labels prev ts).
Proof.
  revert prev. induction ts as [|t ts IH]; intros prev Hg; simpl; [constructor|].
  simpl in Hg. apply andb_true_iff in Hg as [Hh Hg].
  destruct (String.eqb_spec t prev) as [->|Hne].
  - apply IH. simpl. destruct ts as [|u ts]; [done|]. simpl in Hg |- *.
    apply andb_true_iff in Hg as [? ?]. by apply andb_true_iff.
  - constructor; [by apply tenant_labels_fresh|]. by apply IH.
Qed.

Lemma tenants_grouped_fresh t ts :
  t ∉ ts -> tenants_grouped ts = true -> tenants_grouped (t :: ts) = true.
Proof.
  intros Ht Hg. simpl. rewrite Hg, andb_true_r. destruct ts as [|u us]; [done|].
  apply orb_true_iff. right. apply negb_true_iff, not_true_iff_false.
  intros [x [Hx Heq%String.eqb_eq]]%existsb_exists. subst x. apply Ht. by apply list_elem_of_In.
Qed.

(** ** The controller's contract *)

(** One row per application, in order, and each row's Modify link names
    that application's ["tenant/name"]. *)
Theorem render_app_list_rows apps :
  row_pairs (render_app_list apps) = map app_pair apps /\
  shown_tenants (render_app_list apps) = tenant_labels "" (map app_tenant apps) /\
  length (List.filter is_divider (render_app_list apps)) = length (tenant_labels "" (map app_tenant apps)).
Proof.
  unfold render_app_list. split; [apply app_entries_pairs|]. split; [apply app_entries_shown|].
  apply app_entries_dividers.
Qed.

(** C19. When the applications arrive grouped by tenant (and no tenant is
    empty), every tenant is named exactly once, on the first row of its
    block. *)
Theorem grouped_tenants_labelled_once apps :
  tenants_grouped (map app_tenant apps) = true -> "" ∉ map app_tenant apps ->
  NoDup (shown_tenants (render_app_list apps)) /\
  (forall t, t ∈ map app_tenant apps -> t ∈ shown_tenants (render_app_list apps)).
Proof.
  intros Hg He.
  change (shown_tenants (render_app_list apps)) with (shown_tenants (app_entries (0%nat, "") apps)).
  rewrite app_entries_shown. split.
  - apply tenant_labels_nodup. by apply tenants_grouped_fresh.
  - intros t Ht. destruct (tenant_labels_cover "" _ t Ht) as [H| ->]; [done|contradiction].
Qed.

(** C18. Following the Modify link of any row calls the modify controller with
    that application's ["tenant/name"], provided the normalisation of the
    router does not fire on it. *)
Theorem modify_link_dispatch apps w z cell n t href pair :
  AppRow z cell n t href pair ∈ render_app_list apps ->
  str_contains "/application" ("/" +:+ pair) = false ->
  exists app, app ∈ apps /\ pair = app_tenant app +:+ "/" +:+ app_name app /\
  w_calls (world_step page_templates routes_init navTitles_init w (EvNavigate href)) =
    w_calls w ++ [(Some CtlModify, pair)].
Proof.
  intros Hin Hs. apply elem_of_cons in Hin as [Hin|Hin]; [done|].
  destruct (app_entries_rows _ _ _ _ _ _ _ _ _ Hin) as (app & Happ & -> & ->).
  exists app. split; [done|]. split; [done|].
  exact (navigate_calls page_templates routes_init navTitles_init w "modify" ("/" +:+ app_pair app)
           (mkRouteInfo "create" (Some CtlModify)) eq_refl Hs
           (or_intror (ex_intro _ (app_pair app) eq_refl)) eq_refl eq_refl).
Qed.

(** Delete issues one [DELETE] to [applications/tenant/name] and moves to
    [#tasks] once the request settles, whatever the HTTP status (the
    response is not checked); a network failure leaves the page as it is
    (no [.catch]). *)
Theorem delete_click_spec pair fr :
  (delete_click pair fr).1.1 = ["Deleting " +:+ pair] /\
  (delete_click pair fr).1.2 = mkRequest "DELETE" ("/mgmt/shared/fast/applications/" +:+ pair) None /\
  ((delete_click pair fr).2 = Some "#tasks" <-> exists r, fr = Fulfilled r) /\
  ((delete_click pair fr).2 = None <-> exists e, fr = Rejected e).
Proof.
  unfold delete_click. simpl. split; [done|]. split; [done|].
  destruct fr as [r|e]; naive_solver.
Qed.

(** The controller's promise always fulfils, so the router shows the page
    again; a failed fetch shows the error and no list. *)
Theorem apps_controller_error fr e :
  getJSON "applications" fr = Rejected e ->
  apps_controller fr =
  (["Fetching applications list"; "Error fetching applications: " +:+ err_message e], None, Fulfilled tt).
Proof. intros He. unfold apps_controller. by rewrite He. Qed.

(** ** Witnesses *)

Definition apps_sample : list App :=
  [mkApp "tenant1" "app1" "examples/simple_http"; mkApp "tenant1" "app2" "examples/simple_http";
   mkApp "tenant2" "app3" "bigip-fast-templates/http"].

Lemma grouped_tenants_labelled_once_witness :
  NoDup (shown_tenants (render_app_list apps_sample)).
Proof.
  apply (grouped_tenants_labelled_once apps_sample);
    [reflexivity | apply (bool_decide_unpack _); vm_compute; reflexivity].
Defined.

Lemma modify_link_dispatch_witness :
  exists app, app ∈ apps_sample /\ "tenant1/app2" = app_tenant app +:+ "/" +:+ app_name app /\
  w_calls (world_step page_templates routes_init navTitles_init (world_init dom_initial)
             (EvNavigate "#modify/tenant1/app2")) = [(Some CtlModify, "tenant1/app2")].
Proof.
  apply (modify_link_dispatch apps_sample (world_init dom_initial) false None "app2" "examples/simple_http").
  - apply (bool_decide_unpack _). vm_compute. reflexivity.
  - reflexivity.
Defined.

Lemma apps_controller_error_witness :
  apps_controller (Fulfilled (mkResponse false 404 "Not Found" (Fulfilled []))) =
  (["Fetching applications list";
    "Error fetching applications: Failed to get data from /mgmt/shared/fast/applications: 404 Not Found"],
   None, Fulfilled tt).
Proof.
  exact (apps_controller_error (Fulfilled (mkResponse false 404 "Not Found" (Fulfilled [])))
           (Error "Failed to get data from /mgmt/shared/fast/applications: 404 Not Found")
           eq_refl).
Defined.

(** When the list is not grouped by tenant, a tenant is named again: the
    grouping the dividers suggest relies on the backend's order. *)
Example ungrouped_tenant_named_twice :
  shown_tenants (render_app_list [mkApp "t1" "a" "x"; mkApp "t2" "b" "x"; mkApp "t1" "c" "x"]) =
  ["t1"; "t2"; "t1"].
Proof. reflexivity. Qed.

End AppList.
