(* ===== verification/Templates.v ===== *)
(** * The templates controller (app.js lines 406-541)

    The controller registered for [#templates] fetches [applications] and
    [templatesets] together ([Promise.all]), indexes the sets by name
    ([setMap], a reduce into a plain object), groups the applications by
    their template ([appDict], another reduce), and appends one row per
    template set (its name, ['supported'] when the set is supported, the
    [Remove] action and, when an update is available, the [Update] action)
    followed by one row per template of the set listing the applications
    built from it.  A shared counter stripes the odd rows.  It also installs
    the handler of the file input, which uploads a template-set archive with
    [multipartUpload] and then asks the backend to install it: that chain
    is [install_chain], a client of [Uploader.upload_outcome].

    The controller has no [.catch]: a failed fetch or a [TypeError] of the
    grouping rejects the controller's promise, which the router's
    [finally] lets through. *)

From S2P Require Import Prelude Http Upload AppList.

Module Templates.

Import Uploader AppList.

(** An element of [GET /templatesets]: its name, the truthiness of its
    [supported] and [updateAvailable] fields, and the names of its
    [templates]. *)
Record TemplateSet := mkTemplateSet {
  ts_name : string;
  ts_supported : bool;
  ts_updateAvailable : bool;
  ts_templates : list string
}.

#[export] Instance TemplateSet_eq_dec : EqDecision TemplateSet.
Proof. solve_decision. Defined.

(** ** [setMap] (lines 445-448) *)

Definition setMap_step (acc : jsobj TemplateSet) (curr : TemplateSet) : jsobj TemplateSet :=
  js_assign (ts_name curr) curr acc.

Definition setMap (templatesets : list TemplateSet) : jsobj TemplateSet :=
  fold_left setMap_step templatesets [].

(** ** [appDict] (lines 451-459)

    [if (c.template)]: an application without a template has [""] here
    (the JSON field is absent or empty).  [!a[c.template]] is false for an
    own array (arrays are truthy) and for an inherited member of
    [Object.prototype] (functions, and the prototype for [__proto__]), whose
    [push] is then not a function. *)
Definition appDict_step (a : jsobj (list App)) (c : App) : settled (jsobj (list App)) :=
  let t := app_template c in
  if String.eqb t "" then Fulfilled a
  else match js_lookup t a with
       | JsOwn l => Fulfilled (js_set t (l ++ [c]) a)
       | JsUndefined => Fulfilled (js_set t [c] (js_set t [] a))
       | JsInherited _ => Rejected (TypeError "a[c.template].push is not a function")
       end.

Fixpoint appDict_from (a : jsobj (list App)) (apps : list App) : settled (jsobj (list App)) :=
  match apps with
  | [] => Fulfilled a
  | c :: cs => a' <- appDict_step a c ;; appDict_from a' cs
  end.

Definition appDict (applications : list App) : settled (jsobj (list App)) :=
  appDict_from [] applications.

(** ** The rows (lines 461-538) *)

(** The click handlers of a set row, by the set they act on. *)
Inductive SetAction :=
| ActRemove (setName : string)
| ActUpdate (setName : string).

#[export] Instance SetAction_eq_dec : EqDecision SetAction.
Proof. solve_decision. Defined.

Record TemplateRow := mkTemplateRow {
  tr_zebra : bool;
  tr_name : string;                       (* [name.innerHTML] *)
  tr_list : list string;                  (* the [innerText] of the list's divs *)
  tr_actions : list (string * SetAction)  (* the action buttons, by label *)
}.

(** The children appended to [#template-list]. *)
Inductive TemplateElem :=
| THr
| TRow (r : TemplateRow).

#[export] Instance TemplateRow_eq_dec : EqDecision TemplateRow.
Proof. solve_decision. Defined.
#[export] Instance TemplateElem_eq_dec : EqDecision TemplateElem.
Proof. solve_decision. Defined.

(** [createRow(rowName, rowList, actionsList)] with the shared [count]. *)
Definition createRow (count : nat) (rowName : string) (rowList : list string)
    (actionsList : list (string * SetAction)) : nat * list TemplateElem :=
  let count' := S count in
  (count', [THr; TRow (mkTemplateRow (Nat.odd count') rowName rowList actionsList)]).

(** [setActions] (lines 503-530): [Remove], then [Update] when an update is
    available. *)
Definition set_actions (setData : TemplateSet) : jsobj SetAction :=
  let acts := js_set "Remove" (ActRemove (ts_name setData)) [] in
  if ts_updateAvailable setData then js_set "Update" (ActUpdate (ts_name setData)) acts else acts.

(** [`${app.tenant} ${app.name}`] *)
Definition app_label (app : App) : string := app_tenant app +:+ " " +:+ app_name app.

(** [appDict[key] || []]: an inherited member is a function, whose [map]
    is not a function. *)
Definition app_list_for (d : jsobj (list App)) (key : string) : settled (list App) :=
  match js_lookup key d with
  | JsOwn l => Fulfilled l
  | JsUndefined => Fulfilled []
  | JsInherited _ => Rejected (TypeError "appList.map is not a function")
  end.

Definition template_row_name (templateName : string) : string :=
  "&nbsp;&nbsp;&nbsp;&nbsp;/" +:+ templateName.

(** [setMap[setName].templates.forEach(...)] (lines 533-537): the rows of
    the templates, the counter, and the error that stopped the loop. *)
Fixpoint template_rows (d : jsobj (list App)) (setName : string) (count : nat)
    (tmpls : list string) : nat * list TemplateElem * option JsError :=
  match tmpls with
  | [] => (count, [], None)
  | templateName :: ts =>
      match app_list_for d (setName +:+ "/" +:+ templateName) with
      | Rejected e => (count, [], Some e)
      | Fulfilled appList =>
          let '(count1, row) := createRow count (template_row_name templateName)
                                  (map app_label appList) [] in
          let '(count2, rows, err) := template_rows d setName count1 ts in
          (count2, row ++ rows, err)
      end
  end.

(** The body of [Object.values(setMap).forEach] (lines 502-537). *)
Definition set_rows (sm : jsobj TemplateSet) (d : jsobj (list App)) (count : nat)
    (setData : TemplateSet) : nat * list TemplateElem * option JsError :=
  let setName := ts_name setData in
  let '(count1, row) := createRow count setName
                          (if ts_supported setData then ["supported"] else [])
                          (js_entries (set_actions setData)) in
  match js_lookup setName sm with
  | JsOwn sd =>
      let '(count2, rows, err) := template_rows d setName count1 (ts_templates sd) in
      (count2, row ++ rows, err)
  | _ => (count1, row, Some (TypeError "Cannot read properties of undefined (reading 'forEach')"))
  end.

Fixpoint sets_rows (sm : jsobj TemplateSet) (d : jsobj (list App)) (count : nat)
    (sets : list TemplateSet) : nat * list TemplateElem * option JsError :=
  match sets with
  | [] => (count, [], None)
  | s :: ss =>
      let '(count1, rows1, err) := set_rows sm d count s in
      match err with
      | Some e => (count1, rows1, Some e)
      | None => let '(count2, rows2, err2) := sets_rows sm d count1 ss in (count2, rows1 ++ rows2, err2)
      end
  end.

(** The first [.then] of the controller (lines 444-539): the rows appended
    and how the callback ends. *)
Definition render_templates (applications : list App) (templatesets : list TemplateSet)
    : list TemplateElem * settled unit :=
  let sm := setMap templatesets in
  match appDict applications with
  | Rejected e => ([], Rejected e)
  | Fulfilled d =>
      let '(_, rows, err) := sets_rows sm d 0 (js_values sm) in
      (rows, match err with None => Fulfilled tt | Some e => Rejected e end)
  end.

(** The controller's promise (lines 407-408, 440-540), given the two
    fetches and which of them settles first: the texts written, the rows,
    and the outcome the router receives. *)
Definition templates_controller (q_first : bool) (fr_apps : fetch_result (list App))
    (fr_sets : fetch_result (list TemplateSet))
    : list string * list TemplateElem * settled unit :=
  let out := dispOutput [] "...Loading Template List..." in
  match promise_all2 q_first (getJSON "applications" fr_apps) (getJSON "templatesets" fr_sets) with
  | Rejected e => (out, [], Rejected e)
  | Fulfilled (applications, templatesets) =>
      let '(rows, r) := render_templates applications templatesets in
      match r with
      | Fulfilled _ => (dispOutput out "", rows, Fulfilled tt)
      | Rejected e => (out, rows, Rejected e)
      end
  end.

(** ** The actions of a set row *)

Definition templatesets_url (setName : string) : string :=
  endPointUrl +:+ "/templatesets/" +:+ setName.

(** [setActions.Remove] (lines 504-510), given the settled DELETE: the text
    written, the requests issued, whether the page reloads, and the
    handler's promise. *)
Definition remove_click (setName : string) (fr_delete : fetch_result unit)
    : list string * list Request * bool * settled unit :=
  (dispOutput [] ("Deleting " +:+ setName),
   [mkRequest "DELETE" (templatesets_url setName) None],
   match fr_delete with Fulfilled _ => true | Rejected _ => false end,
   _ <- fr_delete ;; Fulfilled tt).

(** [setActions.Update] (lines 514-529): a DELETE, then, once it has
    settled without a network error, a POST of [{name: setName}], then a
    reload. *)
Definition update_click (setName : string) (fr_delete fr_post : fetch_result unit)
    : list string * list Request * bool * settled unit :=
  let out := dispOutput [] ("Updating " +:+ setName) in
  let del := mkRequest "DELETE" (templatesets_url setName) None in
  let post := mkRequest "POST" (endPointUrl +:+ "/templatesets") (Some (json_name_body setName)) in
  match fr_delete with
  | Rejected e => (out, [del], false, Rejected e)
  | Fulfilled _ =>
      match fr_post with
      | Rejected e => (out, [del; post], false, Rejected e)
      | Fulfilled _ => (out, [del; post], true, Fulfilled tt)
      end
  end.

(** The handler a row's button runs. *)
Definition run_action (a : SetAction) (fr_delete fr_post : fetch_result unit)
    : list string * list Request * bool * settled unit :=
  match a with
  | ActRemove n => remove_click n fr_delete
  | ActUpdate n => update_click n fr_delete fr_post
  end.

(** ** Installing a template set (lines 414-438) *)

(** [file.name.slice(0, -4)]: the archive's name without [.zip]. *)
Definition tsName_of (fileName : string) : string := js_str_slice fileName 0 (-4).

(** What one [change] of the file input does: the texts written, the
    upload's requests, the install request if any, and whether the page
    reloads. *)
Record InstallRun := mkInstallRun {
  ir_out : list string;
  ir_uploads : list UploadRequest;
  ir_install : option Request;
  ir_reload : bool
}.

Section Install.

(** [e.stack]: the engine's text for an error (its name, message and
    trace). *)
Variable stack : JsError -> string.

Definition install_failed (out : list string) (e : JsError) : list string :=
  dispOutput out ("Failed to install template set: " +:+ stack e).

(** The [onchange] handler, given [files[0]] ([None] when no file is
    selected: reading [file.name] then throws before anything is written),
    the upload's server and the settled install POST. *)
Definition install_chain (file0 : option File) (server : nat -> fetch_result unit)
    (fr_install : fetch_result unit) : option InstallRun :=
  match file0 with
  | None => None
  | Some file =>
      let tsName := tsName_of (file_name file) in
      let out0 := dispOutput [] ("Uploading file: " +:+ file_name file) in
      let installReq := mkRequest "POST" "/mgmt/shared/fast/templatesets"
                          (Some (json_name_body (js_str_slice (file_name file) 0 (-4)))) in
      let '(ups, res) := multipartUpload file server in
      Some match res with
      | None => mkInstallRun out0 ups None false
      | Some (Rejected e) => mkInstallRun (install_failed out0 e) ups None false
      | Some (Fulfilled _) =>
          let out1 := dispOutput out0 ("Installing template set " +:+ tsName) in
          match fr_install with
          | Rejected e => mkInstallRun (install_failed out1 e) ups (Some installReq) false
          | Fulfilled response =>
              if negb (resp_ok response) then
                mkInstallRun (install_failed out1 (Error ("Failed to install " +:+ tsName +:+ ": "
                                                           +:+ stringify_response response)))
                             ups (Some installReq) false
              else mkInstallRun (dispOutput out1 (tsName +:+ " installed successfully"))
                                ups (Some installReq) true
          end
      end
  end.

End Install.

(** ** Reference: the applications of each template *)

Definition has_template (k : string) (c : App) : bool := String.eqb (app_template c) k.

(** The templates named by the applications, in the order of first use. *)
Definition template_keys (apps : list App) : list string :=
  nub (List.filter (fun t => negb (String.eqb t "")) (map app_template apps)).

(** The dictionary [appDict] is meant to build: each template in use, with
    the applications built from it, in their order. *)
Definition group_by_template (apps : list App) : jsobj (list App) :=
  map (fun k => (k, List.filter (has_template k) apps)) (template_keys apps).

(** No application names a member of [Object.prototype] as its template. *)
Definition templates_plain (apps : list App) : Prop :=
  Forall (fun c => app_template c ∉ object_prototype_members) apps.

(** The keys of an [appDict] in construction are never members of
    [Object.prototype]. *)
Definition appDict_inv (a : jsobj (list App)) : Prop :=
  Forall (fun k => k ∉ object_prototype_members) (map fst a).

(** The names of the sets, in the order of first occurrence; a set named
    [__proto__] replaces the prototype of [setMap] instead. *)
Definition set_names (sets : list TemplateSet) : list string :=
  nub (List.filter (fun n => negb (String.eqb n "__proto__")) (map ts_name sets)).

Definition named (n : string) (s : TemplateSet) : bool := String.eqb (ts_name s) n.

(** Reference rows: the row of a set, then the rows of its templates, as
    (name, list, actions). *)
Definition set_row_specs (apps : list App) (sd : TemplateSet)
    : list (string * list string * list (string * SetAction)) :=
  (ts_name sd, (if ts_supported sd then ["supported"] else []), js_entries (set_actions sd)) ::
  map (fun t => (template_row_name t,
                 map app_label (List.filter (has_template (ts_name sd +:+ "/" +:+ t)) apps),
                 [])) (ts_templates sd).

(** Each row preceded by its [<hr>], odd rows striped, counting from
    [count]. *)
Fixpoint number_rows (count : nat) (specs : list (string * list string * list (string * SetAction)))
    : list TemplateElem :=
  match specs with
  | [] => []
  | (n, l, acts) :: specs' =>
      THr :: TRow (mkTemplateRow (Nat.odd (S count)) n l acts) :: number_rows (S count) specs'
  end.

(** The page the controller is meant to render. *)
Definition templates_page (apps : list App) (sets : list TemplateSet) : list TemplateElem :=
  number_rows 0 (concat (map (set_row_specs apps) (js_values (setMap sets)))).

(** ** Lemmas on [appDict] *)

Lemma appDict_from_app a l1 l2 :
  appDict_from a (l1 ++ l2) = (a' <- appDict_from a l1 ;; appDict_from a' l2).
Proof.
  revert a. induction l1 as [|c l1 IH]; intros a; simpl; [done|].
  destruct (appDict_step a c); simpl; auto.
Qed.

Lemma elem_of_template_keys k apps :
  k ∈ template_keys apps <-> k <> "" /\ k ∈ map app_template apps.
Proof.
  unfold template_keys. rewrite elem_of_nub, list_elem_of_In, filter_In, <- list_elem_of_In.
  destruct (String.eqb_spec k ""); naive_solver.
Qed.

Lemma template_keys_snoc apps c :
  template_keys (apps ++ [c]) =
  template_keys apps ++
  (if String.eqb (app_template c) "" || bool_decide (app_template c ∈ template_keys apps)
   then [] else [app_template c]).
Proof.
  unfold template_keys. rewrite map_app, List.filter_app. simpl.
  destruct (String.eqb (app_template c) ""); simpl; [by rewrite !app_nil_r|].
  rewrite nub_snoc. f_equal. erewrite bool_decide_ext; [done|]. by rewrite elem_of_nub.
Qed.

Lemma filter_has_template_nil k apps :
  k ∉ map app_template apps -> List.filter (has_template k) apps = [].
Proof.
  induction apps as [|c apps IH]; simpl; [done|]. intros Hk.
  replace (has_template k c) with false by (symmetry; apply String.eqb_neq; set_solver).
  apply IH. set_solver.
Qed.

Lemma has_template_self c : has_template (app_template c) c = true.
Proof. apply String.eqb_refl. Qed.

Lemma filter_has_template_snoc k apps c :
  app_template c <> k -> List.filter (has_template k) (apps ++ [c]) = List.filter (has_template k) apps.
Proof.
  intros Hne. rewrite List.filter_app. simpl.
  replace (has_template k c) with false by (symmetry; by apply String.eqb_neq). apply app_nil_r.
Qed.

(** One step of the reduce extends the reference dictionary by one
    application. *)
Lemma appDict_step_group apps c :
  app_template c ∉ object_prototype_members ->
  appDict_step (group_by_template apps) c = Fulfilled (group_by_template (apps ++ [c])).
Proof.
  intros Hc. unfold appDict_step, group_by_template. rewrite template_keys_snoc.
  destruct (String.eqb_spec (app_template c) "") as [Ht|Ht]; simpl.
  - rewrite app_nil_r. f_equal. apply map_ext_in. intros k Hk%list_elem_of_In.
    apply elem_of_template_keys in Hk. rewrite filter_has_template_snoc; naive_solver.
  - unfold js_lookup. rewrite js_get_own_map.
    destruct (decide (app_template c ∈ template_keys apps)) as [Hin|Hnin].
    + rewrite bool_decide_eq_true_2 by done. simpl. rewrite app_nil_r, js_set_map_in by done.
      f_equal. apply map_ext. intros k. f_equal.
      destruct (String.eqb_spec k (app_template c)) as [->|Hne].
      * rewrite List.filter_app. simpl. by rewrite has_template_self.
      * by rewrite filter_has_template_snoc.
    + rewrite bool_decide_eq_false_2 by done.
      rewrite existsb_eqb_elem, (bool_decide_eq_false_2 (_ ∈ object_prototype_members)) by done.
      simpl.
      rewrite js_set_set, js_set_map_notin, map_app by done. do 2 f_equal.
      * apply map_ext_in. intros k Hk%list_elem_of_In. rewrite filter_has_template_snoc; [done|].
        intros <-. done.
      * simpl. rewrite List.filter_app, filter_has_template_nil.
        -- simpl. by rewrite has_template_self.
        -- intros Hm. apply Hnin, elem_of_template_keys. done.
Qed.

Lemma appDict_step_inv a c a' :
  appDict_inv a -> appDict_step a c = Fulfilled a' -> appDict_inv a'.
Proof.
  unfold appDict_step, appDict_inv, js_lookup. intros Ha.
  destruct (String.eqb _ _); [by intros [= <-]|].
  destruct (js_get_own (app_template c) a) as [l|] eqn:Hg.
  - intros [= <-]. apply js_get_own_Some in Hg.
    by rewrite js_set_keys, existsb_fst_elem, bool_decide_eq_true_2.
  - rewrite existsb_eqb_elem. case_bool_decide as Hm; [done|]. intros [= <-].
    rewrite !js_set_keys, !existsb_fst_elem.
    repeat case_bool_decide; rewrite ?Forall_app; auto.
Qed.

Lemma appDict_from_inv a l a' :
  appDict_inv a -> appDict_from a l = Fulfilled a' -> appDict_inv a'.
Proof.
  revert a. induction l as [|c l IH]; intros a Ha; simpl; [congruence|].
  destruct (appDict_step a c) as [a1|] eqn:Hs; simpl; [|done].
  intros H. apply (IH a1); [|done]. by apply (appDict_step_inv a c).
Qed.

(** In a dictionary built so far, a step rejects exactly on a template
    that is a member of [Object.prototype], with a [TypeError]. *)
Lemma appDict_step_rejects a c e :
  appDict_inv a ->
  appDict_step a c = Rejected e <->
  app_template c ∈ object_prototype_members /\ e = TypeError "a[c.template].push is not a function".
Proof.
  unfold appDict_step, appDict_inv, js_lookup. intros Ha.
  destruct (String.eqb_spec (app_template c) "") as [->|Hne].
  - split; [done|]. intros [Hm _]. vm_compute in Hm. set_solver.
  - destruct (js_get_own (app_template c) a) as [l|] eqn:Hg.
    + split; [done|]. intros [Hm _]. apply js_get_own_Some in Hg.
      rewrite Forall_forall in Ha. exfalso. by apply (Ha _ Hg).
    + rewrite existsb_eqb_elem. case_bool_decide; naive_solver.
Qed.

(** ** Lemmas on [setMap] *)

Lemma setMap_snoc sets s : setMap (sets ++ [s]) = setMap_step (setMap sets) s.
Proof. unfold setMap. by rewrite fold_left_app. Qed.

Lemma setMap_keys sets : map fst (setMap sets) = set_names sets.
Proof.
  induction sets as [|s sets IH] using rev_ind; [done|].
  rewrite setMap_snoc. unfold setMap_step, js_assign, set_names in *.
  rewrite map_app, List.filter_app. simpl.
  destruct (String.eqb (ts_name s) "__proto__"); simpl; [by rewrite app_nil_r|].
  rewrite js_set_keys, existsb_fst_elem, IH, nub_snoc.
  destruct (decide (ts_name s ∈ List.filter (fun n => negb (String.eqb n "__proto__")) (map ts_name sets))).
  - rewrite !bool_decide_eq_true_2 by (rewrite ?elem_of_nub; done). by rewrite app_nil_r.
  - by rewrite !bool_decide_eq_false_2 by (rewrite ?elem_of_nub; done).
Qed.

Lemma setMap_lookup sets n :
  js_get_own n (setMap sets) =
  if String.eqb n "__proto__" then None else last (List.filter (named n) sets).
Proof.
  induction sets as [|s sets IH] using rev_ind; [by destruct (String.eqb _ _)|].
  rewrite setMap_snoc, List.filter_app. unfold setMap_step, js_assign. simpl.
  unfold named at 2. destruct (String.eqb_spec (ts_name s) "__proto__") as [Hp|Hp].
  - rewrite IH. destruct (String.eqb_spec n "__proto__"); [done|].
    rewrite (proj2 (String.eqb_neq _ _)) by congruence. by rewrite app_nil_r.
  - destruct (String.eqb_spec (ts_name s) n) as [<-|Hn].
    + rewrite js_get_own_set_eq, (proj2 (String.eqb_neq _ _)) by done. by rewrite last_snoc.
    + rewrite js_get_own_set_ne, IH, app_nil_r by done. done.
Qed.

Lemma appDict_from_group apps :
  templates_plain apps -> appDict_from [] apps = Fulfilled (group_by_template apps).
Proof.
  unfold templates_plain. induction apps as [|c apps IH] using rev_ind; [done|].
  rewrite Forall_app, Forall_singleton. intros [Hp Hc].
  rewrite appDict_from_app, IH by done. simpl. by rewrite appDict_step_group.
Qed.

(** ** Lemmas on the rows *)

Lemma setMap_values_own sets :
  Forall (fun sd => js_lookup (ts_name sd) (setMap sets) = JsOwn sd) (js_values (setMap sets)).
Proof.
  apply Forall_forall. intros sd Hsd. apply elem_of_js_values in Hsd as [k Hk].
  pose proof Hk as Hk'. rewrite setMap_lookup in Hk'.
  destruct (String.eqb k "__proto__"); [done|].
  apply last_Some_elem_of, list_elem_of_In, filter_In in Hk' as [_ Hn].
  apply String.eqb_eq in Hn. subst k. unfold js_lookup. by rewrite Hk.
Qed.

Lemma number_rows_app c l1 l2 :
  number_rows c (l1 ++ l2) = number_rows c l1 ++ number_rows (c + length l1) l2.
Proof.
  revert c. induction l1 as [|[[n l] a] l1 IH]; intros c; simpl; [by rewrite Nat.add_0_r|].
  by rewrite IH, Nat.add_succ_r.
Qed.

(** The key [setName/templateName] is never a member of [Object.prototype]. *)
Lemma template_key_plain setName t :
  setName +:+ "/" +:+ t <> "" /\ setName +:+ "/" +:+ t ∉ object_prototype_members.
Proof.
  split; [by destruct setName|]. apply slash_not_member.
  rewrite str_has_app. simpl. apply orb_true_r.
Qed.

Lemma app_list_for_group apps k :
  k <> "" -> k ∉ object_prototype_members ->
  app_list_for (group_by_template apps) k = Fulfilled (List.filter (has_template k) apps).
Proof.
  intros Hk Hm. unfold app_list_for, js_lookup, group_by_template. rewrite js_get_own_map.
  case_bool_decide as Hin; [done|].
  rewrite existsb_eqb_elem, bool_decide_eq_false_2 by done.
  rewrite filter_has_template_nil; [done|]. intros Ht. by apply Hin, elem_of_template_keys.
Qed.

Lemma template_rows_spec apps setName count tmpls :
  template_rows (group_by_template apps) setName count tmpls =
  (count + length tmpls,
   number_rows count (map (fun t => (template_row_name t,
      map app_label (List.filter (has_template (setName +:+ "/" +:+ t)) apps), [])) tmpls),
   None).
Proof.
  revert count. induction tmpls as [|t ts IH]; intros count; simpl; [by rewrite Nat.add_0_r|].
  destruct (template_key_plain setName t) as [Hk Hm]. rewrite app_list_for_group by done.
  simpl. rewrite IH, Nat.add_succ_r. done.
Qed.

Lemma set_rows_spec sm apps count sd :
  js_lookup (ts_name sd) sm = JsOwn sd ->
  set_rows sm (group_by_template apps) count sd =
  (count + length (set_row_specs apps sd), number_rows count (set_row_specs apps sd), None).
Proof.
  intros Hl. unfold set_rows. rewrite Hl. simpl. rewrite template_rows_spec. simpl.
  by rewrite length_map, Nat.add_succ_r.
Qed.

Lemma sets_rows_spec sm apps count vs :
  Forall (fun sd => js_lookup (ts_name sd) sm = JsOwn sd) vs ->
  sets_rows sm (group_by_template apps) count vs =
  (count + length (concat (map (set_row_specs apps) vs)),
   number_rows count (concat (map (set_row_specs apps) vs)), None).
Proof.
  revert count. induction vs as [|sd vs IH]; intros count Hall; [simpl; by rewrite Nat.add_0_r|].
  apply Forall_cons in Hall as [Hsd Hall]. cbn [sets_rows].
  rewrite set_rows_spec by done. cbv iota beta. rewrite IH by done. cbv iota beta.
  change (concat (map (set_row_specs apps) (sd :: vs))) with
    (set_row_specs apps sd ++ concat (map (set_row_specs apps) vs)).
  rewrite number_rows_app, length_app. do 2 f_equal. lia.
Qed.

(** ** Lemmas on the install chain *)

Section InstallLemmas.

Variable stack : JsError -> string.
Variable file : File.
Variable server : nat -> fetch_result unit.

(** The chain seen through the uploader's outcome. *)
Lemma install_chain_unfold fr :
  (0 <= file_size file)%Z ->
  install_chain stack (Some file) server fr =
  let tsName := tsName_of (file_name file) in
  let out0 := ["Uploading file: " +:+ file_name file] in
  let ups := (multipartUpload file server).1 in
  let req := mkRequest "POST" "/mgmt/shared/fast/templatesets" (Some (json_name_body tsName)) in
  Some match upload_outcome file server with
  | Rejected e => mkInstallRun (install_failed stack out0 e) ups None false
  | Fulfilled _ =>
      let out1 := out0 ++ ["Installing template set " +:+ tsName] in
      match fr with
      | Rejected e => mkInstallRun (install_failed stack out1 e) ups (Some req) false
      | Fulfilled response =>
          if resp_ok response then
            mkInstallRun (out1 ++ [tsName +:+ " installed successfully"]) ups (Some req) true
          else
            mkInstallRun (install_failed stack out1 (Error ("Failed to install " +:+ tsName +:+ ": {}")))
                         ups (Some req) false
      end
  end.
Proof.
  intros Hs. pose proof (multipartUpload_outcome file server Hs) as Hout.
  unfold install_chain. destruct (multipartUpload file server) as [ups r]. simpl in Hout. subst r.
  destruct (upload_outcome file server); [|done]. destruct fr as [resp|]; [|done].
  by destruct (resp_ok resp).
Qed.

End InstallLemmas.

(** C7. Refinement of the grouping: when no application
    names a member of [Object.prototype] as its template, the reduce of
    lines 451-459 builds exactly the reference dictionary: one entry per
    template in use, in the order of first use, holding the applications
    built from that template in their order.  Applications without a
    template are left out. *)
Theorem appDict_refines apps :
  templates_plain apps -> appDict apps = Fulfilled (group_by_template apps).
Proof. apply appDict_from_group. Qed.

(** C24. The grouping rejects, with a [TypeError], exactly
    when some application's template is a member of [Object.prototype]
    (such as [constructor] or [toString]). *)
Theorem appDict_rejects apps :
  (exists e, appDict apps = Rejected e /\ err_name e = "TypeError") <->
  Exists (fun c => app_template c ∈ object_prototype_members) apps.
Proof.
  unfold appDict. assert (appDict_inv []) as H0 by constructor.
  revert H0. generalize (@nil (string * list App)) as a.
  induction apps as [|c apps IH]; intros a Ha; simpl.
  - split; [naive_solver|]. intros Hx. by apply Exists_nil in Hx.
  - rewrite Exists_cons. destruct (appDict_step a c) as [a'|e] eqn:Hs; simpl.
    + rewrite (IH a' (appDict_step_inv a c a' Ha Hs)).
      assert (app_template c ∉ object_prototype_members).
      { intros Hm. pose proof (proj2 (appDict_step_rejects a c _ Ha) (conj Hm eq_refl)). congruence. }
      naive_solver.
    + apply (appDict_step_rejects a c e Ha) in Hs as [Hm ->]. naive_solver.
Qed.

(** C8. The rendering refines the reference page: when no
    application names a member of [Object.prototype] as its template, the
    controller's callback appends, for each set of [Object.values(setMap)],
    its row and then one row per template listing exactly the applications
    built from [set/template], each row after an [<hr>] and the odd rows
    striped, and then fulfils. *)
Theorem render_templates_spec apps sets :
  templates_plain apps ->
  render_templates apps sets = (templates_page apps sets, Fulfilled tt).
Proof.
  intros Hp. unfold render_templates, appDict. rewrite appDict_from_group by done.
  by rewrite sets_rows_spec by apply setMap_values_own.
Qed.

(** C9. A selected archive is uploaded and installed, and
    the page reloads exactly when every chunk's POST succeeded and the
    install POST answered with a 2xx status. *)
Theorem install_chain_reloads stack file server fr :
  (0 <= file_size file)%Z ->
  exists run, install_chain stack (Some file) server fr = Some run /\
  (ir_reload run = true <->
   (forall k, (k < nchunks (file_size file))%nat -> chunk_outcome server k = Fulfilled tt) /\
   exists r, fr = Fulfilled r /\ resp_ok r = true).
Proof.
  intros Hs. rewrite install_chain_unfold by done. eexists. split; [done|].
  unfold upload_outcome. pose proof (chunks_outcome_ok server 0 (nchunks (file_size file))) as Hok.
  destruct (chunks_outcome server 0 _) as [[]|e]; simpl.
  - assert (forall k, (k < nchunks (file_size file))%nat -> chunk_outcome server k = Fulfilled tt)
      by (intros k Hk; apply Hok; [done|lia]).
    destruct fr as [resp|e]; [destruct (resp_ok resp) eqn:Hr|]; simpl.
    + split; [|done]. intros _. eauto.
    + split; [done|]. intros [_ (r & [= <-] & Hr')]. congruence.
    + split; [done|]. intros [_ (r & ? & _)]. discriminate.
  - split; [done|]. intros [Hall _]. assert (Rejected e = Fulfilled tt) by (apply Hok; intros; apply Hall; lia).
    discriminate.
Qed.

(** C25. Installing [n.zip]: when the upload and the install
    succeed, the handler writes the three progress texts, installs the set
    named [n] (the file name without [.zip]) and reloads. *)
Theorem install_chain_success stack file server n r :
  (0 <= file_size file)%Z -> file_name file = n +:+ ".zip" ->
  (forall k, (k < nchunks (file_size file))%nat -> chunk_outcome server k = Fulfilled tt) ->
  resp_ok r = true ->
  install_chain stack (Some file) server (Fulfilled r) =
  Some (mkInstallRun ["Uploading file: " +:+ n +:+ ".zip"; "Installing template set " +:+ n;
                      n +:+ " installed successfully"]
                     (multipartUpload file server).1
                     (Some (mkRequest "POST" "/mgmt/shared/fast/templatesets" (Some (json_name_body n))))
                     true).
Proof.
  intros Hs Hn Hok Hr. rewrite install_chain_unfold by done.
  unfold upload_outcome. rewrite (proj2 (chunks_outcome_ok _ _ _)) by (intros; apply Hok; lia).
  simpl. rewrite Hr, Hn. unfold tsName_of.
  change (-4)%Z with (- Z.of_nat (S (String.length "zip")))%Z. by rewrite js_str_slice_drop_suffix.
Qed.

(** C26. When chunk [k] is the first whose POST fails,
    nothing is installed and nothing reloads: the handler reports the
    upload's error and stops. *)
Theorem install_chain_upload_failure stack file server k e fr :
  (0 <= file_size file)%Z -> (k < nchunks (file_size file))%nat ->
  (forall j, (j < k)%nat -> chunk_outcome server j = Fulfilled tt) ->
  chunk_outcome server k = Rejected e ->
  install_chain stack (Some file) server fr =
  Some (mkInstallRun ["Uploading file: " +:+ file_name file;
                      "Failed to install template set: " +:+ stack e]
                     (multipartUpload file server).1 None false).
Proof.
  intros Hs Hk Hok He. rewrite install_chain_unfold by done. unfold upload_outcome.
  by rewrite (chunks_outcome_first_failure server 0 _ k e) by (auto with lia).
Qed.

(** C39. A failed install reports the same text whatever
    the HTTP status: [JSON.stringify(response)] is ["{}"], so the status and
    its text never reach the user. *)
Theorem install_error_hides_status stack file server r1 r2 :
  (0 <= file_size file)%Z -> resp_ok r1 = false -> resp_ok r2 = false ->
  install_chain stack (Some file) server (Fulfilled r1) =
  install_chain stack (Some file) server (Fulfilled r2).
Proof. intros Hs H1 H2. by rewrite !install_chain_unfold, H1, H2 by done. Qed.

(** The actions of a set row, in the order of
    [Object.entries]: [Remove] of that set, then [Update] of that set
    exactly when an update is available. *)
Theorem set_actions_entries sd :
  js_entries (set_actions sd) =
  ("Remove", ActRemove (ts_name sd)) ::
  (if ts_updateAvailable sd then [("Update", ActUpdate (ts_name sd))] else []).
Proof. unfold set_actions. by destruct (ts_updateAvailable sd). Qed.

(** C36. [Update] never looks at the HTTP status: once
    the DELETE has answered, whatever its status (a 404 or a 500 included),
    it POSTs the install of the set and reloads when that answers, again
    whatever its status, so a failed update is silent. *)
Theorem update_ignores_status setName r_del r_post :
  update_click setName (Fulfilled r_del) (Fulfilled r_post) =
  (["Updating " +:+ setName],
   [mkRequest "DELETE" (endPointUrl +:+ "/templatesets/" +:+ setName) None;
    mkRequest "POST" (endPointUrl +:+ "/templatesets") (Some (json_name_body setName))],
   true, Fulfilled tt).
Proof. done. Qed.

(** C40. When a fetch of the controller fails, nothing
    is rendered, the loading text stays, and the controller's promise
    rejects with the error of one of the failed fetches. *)
Theorem templates_controller_fetch_error q_first fa fs :
  (exists e, getJSON "applications" fa = Rejected e \/ getJSON "templatesets" fs = Rejected e) ->
  exists e, templates_controller q_first fa fs = (["...Loading Template List..."], [], Rejected e) /\
            (getJSON "applications" fa = Rejected e \/ getJSON "templatesets" fs = Rejected e).
Proof.
  intros Hf. unfold templates_controller, promise_all2.
  destruct (getJSON "applications" fa) as [a|e1], (getJSON "templatesets" fs) as [b|e2];
    [naive_solver| | |destruct q_first]; eexists; split; first [done | naive_solver].
Qed.

(** C34. When both fetches succeed and no application names a
    member of [Object.prototype] as its template, the controller renders
    the reference page, clears the output, and fulfils. *)
Theorem templates_controller_ok q_first fa fs apps sets :
  getJSON "applications" fa = Fulfilled apps -> getJSON "templatesets" fs = Fulfilled sets ->
  templates_plain apps ->
  templates_controller q_first fa fs =
  (["...Loading Template List..."; ""], templates_page apps sets, Fulfilled tt).
Proof.
  intros Ha Hs Hp. unfold templates_controller. rewrite Ha, Hs. simpl.
  unfold render_templates, appDict. rewrite appDict_from_group by done.
  by rewrite sets_rows_spec by apply setMap_values_own.
Qed.

(** ** Witnesses *)

Definition sets_sample : list TemplateSet :=
  [mkTemplateSet "examples" true false ["simple_http"; "simple_udp"];
   mkTemplateSet "bigip-fast-templates" true true ["http"]].

Definition ok_response : Response unit := mkResponse true 200 "OK" (Fulfilled tt).

(** A V8-like [e.stack] without the trace. *)
Definition stack_sample (e : JsError) : string := err_name e +:+ ": " +:+ err_message e.

Lemma appDict_refines_witness :
  appDict apps_sample = Fulfilled (group_by_template apps_sample).
Proof.
  apply appDict_refines. unfold templates_plain. apply (bool_decide_unpack _). vm_compute. reflexivity.
Defined.

Lemma render_templates_spec_witness :
  render_templates apps_sample sets_sample = (templates_page apps_sample sets_sample, Fulfilled tt).
Proof.
  apply render_templates_spec. unfold templates_plain. apply (bool_decide_unpack _). vm_compute.
  reflexivity.
Defined.

Lemma install_chain_reloads_witness :
  exists run, install_chain stack_sample (Some ts_file) ok_server (Fulfilled ok_response) = Some run /\
  (ir_reload run = true <->
   (forall k, (k < nchunks (file_size ts_file))%nat -> chunk_outcome ok_server k = Fulfilled tt) /\
   exists r, Fulfilled ok_response = Fulfilled r /\ resp_ok r = true).
Proof. apply install_chain_reloads. compute. discriminate. Defined.

Lemma install_chain_success_witness :
  install_chain stack_sample (Some ts_file) ok_server (Fulfilled ok_response) =
  Some (mkInstallRun ["Uploading file: " +:+ "f5-http-lb" +:+ ".zip";
                      "Installing template set " +:+ "f5-http-lb";
                      "f5-http-lb" +:+ " installed successfully"]
                     (multipartUpload ts_file ok_server).1
                     (Some (mkRequest "POST" "/mgmt/shared/fast/templatesets"
                              (Some (json_name_body "f5-http-lb"))))
                     true).
Proof.
  apply (install_chain_success stack_sample ts_file ok_server "f5-http-lb" ok_response).
  - compute. discriminate.
  - reflexivity.
  - intros. reflexivity.
  - reflexivity.
Defined.

Lemma install_chain_upload_failure_witness :
  install_chain stack_sample (Some ts_file) fail_second (Fulfilled ok_response) =
  Some (mkInstallRun ["Uploading file: " +:+ file_name ts_file;
                      "Failed to install template set: " +:+ stack_sample (Error "Failed to upload file: {}")]
                     (multipartUpload ts_file fail_second).1 None false).
Proof.
  apply (install_chain_upload_failure stack_sample ts_file fail_second 1 (Error "Failed to upload file: {}")).
  - compute. discriminate.
  - vm_compute. lia.
  - intros j Hj. assert (j = 0%nat) as -> by lia. reflexivity.
  - reflexivity.
Defined.

Lemma install_error_hides_status_witness :
  install_chain stack_sample (Some ts_file) ok_server
    (Fulfilled (mkResponse false 404 "Not Found" (Fulfilled tt))) =
  install_chain stack_sample (Some ts_file) ok_server
    (Fulfilled (mkResponse false 500 "Internal Server Error" (Fulfilled tt))).
Proof. apply install_error_hides_status; [compute; discriminate | reflexivity | reflexivity]. Defined.

Lemma templates_controller_fetch_error_witness :
  exists e, templates_controller false (Rejected (TypeError "Failed to fetch"))
              (Fulfilled (mkResponse true 200 "OK" (Fulfilled sets_sample))) =
            (["...Loading Template List..."], [], Rejected e) /\
            (getJSON (A := list App) "applications" (Rejected (TypeError "Failed to fetch")) = Rejected e \/
             getJSON "templatesets" (Fulfilled (mkResponse true 200 "OK" (Fulfilled sets_sample))) = Rejected e).
Proof.
  apply templates_controller_fetch_error. exists (TypeError "Failed to fetch"). left. reflexivity.
Defined.

Lemma templates_controller_ok_witness :
  templates_controller true (Fulfilled (mkResponse true 200 "OK" (Fulfilled apps_sample)))
    (Fulfilled (mkResponse true 200 "OK" (Fulfilled sets_sample))) =
  (["...Loading Template List..."; ""], templates_page apps_sample sets_sample, Fulfilled tt).
Proof.
  apply templates_controller_ok; [reflexivity | reflexivity |].
  unfold templates_plain. apply (bool_decide_unpack _). vm_compute. reflexivity.
Defined.

(** ** Examples *)

(** The applications listed in the rows. *)
Definition listed_labels (rows : list TemplateElem) : list string :=
  concat (omap (fun e => match e with TRow r => Some (tr_list r) | THr => None end) rows).

(** [Object.values] lists a set whose name is an array index first,
    whatever the order of [GET /templatesets]. *)
Example numeric_set_listed_first :
  map ts_name (js_values (setMap [mkTemplateSet "examples" true false [];
                                  mkTemplateSet "2020" false false []])) = ["2020"; "examples"].
Proof. reflexivity. Qed.

(** An application whose template set is no longer installed appears in
    no row of the page. *)
Example orphan_app_not_listed :
  "t1 a1" ∉ listed_labels (templates_page [mkApp "t1" "a1" "removed_set/http"] sets_sample).
Proof. apply (bool_decide_unpack _). vm_compute. reflexivity. Qed.

(** The set name drops the last four characters of the file name, whatever
    the extension. *)
Example tsName_other_extension : tsName_of "my_set.tar.gz" = "my_set.ta".
Proof. reflexivity. Qed.

End Templates.
