(* ===== verification/Editor.v ===== *)
(** * The editor builder [newEditor] and the create/modify controllers
      (app.js lines 68-158, 317-354)

    [newEditor(tmplid, view)] destroys the widget the global [editor]
    points to, writes "Loading template", and fetches the template.  When
    the fetch settles it builds the schema and the default values through
    the template library, creates a [JSONEditor] in [#form-div], assigns it
    to the global [editor], and re-binds the five buttons of the page.  The
    [ready] event of the widget enables the buttons; its [change] event
    enables the submit button when the validation of the global [editor]
    reports no error; the submit button POSTs [{name, parameters}] and moves
    to [#tasks].

    The model is the state machine [editor_step] over [EditorState]:
    - every [JSONEditor] ever created lives in a store, by id, with its
      life cycle (loading, ready, destroyed), and [es_live] lists those
      whose elements are in [#form-div];
    - [es_editor] is the global variable, which [destroy()] does not reset;
    - the pending template loads are explicit, so a newEditor call may
      overlap an earlier one whose load has not settled;
    - the exceptions the handlers throw are kept in [es_errors].
    The widget follows json-editor's contract: [destroy()] does nothing on
    an instance that is not ready and otherwise empties its container
    element, the [#form-div] all widgets share; [getValue()] throws on an
    instance that is not ready; [validation_results] is unset before
    [ready] and [null] after [destroy()].
    The template library of [@f5devcentral/fast] ([Template], [guiUtils])
    and [js-yaml] are third-party collaborators: the class [TemplateLib]
    states the operations the editor calls, and the theorems hold for every
    instance. *)

From S2P Require Import Prelude Http Templates.

Module Editor.

Import Templates.

(** ** JSON values *)

(** A JSON value as [JSON.parse] returns it; the members of an object are
    its own properties, in order, with distinct names. *)
Inductive json :=
| JNull
| JBool (b : bool)
| JNum (z : Z)
| JStr (s : string)
| JArr (l : list json)
| JObj (o : list (string * json)).

Definition nl : string := String "010" EmptyString.

(** [JSON.stringify(v)] *)
Fixpoint json_stringify (v : json) : string :=
  match v with
  | JNull => "null"
  | JBool b => if b then "true" else "false"
  | JNum z => js_num z
  | JStr s => json_string s
  | JArr l =>
      "[" +:+ String.concat "," ((fix go l := match l with
                                 | [] => []
                                 | x :: l' => json_stringify x :: go l'
                                 end) l) +:+ "]"
  | JObj o =>
      "{" +:+ String.concat "," ((fix go o := match o with
                                 | [] => []
                                 | (k, x) :: o' => (json_string k +:+ ":" +:+ json_stringify x) :: go o'
                                 end) o) +:+ "}"
  end.

(** [JSON.stringify(v, null, 2)] at indentation [ind]. *)
Fixpoint json_pretty (ind : string) (v : json) : string :=
  let ind' := ind +:+ "  " in
  match v with
  | JNull => "null"
  | JBool b => if b then "true" else "false"
  | JNum z => js_num z
  | JStr s => json_string s
  | JArr [] => "[]"
  | JArr l =>
      "[" +:+ nl +:+ ind' +:+
      String.concat ("," +:+ nl +:+ ind') ((fix go l := match l with
                                            | [] => []
                                            | x :: l' => json_pretty ind' x :: go l'
                                            end) l) +:+ nl +:+ ind +:+ "]"
  | JObj [] => "{}"
  | JObj o =>
      "{" +:+ nl +:+ ind' +:+
      String.concat ("," +:+ nl +:+ ind') ((fix go o := match o with
                                            | [] => []
                                            | (k, x) :: o' => (json_string k +:+ ": " +:+ json_pretty ind' x) :: go o'
                                            end) o) +:+ nl +:+ ind +:+ "}"
  end.

(** [String(v)], as a template literal interpolates it ([None] is
    [undefined]). *)
Fixpoint json_to_string (v : json) : string :=
  match v with
  | JNull => "null"
  | JBool b => if b then "true" else "false"
  | JNum z => js_num z
  | JStr s => s
  | JArr l => String.concat "," ((fix go l := match l with
                                  | [] => []
                                  | JNull :: l' => "" :: go l'
                                  | x :: l' => json_to_string x :: go l'
                                  end) l)
  | JObj _ => "[object Object]"
  end.

Definition js_interp (v : option json) : string :=
  match v with None => "undefined" | Some x => json_to_string x end.

(** [v.k] for a property name [k] that is not a member of
    [Object.prototype]: [null] throws, a primitive or an array has no such
    property. *)
Definition js_prop (v : json) (k : string) : settled (option json) :=
  match v with
  | JNull => Rejected (TypeError ("Cannot read properties of null (reading '" +:+ k +:+ "')"))
  | JObj o => Fulfilled (js_get_own k o)
  | _ => Fulfilled None
  end.

(** [undefined.k] *)
Definition js_prop_opt (v : option json) (k : string) : settled (option json) :=
  match v with
  | None => Rejected (TypeError ("Cannot read properties of undefined (reading '" +:+ k +:+ "')"))
  | Some x => js_prop x k
  end.

(** The truthiness of a property value. *)
Definition json_truthy (v : option json) : bool :=
  match v with
  | None | Some JNull => false
  | Some (JBool b) => b
  | Some (JNum z) => negb (z =? 0)%Z
  | Some (JStr s) => negb (String.eqb s "")
  | Some (JArr _) | Some (JObj _) => true
  end.

(** ** The template library (third party) *)

(** The operations [newEditor] calls on [@f5devcentral/fast] and
    [js-yaml]. *)
Class TemplateLib := {
  Tmpl : Type;
  fromJson : json -> settled Tmpl;                 (* Template.fromJson(data) *)
  getViewSchema : Tmpl -> json;                    (* tmpl.getViewSchema() *)
  getCombinedView : Tmpl -> option json -> json;   (* tmpl.getCombinedView(view) *)
  templateText : Tmpl -> string;                   (* tmpl.templateText *)
  render : Tmpl -> json -> string;                 (* tmpl.render(view) *)
  modSchemaForJSONEditor : json -> json;           (* the schema after guiUtils.modSchemaForJSONEditor(schema) *)
  filterExtraProperties : json -> json -> json;    (* guiUtils.filterExtraProperties(view, schema) *)
  safeLoad : string -> settled json                (* yaml.safeLoad(text) *)
}.

(** ** The editor's state and events *)

Section EditorMachine.

Context `{TemplateLib}.

(** The life cycle of a [JSONEditor] instance as the json-editor library
    runs it: created with its [load()] still running, ready once it has
    emitted 'ready', destroyed by [destroy()]. *)
Inductive WidgetStatus := WLoading | WReady | WDestroyed.

#[export] Instance WidgetStatus_eq_dec : EqDecision WidgetStatus.
Proof. solve_decision. Defined.

(** A [JSONEditor] instance: the newEditor call that created it, its schema
    and start value, what the user made of it, and its life cycle. *)
Record Widget := mkWidget {
  wd_tmplid : string;
  wd_schema : json;
  wd_startval : json;
  wd_value : json;       (* what editor.getValue() returns once ready *)
  wd_errors : nat;       (* editor.validation_results.length once ready *)
  wd_status : WidgetStatus
}.

Definition set_status (w : Widget) (st : WidgetStatus) : Widget :=
  mkWidget (wd_tmplid w) (wd_schema w) (wd_startval w) (wd_value w) (wd_errors w) st.

(** The error json-editor throws from [getValue()] on an instance that is
    not ready (not yet, or no longer after [destroy()]). *)
Definition widget_not_ready : JsError :=
  Error "JSON Editor not ready yet. Make sure the load method is complete".

(** [editor.getValue()] *)
Definition widget_get_value (w : Widget) : settled json :=
  if decide (wd_status w = WReady) then Fulfilled (wd_value w) else Rejected widget_not_ready.

(** [editor.validation_results.length]: [validation_results] is set when
    the instance becomes ready and reset to [null] by [destroy()]. *)
Definition widget_validation (w : Widget) : settled nat :=
  match wd_status w with
  | WReady => Fulfilled (wd_errors w)
  | WLoading => Rejected (TypeError "Cannot read properties of undefined (reading 'length')")
  | WDestroyed => Rejected (TypeError "Cannot read properties of null (reading 'length')")
  end.

(** What the [onclick] closures of the five buttons captured (lines
    123-155): the [tmplid], [tmpl] and [schema] of the load that bound
    them. *)
Record Handlers := mkHandlers { h_tmplid : string; h_tmpl : Tmpl; h_schema : json }.

(** A [newEditor] call whose [GET templates/<tmplid>] has not settled. *)
Record Load := mkLoad { ld_id : nat; ld_tmplid : string; ld_view : option json }.

Record EditorState := mkEditorState {
  es_store : list Widget;          (* every JSONEditor created; its id is its index *)
  es_live : list nat;              (* the instances whose elements are in #form-div *)
  es_editor : option nat;          (* the global [editor] *)
  es_loads : list Load;
  es_load_next : nat;
  es_view_disabled : bool;         (* the four view buttons *)
  es_form_disabled : bool;         (* #form-btn *)
  es_handlers : option Handlers;
  es_out : list string;            (* dispOutput *)
  es_requests : list Request;      (* fetch calls *)
  es_location : option string;     (* window.location.href, once set *)
  es_errors : list JsError         (* exceptions thrown by the event handlers, uncaught *)
}.

(** The buttons of the view panel (lines 123-134). *)
Inductive ViewButton := ViewTmpl | ViewSchema | ViewView | ViewRender.

Inductive EditorEvent :=
| EvNewEditor (tmplid : string) (view : option json)  (* a call of newEditor *)
| EvLoaded (load : nat) (fr : fetch_result json)      (* the template fetch of a load settles *)
| EvReady (id : nat)                                  (* widget [id] finishes loading: 'ready' *)
| EvEdit (id : nat) (value : json) (errors : nat)     (* the user edits widget [id]: 'change' *)
| EvView (b : ViewButton)                             (* a click on a view button *)
| EvSubmit (fr : fetch_result json).                  (* a click on #form-btn, and its POST *)

Definition widget_at (s : EditorState) (i : nat) : option Widget := es_store s !! i.

(** The global [editor]'s widget. *)
Definition current_widget (s : EditorState) : option Widget :=
  match es_editor s with Some j => widget_at s j | None => None end.

Definition with_store (s : EditorState) (store : list Widget) (live : list nat) : EditorState :=
  {| es_store := store; es_live := live; es_editor := es_editor s;
     es_loads := es_loads s; es_load_next := es_load_next s;
     es_view_disabled := es_view_disabled s; es_form_disabled := es_form_disabled s;
     es_handlers := es_handlers s; es_out := es_out s;
     es_requests := es_requests s; es_location := es_location s; es_errors := es_errors s |}.

Definition with_out (s : EditorState) (out : list string) : EditorState :=
  {| es_store := es_store s; es_live := es_live s; es_editor := es_editor s;
     es_loads := es_loads s; es_load_next := es_load_next s;
     es_view_disabled := es_view_disabled s; es_form_disabled := es_form_disabled s;
     es_handlers := es_handlers s; es_out := out;
     es_requests := es_requests s; es_location := es_location s; es_errors := es_errors s |}.

(** An exception thrown by a handler. *)
Definition with_error (s : EditorState) (e : JsError) : EditorState :=
  {| es_store := es_store s; es_live := es_live s; es_editor := es_editor s;
     es_loads := es_loads s; es_load_next := es_load_next s;
     es_view_disabled := es_view_disabled s; es_form_disabled := es_form_disabled s;
     es_handlers := es_handlers s; es_out := es_out s;
     es_requests := es_requests s; es_location := es_location s; es_errors := es_errors s ++ [e] |}.

(** [if (editor) editor.destroy()] (lines 70-72).  json-editor's
    [destroy()] does nothing on an instance that is not ready; on a ready
    one it marks it destroyed and empties its container element, here
    [#form-div], which every widget shares.  The variable keeps pointing to
    the destroyed instance. *)
Definition destroy_editor (s : EditorState) : EditorState :=
  match es_editor s with
  | Some i =>
      match widget_at s i with
      | Some w =>
          if decide (wd_status w = WReady)
          then with_store s (<[i := set_status w WDestroyed]> (es_store s)) []
          else s
      | None => s
      end
  | None => s
  end.

Definition templates_url (tmplid : string) : string := getJSON_url ("templates/" +:+ tmplid).

(** The synchronous part of [newEditor(tmplid, view)] (lines 69-75). *)
Definition new_editor (s : EditorState) (tmplid : string) (view : option json) : EditorState :=
  let s0 := destroy_editor s in
  {| es_store := es_store s0;
     es_live := es_live s0;
     es_editor := es_editor s0;
     es_loads := es_loads s0 ++ [mkLoad (es_load_next s0) tmplid view];
     es_load_next := S (es_load_next s0);
     es_view_disabled := es_view_disabled s0;
     es_form_disabled := es_form_disabled s0;
     es_handlers := es_handlers s0;
     es_out := dispOutput (es_out s0) ("Loading template: " +:+ tmplid);
     es_requests := es_requests s0 ++ [mkRequest "GET" (templates_url tmplid) None];
     es_location := es_location s0;
     es_errors := es_errors s0 |}.

(** The first two steps of the load (lines 75-81). *)
Definition load_template (tmplid : string) (fr : fetch_result json) : settled Tmpl :=
  data <- getJSON ("templates/" +:+ tmplid) fr ;;
  code <- js_prop data "code" ;;
  if json_truthy code then
    message <- js_prop data "message" ;;
    Rejected (Error ("Error loading template " +:+ String dquote (tmplid +:+ String dquote EmptyString)
                     +:+ ":" +:+ nl +:+ js_interp message))
  else fromJson data.

(** A failed load (line 157): the message is written. *)
Definition editor_failed (s : EditorState) (l : Load) (e : JsError) : EditorState :=
  {| es_store := es_store s; es_live := es_live s; es_editor := es_editor s;
     es_loads := List.filter (fun l' => negb (ld_id l' =? ld_id l)) (es_loads s);
     es_load_next := es_load_next s;
     es_view_disabled := es_view_disabled s; es_form_disabled := es_form_disabled s;
     es_handlers := es_handlers s;
     es_out := dispOutput (es_out s) ("Error loading editor:" +:+ nl +:+ err_message e);
     es_requests := es_requests s; es_location := es_location s; es_errors := es_errors s |}.

(** A successful load (lines 82-156): the schema and the default values
    are built, the new widget is created in [#form-div] (its own [load()]
    still running) and assigned to [editor], and the buttons are re-bound.
    [modSchemaForJSONEditor] modifies [schema] in place, so the widget and
    [filterExtraProperties] both see the modified schema. *)
Definition editor_created (s : EditorState) (l : Load) (tmpl : Tmpl) : EditorState :=
  let schema := getViewSchema tmpl in
  let out1 := dispOutput (es_out s) ("Creating editor with schema:" +:+ nl +:+ json_pretty "" schema) in
  let schema' := modSchemaForJSONEditor schema in
  let out2 := dispOutput out1 ("Schema modified for the editor:" +:+ nl +:+ json_pretty "" schema') in
  let defaults := filterExtraProperties (getCombinedView tmpl (ld_view l)) schema' in
  let id := length (es_store s) in
  {| es_store := es_store s ++ [mkWidget (ld_tmplid l) schema' defaults defaults 0 WLoading];
     es_live := es_live s ++ [id];
     es_editor := Some id;
     es_loads := List.filter (fun l' => negb (ld_id l' =? ld_id l)) (es_loads s);
     es_load_next := es_load_next s;
     es_view_disabled := es_view_disabled s; es_form_disabled := es_form_disabled s;
     es_handlers := Some (mkHandlers (ld_tmplid l) tmpl schema');
     es_out := dispOutput out2 "Editor loaded";
     es_requests := es_requests s; es_location := es_location s; es_errors := es_errors s |}.

(** The settling of a load (lines 75-157). *)
Definition editor_loaded (s : EditorState) (l : Load) (fr : fetch_result json) : EditorState :=
  match load_template (ld_tmplid l) fr with
  | Rejected e => editor_failed s l e
  | Fulfilled tmpl => editor_created s l tmpl
  end.

(** Widget [i] becomes ready and runs the handler [editor.on('ready', ...)]
    bound when it was created (lines 107-116). *)
Definition editor_ready (s : EditorState) (i : nat) (w : Widget) : EditorState :=
  {| es_store := <[i := set_status w WReady]> (es_store s); es_live := es_live s; es_editor := es_editor s;
     es_loads := es_loads s; es_load_next := es_load_next s;
     es_view_disabled := false; es_form_disabled := false;
     es_handlers := es_handlers s; es_out := dispOutput (es_out s) "Editor ready";
     es_requests := es_requests s; es_location := es_location s; es_errors := es_errors s |}.

(** A user edit of widget [i] and its [change] handler (lines 118-120),
    which reads [validation_results] of the global [editor]. *)
Definition editor_edit (s : EditorState) (i : nat) (w : Widget) (v : json) (errs : nat) : EditorState :=
  let s1 := with_store s (<[i := mkWidget (wd_tmplid w) (wd_schema w) (wd_startval w) v errs (wd_status w)]>
                            (es_store s)) (es_live s) in
  match current_widget s1 with
  | Some g =>
      match widget_validation g with
      | Fulfilled n =>
          {| es_store := es_store s1; es_live := es_live s1; es_editor := es_editor s1;
             es_loads := es_loads s1; es_load_next := es_load_next s1;
             es_view_disabled := es_view_disabled s1;
             es_form_disabled := negb (n =? 0);
             es_handlers := es_handlers s1; es_out := es_out s1;
             es_requests := es_requests s1; es_location := es_location s1; es_errors := es_errors s1 |}
      | Rejected e => with_error s1 e
      end
  | None => with_error s1 (TypeError "Cannot read properties of null (reading 'validation_results')")
  end.

(** A click on a view button (lines 123-134); [getValue()] and
    [yaml.safeLoad] may throw. *)
Definition view_click (s : EditorState) (b : ViewButton) : EditorState :=
  match es_handlers s, current_widget s with
  | Some h, Some w =>
      match b with
      | ViewTmpl => with_out s (dispOutput (es_out s) (templateText (h_tmpl h)))
      | ViewSchema => with_out s (dispOutput (es_out s) (json_pretty "" (h_schema h)))
      | ViewView =>
          match widget_get_value w with
          | Fulfilled v => with_out s (dispOutput (es_out s) (json_pretty "" (getCombinedView (h_tmpl h) (Some v))))
          | Rejected e => with_error s e
          end
      | ViewRender =>
          match (v <- widget_get_value w ;; safeLoad (render (h_tmpl h) v)) with
          | Fulfilled y => with_out s (dispOutput (es_out s) (json_pretty "" y))
          | Rejected e => with_error s e
          end
      end
  | _, _ => s
  end.

(** The body the submit button POSTs (lines 136-145). *)
Definition submit_body (tmplid : string) (value : json) : string :=
  json_stringify (JObj [("name", JStr tmplid); ("parameters", value)]).

Definition submit_data (tmplid : string) (value : json) : json :=
  JObj [("method", JStr "POST"); ("headers", JObj [("Content-Type", JStr "application/json")]);
        ("body", JStr (submit_body tmplid value))].

(** A click on the submit button (lines 135-155), given the settled
    [fetch]: [editor.getValue()] (which throws on an instance that is not
    ready), the text and the request, then, once [response.json()] has
    fulfilled, the result written and the move to [#tasks]. *)
Definition submit_click (s : EditorState) (fr : fetch_result json) : EditorState :=
  match es_handlers s, current_widget s with
  | Some h, Some w =>
      match widget_get_value w with
      | Rejected e => with_error s e
      | Fulfilled v =>
          let out := dispOutput (es_out s) (json_pretty "" (submit_data (h_tmplid h) v)) in
          let res := response <- fr ;; resp_json response in
          {| es_store := es_store s; es_live := es_live s; es_editor := es_editor s;
             es_loads := es_loads s; es_load_next := es_load_next s;
             es_view_disabled := es_view_disabled s; es_form_disabled := es_form_disabled s;
             es_handlers := es_handlers s;
             es_out := match res with
                       | Fulfilled result => dispOutput out (json_pretty "" result)
                       | Rejected _ => out
                       end;
             es_requests := es_requests s ++ [mkRequest "POST" (endPointUrl +:+ "/applications")
                                                        (Some (submit_body (h_tmplid h) v))];
             es_location := match res with Fulfilled _ => Some "#tasks" | Rejected _ => es_location s end;
             es_errors := es_errors s |}
      end
  | _, _ => s
  end.

(** One event.  Only an instance still loading becomes ready; only a
    ready instance in the page is edited; a disabled button receives no
    click; a settling load must be pending. *)
Definition editor_step (s : EditorState) (ev : EditorEvent) : EditorState :=
  match ev with
  | EvNewEditor tmplid view => new_editor s tmplid view
  | EvLoaded k fr =>
      match List.find (fun l => ld_id l =? k) (es_loads s) with
      | Some l => editor_loaded s l fr
      | None => s
      end
  | EvReady i =>
      match widget_at s i with
      | Some w => if decide (wd_status w = WLoading) then editor_ready s i w else s
      | None => s
      end
  | EvEdit i v errs =>
      match widget_at s i with
      | Some w => if bool_decide (i ∈ es_live s /\ wd_status w = WReady) then editor_edit s i w v errs else s
      | None => s
      end
  | EvView b => if es_view_disabled s then s else view_click s b
  | EvSubmit fr => if es_form_disabled s then s else submit_click s fr
  end.

Definition editor_run (s : EditorState) (evs : list EditorEvent) : EditorState :=
  fold_left editor_step evs s.

(** The page before any editor: nothing created, the buttons as the page
    template has them. *)
Definition editor_init (view_disabled form_disabled : bool) : EditorState :=
  {| es_store := []; es_live := []; es_editor := None; es_loads := []; es_load_next := 0;
     es_view_disabled := view_disabled; es_form_disabled := form_disabled;
     es_handlers := None; es_out := []; es_requests := []; es_location := None; es_errors := [] |}.

(** A run uses the editor serially when no [newEditor] call starts while
    an earlier template is loading or while the global editor is still
    loading itself. *)
Definition serial_ok (s : EditorState) (ev : EditorEvent) : bool :=
  match ev with
  | EvNewEditor _ _ =>
      bool_decide (es_loads s = []) &&
      match current_widget s with Some w => bool_decide (wd_status w <> WLoading) | None => true end
  | _ => true
  end.

Fixpoint serial_run (s : EditorState) (evs : list EditorEvent) : bool :=
  match evs with
  | [] => true
  | ev :: evs' => serial_ok s ev && serial_run (editor_step s ev) evs'
  end.

End EditorMachine.

(** ** The create and modify controllers (lines 317-354) *)

(** [addTmplBtns(sets)] (lines 318-335): one row per set, one button per
    template name. *)
Definition addTmplBtns (sets : list TemplateSet) : list (list string) := map ts_templates sets.

(** A click on the button of [item] (line 330): [newEditor(item)]. *)
Definition tmpl_button_click (item : string) : EditorEvent := EvNewEditor item None.

(** [route('create', ...)] (lines 336-343): the texts written, the button
    rows, and the controller's promise. *)
Definition create_controller (fr : fetch_result (list TemplateSet))
    : list string * list (list string) * settled unit :=
  let out := dispOutput [] "Fetching templates" in
  match getJSON "templatesets" fr with
  | Fulfilled data => (dispOutput out "", addTmplBtns data, Fulfilled tt)
  | Rejected e => (dispOutput out (err_message e), [], Fulfilled tt)
  end.

(** [appData.constants.fast] and the arguments of [newEditor] (lines
    350-351). *)
Definition modify_call (appData : json) : settled EditorEvent :=
  constants <- js_prop appData "constants" ;;
  appDef <- js_prop_opt constants "fast" ;;
  template <- js_prop_opt appDef "template" ;;
  view <- js_prop_opt appDef "view" ;;
  Fulfilled (EvNewEditor (js_interp template) view).

(** [route('modify', ...)] (lines 345-354): the texts written, the
    [newEditor] call made, and the controller's promise. *)
Definition modify_controller (appID : string) (fr : fetch_result json)
    : list string * option EditorEvent * settled unit :=
  let out := dispOutput [] ("Fetching app data for " +:+ appID) in
  match (appData <- getJSON ("applications/" +:+ appID) fr ;; modify_call appData) with
  | Fulfilled ev => (out, Some ev, Fulfilled tt)
  | Rejected e => (dispOutput out (err_message e), None, Fulfilled tt)
  end.

(** ** Invariants of the machine *)

Section EditorLemmas.

Context `{TemplateLib}.

(** The life cycle status of each widget of a store. *)
Definition status_in (store : list Widget) (j : nat) : option WidgetStatus := wd_status <$> store !! j.

Lemma status_in_insert_ne store i w j : j <> i -> status_in (<[i := w]> store) j = status_in store j.
Proof. intros Hne. unfold status_in. by rewrite list_lookup_insert_ne. Qed.

Lemma status_in_insert_eq store i w : i < length store -> status_in (<[i := w]> store) i = Some (wd_status w).
Proof. intros Hi. unfold status_in. by rewrite list_lookup_insert_eq. Qed.

Lemma status_in_app_lt store w j : j < length store -> status_in (store ++ [w]) j = status_in store j.
Proof. intros Hj. unfold status_in. by rewrite lookup_app_l. Qed.

Lemma status_in_app_eq store w : status_in (store ++ [w]) (length store) = Some (wd_status w).
Proof. unfold status_in. by rewrite lookup_app_r, Nat.sub_diag by lia. Qed.

Lemma widget_at_lt s i w : widget_at s i = Some w -> i < length (es_store s).
Proof. intros Hw. by apply lookup_lt_Some in Hw. Qed.

(** The effect of an event on the widgets, the global [editor] and the
    loads, one constructor per kind of step. *)
Inductive step_shape (s : EditorState) (ev : EditorEvent) (s' : EditorState) : Prop :=
| ShapeKeep :
    es_live s' = es_live s -> es_editor s' = es_editor s -> length (es_store s') = length (es_store s) ->
    (forall j, status_in (es_store s') j = status_in (es_store s) j) ->
    es_loads s' = es_loads s -> es_load_next s' = es_load_next s -> step_shape s ev s'
| ShapeReady i :
    status_in (es_store s) i = Some WLoading -> status_in (es_store s') i = Some WReady ->
    (forall j, j <> i -> status_in (es_store s') j = status_in (es_store s) j) ->
    es_live s' = es_live s -> es_editor s' = es_editor s -> length (es_store s') = length (es_store s) ->
    es_loads s' = es_loads s -> es_load_next s' = es_load_next s -> step_shape s ev s'
| ShapeNewKeep tmplid view :
    ev = EvNewEditor tmplid view ->
    (forall j, es_editor s = Some j -> status_in (es_store s) j <> Some WReady) ->
    es_live s' = es_live s -> es_editor s' = es_editor s -> length (es_store s') = length (es_store s) ->
    (forall j, status_in (es_store s') j = status_in (es_store s) j) ->
    es_loads s' = es_loads s ++ [mkLoad (es_load_next s) tmplid view] ->
    es_load_next s' = S (es_load_next s) -> step_shape s ev s'
| ShapeNewClear tmplid view j :
    ev = EvNewEditor tmplid view ->
    es_editor s = Some j -> status_in (es_store s) j = Some WReady ->
    es_live s' = [] -> es_editor s' = es_editor s -> length (es_store s') = length (es_store s) ->
    status_in (es_store s') j = Some WDestroyed ->
    (forall k, k <> j -> status_in (es_store s') k = status_in (es_store s) k) ->
    es_loads s' = es_loads s ++ [mkLoad (es_load_next s) tmplid view] ->
    es_load_next s' = S (es_load_next s) -> step_shape s ev s'
| ShapeFailed l :
    l ∈ es_loads s ->
    es_live s' = es_live s -> es_editor s' = es_editor s -> length (es_store s') = length (es_store s) ->
    (forall j, status_in (es_store s') j = status_in (es_store s) j) ->
    es_loads s' = List.filter (fun l' => negb (ld_id l' =? ld_id l)) (es_loads s) ->
    es_load_next s' = es_load_next s -> step_shape s ev s'
| ShapeCreated l :
    l ∈ es_loads s ->
    es_live s' = es_live s ++ [length (es_store s)] -> es_editor s' = Some (length (es_store s)) ->
    length (es_store s') = S (length (es_store s)) ->
    status_in (es_store s') (length (es_store s)) = Some WLoading ->
    (forall j, j < length (es_store s) -> status_in (es_store s') j = status_in (es_store s) j) ->
    es_loads s' = List.filter (fun l' => negb (ld_id l' =? ld_id l)) (es_loads s) ->
    es_load_next s' = es_load_next s -> step_shape s ev s'.

Lemma keep_shape s ev s' :
  es_store s' = es_store s -> es_live s' = es_live s -> es_editor s' = es_editor s ->
  es_loads s' = es_loads s -> es_load_next s' = es_load_next s -> step_shape s ev s'.
Proof. intros Hs Hl He Hls Hn. apply ShapeKeep; rewrite ?Hs; done. Qed.

Lemma edit_shape s ev i w v errs :
  widget_at s i = Some w -> step_shape s ev (editor_edit s i w v errs).
Proof.
  intros Hw. pose proof (widget_at_lt s i w Hw) as Hi.
  assert (Hst : forall j, status_in (<[i := mkWidget (wd_tmplid w) (wd_schema w) (wd_startval w) v errs (wd_status w)]>
                                     (es_store s)) j = status_in (es_store s) j).
  { intros j. destruct (decide (j = i)) as [->|Hne].
    - rewrite status_in_insert_eq by done. unfold status_in. unfold widget_at in Hw. by rewrite Hw.
    - by apply status_in_insert_ne. }
  unfold editor_edit. destruct (current_widget _) as [g|]; [destruct (widget_validation g)|];
    apply ShapeKeep; cbn; rewrite ?length_insert; done.
Qed.

Lemma editor_step_shape s ev : step_shape s ev (editor_step s ev).
Proof.
  destruct ev as [tmplid view|k fr|i|i v errs|b|fr]; simpl.
  - unfold new_editor, destroy_editor.
    destruct (es_editor s) as [j|] eqn:Hj; [destruct (widget_at s j) as [w|] eqn:Hw|].
    + pose proof (widget_at_lt s j w Hw) as Hlt.
      assert (Hsj : status_in (es_store s) j = Some (wd_status w)) by (unfold status_in; unfold widget_at in Hw; by rewrite Hw).
      case_decide as Hr.
      * eapply (ShapeNewClear _ _ _ tmplid view j); cbn; rewrite ?length_insert, ?Hj; try done.
        -- by rewrite Hsj, Hr.
        -- by rewrite status_in_insert_eq.
        -- intros k Hk. by apply status_in_insert_ne.
      * eapply ShapeNewKeep; cbn; rewrite ?Hj; try done. intros j' [= <-]. rewrite Hsj. congruence.
    + eapply ShapeNewKeep; cbn; rewrite ?Hj; try done. intros j' [= <-].
      unfold status_in. unfold widget_at in Hw. by rewrite Hw.
    + eapply ShapeNewKeep; cbn; rewrite ?Hj; done.
  - destruct (List.find _ _) as [l|] eqn:Hf; [|by apply keep_shape].
    apply find_some in Hf as [Hin _]. apply list_elem_of_In in Hin.
    unfold editor_loaded. destruct (load_template _ _).
    + eapply ShapeCreated; unfold editor_created; cbn; rewrite ?length_app; simpl; try (done || lia).
      * apply status_in_app_eq.
      * intros j Hj. by apply status_in_app_lt.
    + by eapply ShapeFailed.
  - destruct (widget_at s i) as [w|] eqn:Hw; [|by apply keep_shape].
    pose proof (widget_at_lt s i w Hw) as Hlt.
    case_decide as Hl; [|by apply keep_shape].
    eapply (ShapeReady _ _ _ i); cbn; rewrite ?length_insert; try done.
    + unfold status_in. unfold widget_at in Hw. rewrite Hw. simpl. by rewrite Hl.
    + by rewrite status_in_insert_eq.
    + intros j Hj. by apply status_in_insert_ne.
  - destruct (widget_at s i) as [w|] eqn:Hw; [|by apply keep_shape].
    case_bool_decide; [by apply edit_shape|by apply keep_shape].
  - destruct (es_view_disabled s); [by apply keep_shape|]. unfold view_click.
    destruct (es_handlers s), (current_widget s); try by apply keep_shape.
    destruct b; [by apply keep_shape..|destruct (widget_get_value _)|destruct (_ <- _ ;; _)]; by apply keep_shape.
  - destruct (es_form_disabled s); [by apply keep_shape|]. unfold submit_click.
    destruct (es_handlers s), (current_widget s); try by apply keep_shape.
    destruct (widget_get_value _); by apply keep_shape.
Qed.

Lemma filter_loads_sub (loads : list Load) k :
  List.filter (fun l' => negb (ld_id l' =? k)) loads ⊆ loads.
Proof. intros x. rewrite !list_elem_of_In, filter_In. naive_solver. Qed.

(** The invariant of serial use: at most one load pending, no widget in
    the page while it is, every widget in the page is the global [editor],
    and none is destroyed. *)
Definition serial_inv (s : EditorState) : Prop :=
  length (es_loads s) <= 1 /\ (es_loads s <> [] -> es_live s = []) /\
  (forall i, i ∈ es_live s -> es_editor s = Some i /\ status_in (es_store s) i <> Some WDestroyed
                               /\ i < length (es_store s)) /\
  NoDup (es_live s).

Lemma filter_single_load (loads : list Load) l :
  length loads <= 1 -> l ∈ loads -> List.filter (fun l' => negb (ld_id l' =? ld_id l)) loads = [].
Proof.
  destruct loads as [|x [|y r]]; simpl; intros Hlen Hin; [set_solver| |lia].
  apply list_elem_of_singleton in Hin as ->. by rewrite Nat.eqb_refl.
Qed.

Lemma length_le_1_same (l : list nat) (e : option nat) :
  NoDup l -> (forall i, i ∈ l -> e = Some i) -> length l <= 1.
Proof.
  destruct l as [|x [|y r]]; simpl; [lia|lia|]. intros Hnd Hall.
  assert (e = Some x) by (apply Hall; set_solver). assert (e = Some y) by (apply Hall; set_solver).
  assert (x = y) as -> by congruence. apply NoDup_cons in Hnd as [Hn _]. set_solver.
Qed.

(** Under serial use a [newEditor] call finds the page empty or holding
    only a ready global editor, which it clears. *)
Lemma serial_new_empty s tmplid view :
  serial_inv s -> serial_ok s (EvNewEditor tmplid view) = true ->
  (forall j, es_editor s = Some j -> status_in (es_store s) j <> Some WReady) -> es_live s = [].
Proof.
  intros (_ & _ & Hed & _) Hok Hnr. simpl in Hok. apply andb_true_iff in Hok as [_ Hok].
  destruct (es_live s) as [|i l] eqn:Hl; [done|].
  destruct (Hed i ltac:(set_solver)) as (Hj & Hnd & Hlt).
  unfold current_widget in Hok. rewrite Hj in Hok. unfold widget_at in Hok.
  destruct (lookup_lt_is_Some_2 (es_store s) i Hlt) as [w Hw]. rewrite Hw in Hok.
  apply bool_decide_eq_true in Hok. specialize (Hnr i Hj).
  unfold status_in in Hnd, Hnr. rewrite Hw in Hnd, Hnr. simpl in *.
  destruct (wd_status w); congruence.
Qed.

Lemma serial_inv_step s ev :
  serial_inv s -> serial_ok s ev = true -> serial_inv (editor_step s ev).
Proof.
  intros Hinv Hok. pose proof Hinv as (Hlen & Hidle & Hed & Hnd).
  destruct (editor_step_shape s ev) as
    [Hl He Hs Hst Hls Hn|i H0 H1 Hst Hl He Hs Hls Hn|tmplid view Hev Hnr Hl He Hs Hst Hls Hn
    |tmplid view j Hev Hj Hrj Hl He Hs Hdj Hst Hls Hn|l Hin Hl He Hs Hst Hls Hn
    |l Hin Hl He Hs Hnew Hst Hls Hn];
    unfold serial_inv; rewrite ?Hl, ?He, ?Hls, ?Hs.
  - split_and!; try done. intros i Hi. rewrite Hst. by apply Hed.
  - split_and!; try done. intros k Hk. destruct (Hed k Hk) as (? & ? & ?).
    split_and!; try done. destruct (decide (k = i)) as [->|Hne]; [by rewrite H1|by rewrite Hst].
  - subst ev. assert (Hlive : es_live s = []) by (eapply serial_new_empty; eauto).
    simpl in Hok. apply andb_true_iff in Hok as [Hok _]. apply bool_decide_eq_true in Hok.
    rewrite Hok, Hlive. simpl. split_and!; [lia|done|set_solver|constructor].
  - subst ev. simpl in Hok. apply andb_true_iff in Hok as [Hok _]. apply bool_decide_eq_true in Hok.
    rewrite Hok. simpl. split_and!; [lia|done|set_solver|constructor].
  - rewrite filter_single_load by done. simpl. split_and!; try done; try lia.
    intros i Hi. rewrite Hst. by apply Hed.
  - rewrite filter_single_load by done.
    rewrite Hidle by (intros Hnil; rewrite Hnil in Hin; set_solver). simpl.
    split_and!; [lia|done| |apply NoDup_singleton].
    intros i ->%list_elem_of_singleton. rewrite Hnew. split_and!; [done|done|lia].
Qed.

Lemma serial_run_inv s evs :
  serial_inv s -> serial_run s evs = true -> serial_inv (editor_run s evs).
Proof.
  revert s. induction evs as [|ev evs IH]; intros s Hs Hrun; simpl in *; [done|].
  apply andb_true_iff in Hrun as [Hok Hrun]. apply IH; [|done]. by apply serial_inv_step.
Qed.




Lemma step_loaded s k fr l :
  List.find (fun l' => ld_id l' =? k) (es_loads s) = Some l ->
  editor_step s (EvLoaded k fr) = editor_loaded s l fr.
Proof. intros Hf. simpl. by rewrite Hf. Qed.

Lemma editor_loaded_ok s l fr tmpl :
  load_template (ld_tmplid l) fr = Fulfilled tmpl -> editor_loaded s l fr = editor_created s l tmpl.
Proof. intros Hl. unfold editor_loaded. by rewrite Hl. Qed.

Lemma editor_loaded_err s l fr e :
  load_template (ld_tmplid l) fr = Rejected e -> editor_loaded s l fr = editor_failed s l e.
Proof. intros Hl. unfold editor_loaded. by rewrite Hl. Qed.

Lemma new_editor_find s t v :
  es_loads s = [] ->
  List.find (fun l => ld_id l =? es_load_next s) (es_loads (editor_step s (EvNewEditor t v))) =
  Some (mkLoad (es_load_next s) t v).
Proof.
  intros Hl. simpl. unfold new_editor, destroy_editor.
  destruct (es_editor s) as [j|]; [destruct (widget_at s j) as [w|]; [case_decide|]|];
    cbn; rewrite Hl; simpl; by rewrite Nat.eqb_refl.
Qed.

(** [newEditor] with a ready global editor [j]: [#form-div] is emptied and
    [j] is destroyed. *)
Lemma new_editor_ready s t v j w :
  es_editor s = Some j -> widget_at s j = Some w -> wd_status w = WReady ->
  editor_step s (EvNewEditor t v) =
  {| es_store := <[j := set_status w WDestroyed]> (es_store s); es_live := []; es_editor := Some j;
     es_loads := es_loads s ++ [mkLoad (es_load_next s) t v]; es_load_next := S (es_load_next s);
     es_view_disabled := es_view_disabled s; es_form_disabled := es_form_disabled s;
     es_handlers := es_handlers s; es_out := dispOutput (es_out s) ("Loading template: " +:+ t);
     es_requests := es_requests s ++ [mkRequest "GET" (templates_url t) None];
     es_location := es_location s; es_errors := es_errors s |}.
Proof.
  intros Hj Hw Hr. simpl. unfold new_editor, destroy_editor. rewrite Hj, Hw.
  rewrite decide_True by done. cbn. by rewrite Hj.
Qed.

(** [newEditor] with a global editor still loading: nothing is destroyed. *)
Lemma new_editor_loading s t v j w :
  es_editor s = Some j -> widget_at s j = Some w -> wd_status w = WLoading ->
  es_live (editor_step s (EvNewEditor t v)) = es_live s /\
  es_editor (editor_step s (EvNewEditor t v)) = Some j.
Proof.
  intros Hj Hw Hr. simpl. unfold new_editor, destroy_editor. rewrite Hj, Hw.
  rewrite decide_False by congruence. done.
Qed.

Lemma editor_created_current s l tmpl :
  current_widget (editor_created s l tmpl) =
  Some (mkWidget (ld_tmplid l) (modSchemaForJSONEditor (getViewSchema tmpl))
          (filterExtraProperties (getCombinedView tmpl (ld_view l)) (modSchemaForJSONEditor (getViewSchema tmpl)))
          (filterExtraProperties (getCombinedView tmpl (ld_view l)) (modSchemaForJSONEditor (getViewSchema tmpl)))
          0 WLoading).
Proof.
  unfold editor_created, current_widget, widget_at. simpl.
  by rewrite lookup_app_r, Nat.sub_diag by lia.
Qed.

End EditorLemmas.

(** ** Theorems on the editor *)

Section EditorTheorems.

Context `{TemplateLib}.

(** C16. Used serially (no [newEditor] call while a template is loading
    or while the global editor is still loading), the page holds at most
    one editor widget, and it is the one the global [editor] points to. *)
Theorem serial_single_editor vd fd evs :
  serial_run (editor_init vd fd) evs = true ->
  let s := editor_run (editor_init vd fd) evs in
  length (es_live s) <= 1 /\ forall i, i ∈ es_live s -> es_editor s = Some i.
Proof.
  intros Hrun. destruct (serial_run_inv (editor_init vd fd) evs) as (_ & _ & Hed & Hnd); [|done|].
  - unfold serial_inv. simpl. split_and!; [lia|done|set_solver|constructor].
  - split; [eapply length_le_1_same; [done|]|]; intros i Hi; by apply Hed.
Qed.


(** C10. Two [newEditor] calls whose template loads overlap (for
    instance two quick clicks on the create page) leave two editor widgets
    in [#form-div], and the global [editor] on the second. *)
Theorem overlapping_loads_leave_two_editors vd fd a b va vb fra frb ta tb :
  load_template a fra = Fulfilled ta -> load_template b frb = Fulfilled tb ->
  let s := editor_run (editor_init vd fd)
             [EvNewEditor a va; EvNewEditor b vb; EvLoaded 0 fra; EvLoaded 1 frb] in
  es_live s = [0; 1] /\ es_editor s = Some 1.
Proof.
  intros Ha Hb. unfold editor_run. cbn [fold_left].
  rewrite (step_loaded _ 0 fra (mkLoad 0 a va)), (editor_loaded_ok _ (mkLoad 0 a va) fra ta Ha)
    by reflexivity.
  rewrite (step_loaded _ 1 frb (mkLoad 1 b vb)), (editor_loaded_ok _ (mkLoad 1 b vb) frb tb Hb)
    by reflexivity.
  done.
Qed.


(** C15. The submit button posts the template whose load settled last,
    not the one chosen last: after choosing [a] then [b], when [b]'s
    template arrives first, the form posts [{name: a}]. *)
Theorem last_settled_load_is_submitted vd fd a b va vb fra frb ta tb fr :
  load_template a fra = Fulfilled ta -> load_template b frb = Fulfilled tb ->
  let s := editor_run (editor_init vd fd)
             [EvNewEditor a va; EvNewEditor b vb; EvLoaded 1 frb; EvLoaded 0 fra; EvReady 1; EvSubmit fr] in
  let schema_a := modSchemaForJSONEditor (getViewSchema ta) in
  es_requests s =
    [mkRequest "GET" (templates_url a) None; mkRequest "GET" (templates_url b) None;
     mkRequest "POST" (endPointUrl +:+ "/applications")
       (Some (submit_body a (filterExtraProperties (getCombinedView ta va) schema_a)))].
Proof.
  intros Ha Hb. unfold editor_run. cbn [fold_left].
  rewrite (step_loaded _ 1 frb (mkLoad 1 b vb)), (editor_loaded_ok _ (mkLoad 1 b vb) frb tb Hb)
    by reflexivity.
  rewrite (step_loaded _ 0 fra (mkLoad 0 a va)), (editor_loaded_ok _ (mkLoad 0 a va) fra ta Ha)
    by reflexivity.
  reflexivity.
Qed.

(** C27. A template that fails to load leaves a dead form: [newEditor]
    has destroyed the ready widget and emptied [#form-div], but the global
    [editor] and the enabled submit button still refer to it.  The error
    is written, and a click on the button throws from [getValue()]: no
    text, no POST. *)
Theorem failed_load_leaves_dead_submit s b vb frb e fr h j w :
  es_loads s = [] -> load_template b frb = Rejected e ->
  es_form_disabled s = false -> es_handlers s = Some h ->
  es_editor s = Some j -> widget_at s j = Some w -> wd_status w = WReady ->
  let s' := editor_run s [EvNewEditor b vb; EvLoaded (es_load_next s) frb; EvSubmit fr] in
  es_live s' = [] /\ es_editor s' = Some j /\ status_in (es_store s') j = Some WDestroyed /\
  es_form_disabled s' = false /\
  es_out s' = es_out s ++ ["Loading template: " +:+ b; "Error loading editor:" +:+ nl +:+ err_message e] /\
  es_requests s' = es_requests s ++ [mkRequest "GET" (templates_url b) None] /\
  es_errors s' = es_errors s ++ [widget_not_ready].
Proof.
  intros Hl Hb Hf Hh Hj Hw Hr. pose proof (widget_at_lt s j w Hw) as Hlt. unfold editor_run. cbn [fold_left].
  rewrite (step_loaded _ _ frb (mkLoad (es_load_next s) b vb)) by (by apply new_editor_find).
  rewrite (editor_loaded_err _ (mkLoad (es_load_next s) b vb) frb e Hb).
  rewrite (new_editor_ready s b vb j w Hj Hw Hr).
  simpl editor_step. cbn [editor_failed es_form_disabled]. rewrite Hf.
  unfold submit_click, current_widget, widget_at. cbn. rewrite Hh, list_lookup_insert_eq by done.
  unfold widget_get_value. cbn. rewrite decide_False by done. cbn.
  split_and!; try done.
  - unfold status_in. by rewrite list_lookup_insert_eq.
  - unfold dispOutput. by rewrite <- app_assoc.
Qed.

(** C32. A settled load builds the widget from the template library: its
    schema is the view schema after [modSchemaForJSONEditor], its start
    value is the combined view filtered by that modified schema, it is
    still loading, and the output shows both schemas and "Editor
    loaded". *)
Theorem loaded_editor_widget s k fr l tmpl :
  List.find (fun l' => ld_id l' =? k) (es_loads s) = Some l ->
  load_template (ld_tmplid l) fr = Fulfilled tmpl ->
  let s' := editor_step s (EvLoaded k fr) in
  let schema' := modSchemaForJSONEditor (getViewSchema tmpl) in
  let defaults := filterExtraProperties (getCombinedView tmpl (ld_view l)) schema' in
  current_widget s' = Some (mkWidget (ld_tmplid l) schema' defaults defaults 0 WLoading) /\
  es_handlers s' = Some (mkHandlers (ld_tmplid l) tmpl schema') /\
  es_out s' = es_out s ++ ["Creating editor with schema:" +:+ nl +:+ json_pretty "" (getViewSchema tmpl);
                           "Schema modified for the editor:" +:+ nl +:+ json_pretty "" schema';
                           "Editor loaded"].
Proof.
  intros Hf Hl. cbv zeta. rewrite (step_loaded _ _ _ l Hf), (editor_loaded_ok _ _ _ _ Hl), editor_created_current.
  split; [done|]. split; [done|]. unfold editor_created, dispOutput. simpl. by rewrite <- !app_assoc.
Qed.


(** Every button of the create page names a template
    of a fetched set, and clicking it (with no other template loading)
    opens, once the template has loaded, an editor widget for exactly that
    template, which the submit button then names. *)
Theorem create_button_opens_editor fr sets row item s frl tmpl :
  getJSON "templatesets" fr = Fulfilled sets ->
  row ∈ (create_controller fr).1.2 -> item ∈ row ->
  es_loads s = [] -> load_template item frl = Fulfilled tmpl ->
  let s' := editor_run s [tmpl_button_click item; EvLoaded (es_load_next s) frl] in
  (exists sd, sd ∈ sets /\ item ∈ ts_templates sd) /\
  (exists w, current_widget s' = Some w /\ wd_tmplid w = item) /\
  option_map h_tmplid (es_handlers s') = Some item.
Proof.
  intros Hf Hrow Hitem Hl Ht. unfold create_controller in Hrow. rewrite Hf in Hrow. simpl in Hrow.
  split; [apply list_elem_of_fmap in Hrow as (sd & -> & Hsd); by exists sd|].
  cbv zeta. unfold editor_run. cbn [fold_left].
  rewrite (step_loaded _ _ frl (mkLoad (es_load_next s) item None)) by (by apply new_editor_find).
  rewrite (editor_loaded_ok _ (mkLoad (es_load_next s) item None) frl tmpl Ht), editor_created_current.
  split; [by eexists|done].
Qed.

(** C37. The modify page opens the editor on the template and
    the view stored in the application's [constants.fast]; the
    controller's promise fulfils before the template is loaded. *)
Theorem modify_opens_editor appID fr appData constants appDef t v :
  getJSON ("applications/" +:+ appID) fr = Fulfilled appData ->
  js_prop appData "constants" = Fulfilled (Some constants) ->
  js_prop constants "fast" = Fulfilled (Some appDef) ->
  js_prop appDef "template" = Fulfilled (Some (JStr t)) ->
  js_prop appDef "view" = Fulfilled v ->
  modify_controller appID fr = (["Fetching app data for " +:+ appID], Some (EvNewEditor t v), Fulfilled tt).
Proof.
  intros Hf Hc Hd Ht Hv. unfold modify_controller, modify_call. rewrite Hf. simpl.
  by rewrite Hc; simpl; rewrite Hd; simpl; rewrite Ht; simpl; rewrite Hv.
Qed.

(** An application without [constants] (or a failed
    fetch) ends the modify controller with the error's message written,
    no editor opened, and a fulfilled promise. *)
Theorem modify_controller_error appID fr e :
  (appData <- getJSON ("applications/" +:+ appID) fr ;; modify_call appData) = Rejected e ->
  modify_controller appID fr = (["Fetching app data for " +:+ appID; err_message e], None, Fulfilled tt).
Proof. intros Hr. unfold modify_controller. by rewrite Hr. Qed.

End EditorTheorems.

(** ** Witnesses *)

(** A template library for the witnesses, following the contract the
    editor relies on: a template carries its view defaults; its view
    schema lists them as [properties]; the combined view is the defaults
    overridden by the view ([Object.assign]); the filter keeps the
    properties the schema lists. *)
Record FixtureTmpl := mkFixtureTmpl { ft_defaults : list (string * json); ft_text : string }.

Definition json_entries (v : json) : list (string * json) :=
  match v with JObj o => o | _ => [] end.

Definition schema_props (schema : json) : list string :=
  match js_prop schema "properties" with
  | Fulfilled (Some (JObj ps)) => map fst ps
  | _ => []
  end.

Definition fixture_fromJson (d : json) : settled FixtureTmpl :=
  match js_prop d "defaults" with
  | Fulfilled (Some (JObj ds)) => Fulfilled (mkFixtureTmpl ds "parameters:")
  | _ => Rejected (Error "invalid template")
  end.

Definition fixture_schema (t : FixtureTmpl) : json :=
  JObj [("type", JStr "object"); ("properties", JObj (map (fun kv => (kv.1, JObj [])) (ft_defaults t)))].

Definition fixture_combined (t : FixtureTmpl) (view : option json) : json :=
  JObj (fold_left (fun acc kv => js_set kv.1 kv.2 acc)
          (match view with Some v => json_entries v | None => [] end) (ft_defaults t)).

Definition fixture_filter (v schema : json) : json :=
  JObj (List.filter (fun kv => bool_decide (kv.1 ∈ schema_props schema)) (json_entries v)).

#[local] Instance fixture_lib : TemplateLib := {|
  Tmpl := FixtureTmpl;
  fromJson := fixture_fromJson;
  getViewSchema := fixture_schema;
  getCombinedView := fixture_combined;
  templateText := ft_text;
  render t v := json_stringify v;
  modSchemaForJSONEditor v := v;
  filterExtraProperties := fixture_filter;
  safeLoad txt := Fulfilled (JStr txt)
|}.

Definition ok_json (d : json) : fetch_result json := Fulfilled (mkResponse true 200 "OK" (Fulfilled d)).

Definition tmpl_ab : json := JObj [("defaults", JObj [("a", JNum 1); ("b", JNum 2)])].
Definition fixture_ab : FixtureTmpl := mkFixtureTmpl [("a", JNum 1); ("b", JNum 2)] "parameters:".

Definition missing_template : json :=
  JObj [("code", JNum 404); ("message", JStr "Template not found")].


(** One editor loaded and ready. *)
Definition one_ready : EditorState :=
  editor_run (editor_init true true) [EvNewEditor "a" None; EvLoaded 0 (ok_json tmpl_ab); EvReady 0].

Lemma serial_single_editor_witness :
  let s := editor_run (editor_init true true)
             [EvNewEditor "a" None; EvLoaded 0 (ok_json tmpl_ab); EvReady 0;
              EvNewEditor "b" None; EvLoaded 1 (ok_json tmpl_ab)] in
  length (es_live s) <= 1 /\ forall i, i ∈ es_live s -> es_editor s = Some i.
Proof. apply serial_single_editor. vm_compute. reflexivity. Defined.

Lemma overlapping_loads_leave_two_editors_witness :
  let s := editor_run (editor_init true true)
             [EvNewEditor "a" None; EvNewEditor "b" None; EvLoaded 0 (ok_json tmpl_ab);
              EvLoaded 1 (ok_json tmpl_ab)] in
  es_live s = [0; 1] /\ es_editor s = Some 1.
Proof. apply (@overlapping_loads_leave_two_editors fixture_lib _ _ _ _ _ _ _ _ fixture_ab fixture_ab); reflexivity. Defined.


Lemma last_settled_load_is_submitted_witness :
  let s := editor_run (editor_init true true)
             [EvNewEditor "a" None; EvNewEditor "b" None; EvLoaded 1 (ok_json tmpl_ab);
              EvLoaded 0 (ok_json tmpl_ab); EvReady 1; EvSubmit (ok_json (JObj []))] in
  let schema_a := modSchemaForJSONEditor (getViewSchema fixture_ab) in
  es_requests s =
    [mkRequest "GET" (templates_url "a") None; mkRequest "GET" (templates_url "b") None;
     mkRequest "POST" (endPointUrl +:+ "/applications")
       (Some (submit_body "a" (filterExtraProperties (getCombinedView fixture_ab None) schema_a)))].
Proof. apply (@last_settled_load_is_submitted fixture_lib _ _ _ _ _ _ _ _ fixture_ab fixture_ab); reflexivity. Defined.

Definition ab_widget (st : WidgetStatus) : Widget :=
  mkWidget "a" (fixture_schema fixture_ab) (fixture_filter (fixture_combined fixture_ab None) (fixture_schema fixture_ab))
           (fixture_filter (fixture_combined fixture_ab None) (fixture_schema fixture_ab)) 0 st.

Lemma failed_load_leaves_dead_submit_witness :
  let s' := editor_run one_ready [EvNewEditor "missing" None; EvLoaded (es_load_next one_ready) (ok_json missing_template);
                                  EvSubmit (ok_json (JObj []))] in
  es_live s' = [] /\ es_form_disabled s' = false /\ es_errors s' = [widget_not_ready].
Proof.
  destruct (@failed_load_leaves_dead_submit fixture_lib one_ready "missing" None (ok_json missing_template)
              (Error ("Error loading template " +:+ String dquote ("missing" +:+ String dquote EmptyString)
                        +:+ ":" +:+ nl +:+ "Template not found"))
              (ok_json (JObj [])) (@mkHandlers fixture_lib "a" fixture_ab (fixture_schema fixture_ab)) 0 (ab_widget WReady)
              eq_refl eq_refl eq_refl eq_refl eq_refl eq_refl eq_refl) as (H1 & _ & _ & H2 & _ & _ & H3).
  split_and!; [exact H1|exact H2|exact H3].
Defined.

Lemma loaded_editor_widget_witness :
  let s := editor_step (editor_init true true) (EvNewEditor "ab" (Some (JObj [("b", JNum 3); ("c", JNum 4)]))) in
  let l := mkLoad 0 "ab" (Some (JObj [("b", JNum 3); ("c", JNum 4)])) in
  let s' := editor_step s (EvLoaded 0 (ok_json tmpl_ab)) in
  let schema' := modSchemaForJSONEditor (getViewSchema fixture_ab) in
  let defaults := filterExtraProperties (getCombinedView fixture_ab (ld_view l)) schema' in
  current_widget s' = Some (mkWidget (ld_tmplid l) schema' defaults defaults 0 WLoading) /\
  es_handlers s' = Some (mkHandlers (ld_tmplid l) fixture_ab schema') /\
  es_out s' = es_out s ++ ["Creating editor with schema:" +:+ nl +:+ json_pretty "" (getViewSchema fixture_ab);
                           "Schema modified for the editor:" +:+ nl +:+ json_pretty "" schema';
                           "Editor loaded"].
Proof. apply (@loaded_editor_widget fixture_lib); reflexivity. Defined.



Lemma create_button_opens_editor_witness :
  let s' := editor_run (editor_init true true)
              [tmpl_button_click "simple_http"; EvLoaded 0 (ok_json tmpl_ab)] in
  (exists sd, sd ∈ sets_sample /\ "simple_http" ∈ ts_templates sd) /\
  (exists w, current_widget s' = Some w /\ wd_tmplid w = "simple_http") /\
  option_map h_tmplid (es_handlers s') = Some "simple_http".
Proof.
  apply (@create_button_opens_editor fixture_lib (Fulfilled (mkResponse true 200 "OK" (Fulfilled sets_sample))) sets_sample
           ["simple_http"; "simple_udp"] "simple_http" (editor_init true true) (ok_json tmpl_ab) fixture_ab).
  - reflexivity.
  - apply (bool_decide_unpack _). vm_compute. reflexivity.
  - apply (bool_decide_unpack _). vm_compute. reflexivity.
  - reflexivity.
  - reflexivity.
Defined.

Definition app_data_sample : json :=
  JObj [("constants", JObj [("fast", JObj [("template", JStr "examples/simple_http");
                                           ("view", JObj [("tenant_name", JStr "t1")])])])].

Lemma modify_opens_editor_witness :
  modify_controller "t1/app1" (ok_json app_data_sample) =
  (["Fetching app data for " +:+ "t1/app1"],
   Some (EvNewEditor "examples/simple_http" (Some (JObj [("tenant_name", JStr "t1")]))), Fulfilled tt).
Proof.
  apply (modify_opens_editor _ _ app_data_sample
           (JObj [("fast", JObj [("template", JStr "examples/simple_http"); ("view", JObj [("tenant_name", JStr "t1")])])])
           (JObj [("template", JStr "examples/simple_http"); ("view", JObj [("tenant_name", JStr "t1")])]));
    reflexivity.
Defined.

Lemma modify_controller_error_witness :
  modify_controller "t1/app1" (ok_json (JObj [])) =
  (["Fetching app data for " +:+ "t1/app1"; err_message (TypeError "Cannot read properties of undefined (reading 'fast')")],
   None, Fulfilled tt).
Proof. apply modify_controller_error. reflexivity. Defined.

(** ** Examples *)

(** The spec's default values: template defaults [{a:1, b:2}], view
    [{b:3, c:4}], a schema recognising [a] and [b]: the widget starts
    with [{a:1, b:3}]. *)
Example spec_editor_defaults :
  option_map wd_startval
    (current_widget (editor_run (editor_init true true)
       [EvNewEditor "ab" (Some (JObj [("b", JNum 3); ("c", JNum 4)])); EvLoaded 0 (ok_json tmpl_ab)])) =
  Some (JObj [("a", JNum 1); ("b", JNum 3)]).
Proof. vm_compute. reflexivity. Qed.

(** A template answered with an error payload: the message names the
    template and the backend's message. *)
Example template_error_message :
  es_out (editor_run (editor_init true true) [EvNewEditor "x" None; EvLoaded 0 (ok_json missing_template)]) =
  ["Loading template: x";
   "Error loading editor:" +:+ nl +:+ "Error loading template " +:+ String dquote ("x" +:+ String dquote EmptyString)
     +:+ ":" +:+ nl +:+ "Template not found"].
Proof. vm_compute. reflexivity. Qed.

(** The submit button moves to [#tasks] whatever the POST's status: a
    422 answer with an error body is written and the page still leaves
    the form. *)
Example submit_error_still_navigates :
  es_location (editor_step one_ready
    (EvSubmit (Fulfilled (mkResponse false 422 "Unprocessable Entity"
                            (Fulfilled (JObj [("message", JStr "invalid parameters")])))))) = Some "#tasks".
Proof. vm_compute. reflexivity. Qed.

End Editor.
