(* ===== verification/Console.v ===== *)
(** * Navigation and the tasks poll together (app.js lines 222-231, 356-402)

    The router runs on every [hashchange] and replaces the content region;
    the tasks controller starts a poll loop whose [setTimeout] is never
    cancelled.  A timer that fires after the user has left [#tasks] looks
    up [#task-list] in a page that no longer has it; one that fires after
    the user came back finds the new page's list and keeps polling next to
    the loop the new visit started.

    [console_step] composes [Router.app_world_step] (the navigation and the
    settling of controller promises) with [Tasks.renderTaskList] (one run
    of the loop), keeping the poll loops that have a pending timer. *)

From S2P Require Import Prelude Http Router Tasks.

Module Console.

Import Router Tasks.

Record ConsoleState := mkConsole {
  cs_world : World;               (* the router's world *)
  cs_task_list : list TaskElem;   (* the children of #task-list on the page shown *)
  cs_timers : list nat;           (* the poll loops with a pending setTimeout, by loop *)
  cs_next_loop : nat;
  cs_fetches : nat;               (* GET /tasks issued *)
  cs_errors : list JsError        (* rejections no handler catches *)
}.

Inductive ConsoleEvent :=
| CNavigate (h : string) (fr : fetch_result (list Task))
    (* a hashchange; [fr] settles the tasks controller's first fetch when it runs *)
| CSettle (id : nat)
    (* a controller promise settles: the router's [finally] *)
| CFire (t : nat) (fr : fetch_result (list Task)).
    (* the timer of loop [t] fires and its fetch settles *)

(** The content region holds the tasks page, so [#task-list] exists. *)
Definition on_tasks_page (w : World) : bool :=
  match appContent (w_dom w) with ContentPage p => String.eqb p "tasks" | _ => false end.

(** [document.getElementById('task-list')] is [null] elsewhere. *)
Definition task_list_missing : JsError :=
  TypeError "Cannot set properties of null (setting 'innerHTML')".

(** One settled [renderTaskList()] of loop [t] (lines 357-399): the list
    shown, the timer it sets, and the rejection nobody catches. *)
Definition run_render (onPage : bool) (t : nat) (fr : fetch_result (list Task))
    (content : list TaskElem) : list TaskElem * list nat * list JsError :=
  if onPage then
    match renderTaskList fr with
    | Fulfilled (rows, again) => (rows, if again then [t] else [], [])
    | Rejected e => (content, [], [e])
    end
  else
    match getJSON "tasks" fr with
    | Fulfilled _ => (content, [], [task_list_missing])
    | Rejected e => (content, [], [e])
    end.

Definition console_step (s : ConsoleState) (ev : ConsoleEvent) : ConsoleState :=
  match ev with
  | CNavigate h fr =>
      let w' := app_world_step (cs_world s) (EvNavigate h) in
      match (app_router h (w_dom (cs_world s))).2 with
      | RouteCalled (Some CtlTasks) _ _ =>
          let '(content, timers, errs) := run_render true (cs_next_loop s) fr [] in
          mkConsole w' content (cs_timers s ++ timers) (S (cs_next_loop s)) (S (cs_fetches s))
                    (cs_errors s ++ errs)
      | _ => mkConsole w' (cs_task_list s) (cs_timers s) (cs_next_loop s) (cs_fetches s) (cs_errors s)
      end
  | CSettle id =>
      mkConsole (app_world_step (cs_world s) (EvSettle id)) (cs_task_list s) (cs_timers s)
                (cs_next_loop s) (cs_fetches s) (cs_errors s)
  | CFire t fr =>
      if bool_decide (t ∈ cs_timers s) then
        let rest := List.filter (fun u => negb (u =? t)) (cs_timers s) in
        let '(content, timers, errs) := run_render (on_tasks_page (cs_world s)) t fr (cs_task_list s) in
        mkConsole (cs_world s) content (rest ++ timers) (cs_next_loop s) (S (cs_fetches s))
                  (cs_errors s ++ errs)
      else s
  end.

Definition console_run (s : ConsoleState) (evs : list ConsoleEvent) : ConsoleState :=
  fold_left console_step evs s.

Definition console_init : ConsoleState :=
  mkConsole (world_init dom_initial) [] [] 0 0 [].

(** A fetch of [GET /tasks] that answers a list with a task in progress. *)
Definition busy_fetch (fr : fetch_result (list Task)) : Prop :=
  exists d, getJSON "tasks" fr = Fulfilled d /\ inProgressJob d = true.

(** No navigation: only timers and controller promises. *)
Definition no_navigation (evs : list ConsoleEvent) : Prop :=
  Forall (fun ev => match ev with CNavigate _ _ => False | _ => True end) evs.

(** The poll loops with a pending timer are distinct and were started. *)
Definition console_wf (s : ConsoleState) : Prop :=
  NoDup (cs_timers s) /\ Forall (fun t => t < cs_next_loop s) (cs_timers s).

(** ** Lemmas *)

Lemma run_render_timers b t fr c : (run_render b t fr c).1.2 = [] \/ (run_render b t fr c).1.2 = [t].
Proof.
  unfold run_render. destruct b.
  - destruct (renderTaskList fr) as [[rows []]|]; auto.
  - destruct (getJSON "tasks" fr); auto.
Qed.

Lemma run_render_busy t fr c :
  busy_fetch fr -> exists rows, run_render true t fr c = (rows, [t], []).
Proof.
  intros (d & Hd & Hb). unfold run_render, renderTaskList. rewrite Hd. simpl. rewrite Hb. by eexists.
Qed.

Lemma run_render_away t fr c :
  (exists d, getJSON "tasks" fr = Fulfilled d) -> run_render false t fr c = (c, [], [task_list_missing]).
Proof. intros [d Hd]. unfold run_render. by rewrite Hd. Qed.

Lemma world_tasks w : on_tasks_page (app_world_step w (EvNavigate "#tasks")) = true.
Proof. unfold on_tasks_page. by rewrite app_world_dom, app_router_tasks. Qed.

Lemma world_away w h :
  fst (app_router h (w_dom w)) = mkDom (render_nav navTitles_init "") "none" (ContentPage "apps") "none" \/
  fst (app_router h (w_dom w)) = mkDom (render_nav navTitles_init "templates") "none" (ContentPage "templates") "none" ->
  on_tasks_page (app_world_step w (EvNavigate h)) = false.
Proof. unfold on_tasks_page. rewrite app_world_dom. by intros [-> | ->]. Qed.

(** The effect of a navigation on the loops: a new one when the tasks
    controller runs. *)
Lemma navigate_tasks s fr :
  let s' := console_step s (CNavigate "#tasks" fr) in
  cs_timers s' = cs_timers s ++ (run_render true (cs_next_loop s) fr []).1.2 /\
  cs_next_loop s' = S (cs_next_loop s) /\ cs_fetches s' = S (cs_fetches s) /\
  on_tasks_page (cs_world s') = true.
Proof.
  unfold console_step. rewrite app_router_tasks. cbv zeta.
  destruct (run_render true (cs_next_loop s) fr []) as [[content timers] errs].
  split_and!; [done..|]. cbn [snd cs_world].
  by rewrite world_tasks.
Qed.

Lemma navigate_away s h fr :
  (app_router h (w_dom (cs_world s))).2 = RouteCalled (Some CtlApps) "" (navDisplay (w_dom (cs_world s))) \/
  (app_router h (w_dom (cs_world s))).2 = RouteCalled (Some CtlTemplates) "" (navDisplay (w_dom (cs_world s))) ->
  cs_timers (console_step s (CNavigate h fr)) = cs_timers s /\
  cs_next_loop (console_step s (CNavigate h fr)) = cs_next_loop s.
Proof. unfold console_step. by intros [-> | ->]. Qed.

Lemma fire_timers s t fr :
  t ∈ cs_timers s ->
  cs_timers (console_step s (CFire t fr)) =
  List.filter (fun u => negb (u =? t)) (cs_timers s) ++
  (run_render (on_tasks_page (cs_world s)) t fr (cs_task_list s)).1.2.
Proof.
  intros Ht. simpl. rewrite bool_decide_eq_true_2 by done.
  by destruct (run_render _ _ _ _) as [[? ?] ?].
Qed.

Lemma elem_of_filter_neq (l : list nat) t u :
  u ∈ List.filter (fun v => negb (v =? t)) l <-> u ∈ l /\ u <> t.
Proof. rewrite list_elem_of_In, filter_In, <- list_elem_of_In, negb_true_iff, Nat.eqb_neq. done. Qed.

Lemma length_filter_neq (l : list nat) t :
  t ∈ l -> length (List.filter (fun v => negb (v =? t)) l) < length l.
Proof.
  induction l as [|x l IH]; simpl; [set_solver|]. intros Ht.
  destruct (Nat.eqb_spec x t) as [->|Hne]; simpl.
  - pose proof (List.filter_length_le (fun v => negb (v =? t)) l). lia.
  - assert (t ∈ l) by set_solver. specialize (IH H). lia.
Qed.

Lemma navigate_timers s h fr :
  (cs_timers (console_step s (CNavigate h fr)) = cs_timers s /\
   cs_next_loop (console_step s (CNavigate h fr)) = cs_next_loop s) \/
  (exists ts, (ts = [] \/ ts = [cs_next_loop s]) /\
   cs_timers (console_step s (CNavigate h fr)) = cs_timers s ++ ts /\
   cs_next_loop (console_step s (CNavigate h fr)) = S (cs_next_loop s)).
Proof.
  unfold console_step. pose proof (run_render_timers true (cs_next_loop s) fr []) as Hts.
  destruct (run_render true (cs_next_loop s) fr []) as [[c ts] e]. simpl in Hts.
  repeat case_match; simpl; eauto.
Qed.

Lemma navigate_templates s fr :
  let s' := console_step s (CNavigate "#templates" fr) in
  cs_timers s' = cs_timers s /\ cs_next_loop s' = cs_next_loop s /\ cs_fetches s' = cs_fetches s /\
  cs_errors s' = cs_errors s /\ on_tasks_page (cs_world s') = false.
Proof.
  unfold console_step. rewrite app_router_templates. cbn [snd cs_world cs_timers cs_next_loop cs_fetches cs_errors].
  split_and!; [done..|]. apply world_away. rewrite app_router_templates. by right.
Qed.

Lemma fire_away s t fr d :
  t ∈ cs_timers s -> on_tasks_page (cs_world s) = false -> getJSON "tasks" fr = Fulfilled d ->
  console_step s (CFire t fr) =
  mkConsole (cs_world s) (cs_task_list s) (List.filter (fun u => negb (u =? t)) (cs_timers s))
            (cs_next_loop s) (S (cs_fetches s)) (cs_errors s ++ [task_list_missing]).
Proof.
  intros Ht Hp Hd. simpl. rewrite bool_decide_eq_true_2 by done. rewrite Hp, run_render_away by eauto.
  by rewrite app_nil_r.
Qed.

Lemma wf_extend (l ts : list nat) n :
  NoDup l -> Forall (fun t => t < n) l -> ts = [] \/ ts = [n] ->
  NoDup (l ++ ts) /\ Forall (fun t => t < S n) (l ++ ts).
Proof.
  intros Hl Hlt [-> | ->]; rewrite ?app_nil_r.
  - split; [done|]. eapply Forall_impl; [done|]. simpl. lia.
  - split.
    + apply NoDup_app. split_and!; [done| |by apply NoDup_singleton].
      intros x Hx ->%list_elem_of_singleton. rewrite Forall_forall in Hlt. specialize (Hlt _ Hx). lia.
    + apply Forall_app. split; [eapply Forall_impl; [done|]; simpl; lia|]. constructor; [lia|done].
Qed.

Lemma NoDup_filter_neq (l : list nat) t : NoDup l -> NoDup (List.filter (fun v => negb (v =? t)) l).
Proof. intros H. apply NoDup_ListNoDup, List.NoDup_filter, NoDup_ListNoDup, H. Qed.

Lemma length_filter_single (l : list nat) t :
  length l <= 1 -> t ∈ l -> List.filter (fun v => negb (v =? t)) l = [].
Proof.
  intros Hl Ht. pose proof (length_filter_neq l t Ht).
  destruct (List.filter _ l); [done|simpl in *; lia].
Qed.

(** [visits frs]: for each fetch of [frs], open [#tasks] (whose first fetch
    settles with it) and go on to [#templates]. *)
Definition visits (frs : list (fetch_result (list Task))) : list ConsoleEvent :=
  flat_map (fun fr => [CNavigate "#tasks" fr; CNavigate "#templates" fr]) frs.

Lemma visits_run s frs :
  Forall busy_fetch frs ->
  cs_timers (console_run s (visits frs)) = cs_timers s ++ seq (cs_next_loop s) (length frs) /\
  cs_next_loop (console_run s (visits frs)) = cs_next_loop s + length frs /\
  cs_fetches (console_run s (visits frs)) = cs_fetches s + length frs.
Proof.
  revert s. induction frs as [|fr frs IH]; intros s Hb.
  { simpl. rewrite app_nil_r. split_and!; [done|lia|lia]. }
  inversion Hb as [|? ? Hfr Hfrs]; subst.
  unfold console_run. cbn [visits flat_map app fold_left]. fold (visits frs). fold (console_run (console_step (console_step s (CNavigate "#tasks" fr)) (CNavigate "#templates" fr)) (visits frs)).
  destruct (IH (console_step (console_step s (CNavigate "#tasks" fr)) (CNavigate "#templates" fr)) Hfrs) as (Ht & Hn & Hf).
  destruct (navigate_templates (console_step s (CNavigate "#tasks" fr)) fr) as (Tt & Tn & Tf & _).
  destruct (navigate_tasks s fr) as (Nt & Nn & Nf & _).
  destruct (run_render_busy (cs_next_loop s) fr [] Hfr) as [rows Hr].
  rewrite Ht, Hn, Hf, Tt, Tn, Tf, Nt, Nn, Nf, Hr.
  cbn [fst snd]. rewrite <- app_assoc. simpl length. split_and!; [reflexivity|lia|lia].
Qed.

(** ** Theorems *)

(** C22. Invariant: every step of the console keeps the poll
    loops with a pending timer distinct and among the loops started, so a
    timer that fires belongs to exactly one loop. *)
Theorem console_wf_step s ev : console_wf s -> console_wf (console_step s ev).
Proof.
  intros [Hnd Hlt]. destruct ev as [h fr|id|t fr].
  - unfold console_wf. destruct (navigate_timers s h fr) as [[-> ->] | (ts & Hts & -> & ->)]; [done|].
    by apply wf_extend.
  - done.
  - destruct (decide (t ∈ cs_timers s)) as [Ht|Ht].
    + unfold console_wf. rewrite (fire_timers s t fr Ht).
      assert (cs_next_loop (console_step s (CFire t fr)) = cs_next_loop s) as ->.
      { simpl. rewrite bool_decide_eq_true_2 by done. by destruct (run_render _ _ _ _) as [[? ?] ?]. }
      assert (Hlt' : Forall (fun u => u < cs_next_loop s) (List.filter (fun v => negb (v =? t)) (cs_timers s))).
      { rewrite Forall_forall in Hlt |- *. intros u [Hu _]%elem_of_filter_neq. by apply Hlt. }
      destruct (run_render_timers (on_tasks_page (cs_world s)) t fr (cs_task_list s)) as [-> | ->].
      * rewrite app_nil_r. split; [by apply NoDup_filter_neq|done].
      * split.
        -- apply NoDup_app. split_and!; [by apply NoDup_filter_neq| |by apply NoDup_singleton].
           intros x Hx%elem_of_filter_neq ->%list_elem_of_singleton. by destruct Hx.
        -- apply Forall_app. split; [done|]. constructor; [|done]. rewrite Forall_forall in Hlt. by apply Hlt.
    + simpl. rewrite bool_decide_eq_false_2 by done. by split.
Qed.

(** C11. Safety (a defect of the code): leaving [#tasks] does
    not cancel its poll.  Open [#tasks] while a task runs, go to
    [#templates]: loop 0 still has its timer, and when it fires the console
    fetches [/tasks] again and the rendering throws a [TypeError] on the
    missing [#task-list], which nothing catches; only then does the loop
    end. *)
Theorem poll_survives_navigation fr fr' fr'' d :
  busy_fetch fr -> getJSON "tasks" fr'' = Fulfilled d ->
  let s1 := console_run console_init [CNavigate "#tasks" fr; CNavigate "#templates" fr'] in
  cs_timers s1 = [0] /\ on_tasks_page (cs_world s1) = false /\
  let s2 := console_step s1 (CFire 0 fr'') in
  cs_timers s2 = [] /\ cs_fetches s2 = 2 /\ cs_errors s2 = [task_list_missing].
Proof.
  intros Hb Hd. cbv zeta. unfold console_run. cbn [fold_left].
  set (s0 := console_step console_init (CNavigate "#tasks" fr)).
  destruct (navigate_tasks console_init fr) as (Nt & Nn & Nf & _).
  destruct (run_render_busy 0 fr [] Hb) as [rows Hr].
  assert (He0 : cs_errors s0 = []).
  { subst s0. unfold console_step. rewrite app_router_tasks. simpl cs_next_loop. by rewrite Hr. }
  fold s0 in Nt, Nn, Nf. cbn [cs_next_loop cs_timers cs_fetches console_init] in Nt, Nn, Nf. rewrite Hr in Nt. simpl in Nt.
  destruct (navigate_templates s0 fr') as (Tt & Tn & Tf & Te & Tp).
  rewrite Tt, Nt, Tp. split; [done|split; [done|]].
  rewrite (fire_away _ 0 fr'' d); [|by rewrite Tt, Nt; left|done|done].
  cbn [cs_timers cs_fetches cs_errors]. rewrite Tt, Nt, Tf, Nf, Te, He0. split_and!; reflexivity.
Qed.

(** C12. Safety (a defect of the code): every visit to
    [#tasks] while a task runs starts a poll loop that leaving the page
    does not stop.  After [n] visits, each followed by a move to
    [#templates], [n] timers are pending, one per visit, and [n] fetches
    of [/tasks] were issued; when the user comes back all of them poll the
    one list. *)
Theorem polling_loops_accumulate frs :
  Forall busy_fetch frs ->
  cs_timers (console_run console_init (visits frs)) = seq 0 (length frs) /\
  cs_fetches (console_run console_init (visits frs)) = length frs.
Proof. intros Hb. destruct (visits_run console_init frs Hb) as (-> & _ & ->). done. Qed.

(** C31. Bounds: a user who opens [#tasks] and does not
    navigate again has at most one poll loop pending, however many times
    the timer fires or controller promises settle. *)
Theorem staying_on_tasks_single_loop fr evs :
  no_navigation evs ->
  length (cs_timers (console_run console_init (CNavigate "#tasks" fr :: evs))) <= 1.
Proof.
  intros Hn. unfold console_run. cbn [fold_left].
  assert (Hinit : length (cs_timers (console_step console_init (CNavigate "#tasks" fr))) <= 1).
  { destruct (navigate_tasks console_init fr) as (-> & _).
    cbn [cs_next_loop cs_timers console_init]. destruct (run_render_timers true 0 fr []) as [-> | ->]; simpl; lia. }
  revert Hinit. generalize (console_step console_init (CNavigate "#tasks" fr)).
  induction Hn as [|ev evs Hev Hevs IH]; intros s Hs; [done|]. simpl. apply IH.
  destruct ev as [h fr0|id|t fr0]; [done|done|].
  destruct (decide (t ∈ cs_timers s)) as [Ht|Ht].
  - rewrite fire_timers, length_filter_single by done.
    destruct (run_render_timers (on_tasks_page (cs_world s)) t fr0 (cs_task_list s)) as [-> | ->]; simpl; lia.
  - simpl. by rewrite bool_decide_eq_false_2.
Qed.

(** ** Witnesses *)

Definition busy_tasks : fetch_result (list Task) := ok_tasks [task_running; task_done].

Lemma busy_tasks_busy : busy_fetch busy_tasks.
Proof. exists [task_running; task_done]. split; reflexivity. Qed.

Lemma poll_survives_navigation_witness :
  busy_fetch busy_tasks /\ getJSON "tasks" busy_tasks = Fulfilled [task_running; task_done] /\
  cs_errors (console_step (console_run console_init [CNavigate "#tasks" busy_tasks; CNavigate "#templates" busy_tasks])
               (CFire 0 busy_tasks)) = [task_list_missing].
Proof.
  split; [apply busy_tasks_busy|split; [reflexivity|]].
  apply (poll_survives_navigation busy_tasks busy_tasks busy_tasks [task_running; task_done]);
    [apply busy_tasks_busy|reflexivity].
Defined.

Lemma polling_loops_accumulate_witness :
  cs_timers (console_run console_init (visits [busy_tasks; busy_tasks; busy_tasks])) = [0; 1; 2].
Proof.
  apply (polling_loops_accumulate [busy_tasks; busy_tasks; busy_tasks]).
  repeat constructor; apply busy_tasks_busy.
Defined.

Lemma staying_on_tasks_single_loop_witness :
  no_navigation [CFire 0 busy_tasks; CSettle 0; CFire 0 busy_tasks] /\
  length (cs_timers (console_run console_init
    [CNavigate "#tasks" busy_tasks; CFire 0 busy_tasks; CSettle 0; CFire 0 busy_tasks])) <= 1.
Proof.
  split; [repeat constructor|].
  apply staying_on_tasks_single_loop. repeat constructor.
Defined.

Lemma console_wf_step_witness :
  console_wf console_init /\ console_wf (console_step console_init (CNavigate "#tasks" busy_tasks)).
Proof.
  split; [split; constructor|].
  apply console_wf_step. split; constructor.
Defined.

(** The loop started on the first visit polls next to the one started on
    the second: after coming back, two fetches of [/tasks] follow, one
    per pending timer. *)
Example two_loops_on_return :
  let s := console_run console_init
             [CNavigate "#tasks" busy_tasks; CNavigate "#templates" busy_tasks;
              CNavigate "#tasks" busy_tasks; CFire 0 busy_tasks; CFire 1 busy_tasks] in
  cs_timers s = [0; 1] /\ cs_fetches s = 4 /\ cs_errors s = [].
Proof. vm_compute. split_and!; reflexivity. Qed.

End Console.
