(* ===== verification/Output.v ===== *)
(** * The output sink across navigations (app.js lines 22-29 and the
    controllers' [outputElem = document.getElementById('output')])

    [outputElem] is a global.  The application list, create, modify and
    templates controllers point it at the [#output] element of the page the
    router has just rendered and write their loading text; the tasks and api
    controllers leave it alone.  [dispOutput] logs its text and writes it
    into whatever element [outputElem] points to, attached or not.

    The model keeps every [#output] element ever rendered in a store
    ([gmap nat string], the text written into each one), the element of the
    page shown, and [outputElem] as a pointer into the store, so that a
    write through a stale pointer lands in a detached element and a write
    from a controller the user has left lands in the new page. *)

From stdpp Require Import gmap.
From S2P Require Import Prelude Http Router AppList Templates Editor.

Module Output.

Import Router AppList Templates Editor.

Section OutputSink.

(** Whether the page template [#page-<name>] of [index.html] holds an
    element with id [output]; [index.html] is not under [src/]. *)
Context (has_output : string -> bool).

Record OutputState := mkOutput {
  os_world : World;                (* the router's world *)
  os_page : option nat;            (* document.getElementById('output') on the page shown *)
  os_next_elem : nat;              (* the next [#output] element to be rendered *)
  os_text : gmap nat string;       (* innerText written into each [#output] element *)
  os_target : option nat;          (* outputElem: undefined at load, null on a page without #output *)
  os_log : list string             (* console.log *)
}.

Inductive OutputEvent :=
| ONavigate (h : string)           (* a hashchange: router and the controller's synchronous start *)
| OSettle (id : nat)               (* a controller promise settles: the router's finally *)
| OWrite (msg : string).           (* a later dispOutput, from whichever handler runs *)

(** [dispOutput(output)] (lines 24-29). *)
Definition disp_output (s : OutputState) (msg : string) : OutputState :=
  mkOutput (os_world s) (os_page s) (os_next_elem s)
           (match os_target s with Some e => <[e := msg]> (os_text s) | None => os_text s end)
           (os_target s) (os_log s ++ [msg]).

(** [outputElem = document.getElementById('output')]. *)
Definition retarget (s : OutputState) : OutputState :=
  mkOutput (os_world s) (os_page s) (os_next_elem s) (os_text s) (os_page s) (os_log s).

(** The synchronous start of each page controller, up to its first
    [dispOutput]: lines 243-247 (apps), 336-337 (create), 346-347 (modify),
    407-408 (templates); tasks (356-402) and api (404) write nothing and
    leave [outputElem] alone. *)
Definition entry_text (c : Controller) (arg : string) : option string :=
  match c with
  | CtlApps => Some "Fetching applications list"
  | CtlCreate => Some "Fetching templates"
  | CtlModify => Some ("Fetching app data for " +:+ arg)
  | CtlTemplates => Some "...Loading Template List..."
  | CtlTasks | CtlApi => None
  end.

Definition controller_entry (c : Controller) (arg : string) (s : OutputState) : OutputState :=
  match entry_text c arg with
  | Some t => disp_output (retarget s) t
  | None => s
  end.

(** The router removes the old content of [#app] and imports a fresh copy
    of the page template (lines 201-218): a new [#output] element when the
    template has one. *)
Definition new_page (content : AppContent) (w : World) (s : OutputState) : OutputState :=
  match content with
  | ContentPage p =>
      if has_output p then
        mkOutput w (Some (os_next_elem s)) (S (os_next_elem s)) (os_text s) (os_target s) (os_log s)
      else mkOutput w None (os_next_elem s) (os_text s) (os_target s) (os_log s)
  | _ => mkOutput w None (os_next_elem s) (os_text s) (os_target s) (os_log s)
  end.

Definition output_step (s : OutputState) (ev : OutputEvent) : OutputState :=
  match ev with
  | ONavigate h =>
      let w' := app_world_step (os_world s) (EvNavigate h) in
      let '(dom', res) := app_router h (w_dom (os_world s)) in
      let s1 := new_page (appContent dom') w' s in
      match res with
      | RouteCalled (Some c) arg _ => controller_entry c arg s1
      | _ => s1
      end
  | OSettle id =>
      mkOutput (app_world_step (os_world s) (EvSettle id)) (os_page s) (os_next_elem s)
               (os_text s) (os_target s) (os_log s)
  | OWrite msg => disp_output s msg
  end.

Definition output_run (s : OutputState) (evs : list OutputEvent) : OutputState :=
  foldl output_step s evs.

Definition output_init : OutputState :=
  mkOutput (world_init dom_initial) None 0 ∅ None [].

(** The text the user sees in the [#output] element of the page shown
    ([None]: no such element, or nothing written into it yet). *)
Definition shown (s : OutputState) : option string :=
  e ← os_page s; os_text s !! e.

(** Every element the state points to was rendered. *)
Definition output_wf (s : OutputState) : Prop :=
  (∀ e, os_page s = Some e → e < os_next_elem s) ∧
  (∀ e, os_target s = Some e → e < os_next_elem s) ∧
  map_Forall (λ e _, e < os_next_elem s) (os_text s).

End OutputSink.

Section OutputLemmas.

Context (has_output : string -> bool).
Implicit Types (s : OutputState) (msg : string).

Lemma shown_disp_output s msg :
  shown (disp_output s msg) =
  if bool_decide (is_Some (os_page s) ∧ os_target s = os_page s) then Some msg else shown s.
Proof.
  unfold shown, disp_output; cbn [os_page os_text os_target].
  case_bool_decide as Hc.
  - destruct Hc as [[e ->] ->]. simpl. by rewrite lookup_insert_eq.
  - destruct (os_page s) as [e|], (os_target s) as [t|]; simpl; try done.
    rewrite lookup_insert_ne; naive_solver.
Qed.

Lemma disp_output_wf s msg : output_wf s -> output_wf (disp_output s msg).
Proof.
  intros (Hp & Ht & Hx). split_and!; try done. unfold disp_output; cbn [os_text os_next_elem].
  destruct (os_target s) as [t|] eqn:Et; [|done]. apply map_Forall_insert_2; [by apply Ht|done].
Qed.

Lemma controller_entry_wf c arg s : output_wf s -> output_wf (controller_entry c arg s).
Proof.
  intros Hwf. unfold controller_entry. destruct (entry_text c arg); [|done].
  apply disp_output_wf. destruct Hwf as (Hp & Ht & Hx). by split_and!.
Qed.

Lemma new_page_wf content w s : output_wf s -> output_wf (new_page has_output content w s).
Proof.
  intros (Hp & Ht & Hx). unfold new_page.
  assert (Hx' : ∀ n, os_next_elem s <= n → map_Forall (λ e _, e < n) (os_text s)).
  { intros n Hn. eapply map_Forall_impl; [done|]. simpl. lia. }
  assert (Ht' : ∀ n, os_next_elem s <= n → ∀ e, os_target s = Some e → e < n).
  { intros n Hn e He. specialize (Ht e He). lia. }
  destruct content as [| |p]; [| |destruct (has_output p)]; split_and!; cbn [os_page os_target os_text os_next_elem];
    first [intros ? [=]; fail | intros ? [= <-]; lia | apply Ht'; lia | apply Hx'; lia].
Qed.

(** A navigation, decomposed: the fresh page, then the controller's start. *)
Lemma output_navigate s h :
  output_step has_output s (ONavigate h) =
  let s1 := new_page has_output (appContent (app_router h (w_dom (os_world s))).1)
                     (app_world_step (os_world s) (EvNavigate h)) s in
  match (app_router h (w_dom (os_world s))).2 with
  | RouteCalled (Some c) arg _ => controller_entry c arg s1
  | _ => s1
  end.
Proof. simpl. by destruct (app_router h (w_dom (os_world s))). Qed.

Lemma output_step_wf s ev : output_wf s -> output_wf (output_step has_output s ev).
Proof.
  intros Hwf. destruct ev as [h|id|msg].
  - rewrite output_navigate. cbv zeta.
    destruct (app_router h (w_dom (os_world s))).2 as [| |[c|] arg saved];
      try apply controller_entry_wf; by apply new_page_wf.
  - destruct Hwf as (Hp & Ht & Hx). by split_and!.
  - by apply disp_output_wf.
Qed.

Lemma output_init_wf : output_wf output_init.
Proof. split_and!; [by intros ? ?..|apply map_Forall_empty]. Qed.

Lemma output_run_wf s evs : output_wf s -> output_wf (output_run has_output s evs).
Proof. revert s. induction evs; intros s Hs; [done|]. apply IHevs, output_step_wf, Hs. Qed.

(** The fresh page keeps [outputElem] and shows nothing written. *)
Lemma new_page_fresh content w s :
  output_wf s ->
  let s1 := new_page has_output content w s in
  os_target s1 = os_target s /\ os_text s1 = os_text s /\ shown s1 = None /\
  (os_page s1 = None \/ os_page s1 = Some (os_next_elem s)).
Proof.
  intros (Hp & Ht & Hx). unfold new_page, shown.
  destruct content as [| |p]; [| |destruct (has_output p)]; cbn [os_page os_target os_text]; auto.
  split_and!; auto. simpl. apply eq_None_not_Some. intros [v Hv]. specialize (Hx _ _ Hv). simpl in Hx. lia.
Qed.

Lemma foldl_disp_output_fields s msgs :
  let s' := foldl disp_output s msgs in
  os_page s' = os_page s /\ os_target s' = os_target s /\ os_next_elem s' = os_next_elem s /\
  os_log s' = os_log s ++ msgs.
Proof.
  revert s. induction msgs as [|m msgs IH]; intros s; simpl.
  - by rewrite app_nil_r.
  - destruct (IH (disp_output s m)) as (-> & -> & -> & ->). simpl. by rewrite <- app_assoc.
Qed.

(** Writes through a pointer that is not the page's element leave the
    page's text alone. *)
Lemma shown_writes_stale s msgs :
  os_target s <> os_page s \/ os_page s = None -> shown (foldl disp_output s msgs) = shown s.
Proof.
  revert s. induction msgs as [|m msgs IH]; intros s Hs; [done|]. simpl.
  rewrite IH by (unfold disp_output; simpl; done).
  rewrite shown_disp_output. case_bool_decide as Hc; [|done]. destruct Hc as [[e He] Ht]. naive_solver.
Qed.

Lemma shown_writes_live s msgs :
  os_target s = os_page s -> is_Some (os_page s) -> msgs <> [] ->
  shown (foldl disp_output s msgs) = last msgs.
Proof.
  revert s. induction msgs as [|m msgs IH]; intros s Ht Hp Hm; [done|]. simpl.
  destruct msgs as [|m' msgs'].
  - simpl. rewrite shown_disp_output. by rewrite bool_decide_eq_true_2.
  - rewrite IH by (unfold disp_output; simpl; done). done.
Qed.

Lemma writes_land s msgs e :
  os_target s = Some e -> msgs <> [] -> os_text (foldl disp_output s msgs) !! e = last msgs.
Proof.
  revert s. induction msgs as [|m msgs IH]; intros s Ht Hm; [done|]. simpl.
  destruct msgs as [|m' msgs'].
  - simpl. unfold disp_output. rewrite Ht. simpl. by rewrite lookup_insert_eq.
  - rewrite IH by (unfold disp_output; simpl; done). done.
Qed.

(** A navigation to a controller that re-targets [outputElem] on a page
    with [#output]: the page shows the controller's loading text and every
    later write. *)
Lemma navigate_retargeting s h p c arg saved t :
  appContent (app_router h (w_dom (os_world s))).1 = ContentPage p -> has_output p = true ->
  (app_router h (w_dom (os_world s))).2 = RouteCalled (Some c) arg saved -> entry_text c arg = Some t ->
  let s1 := output_step has_output s (ONavigate h) in
  os_target s1 = os_page s1 /\ is_Some (os_page s1) /\ shown s1 = Some t.
Proof.
  intros Hc Hp Hr Ht. rewrite output_navigate, Hc, Hr. cbv zeta. unfold controller_entry. rewrite Ht.
  unfold new_page. rewrite Hp. unfold shown, disp_output, retarget. simpl.
  split_and!; [done|by eexists|]. by rewrite lookup_insert_eq.
Qed.

Lemma navigate_quiet s h c arg saved :
  output_wf s ->
  (app_router h (w_dom (os_world s))).2 = RouteCalled (Some c) arg saved -> entry_text c arg = None ->
  let s1 := output_step has_output s (ONavigate h) in
  os_target s1 = os_target s /\ os_text s1 = os_text s /\ shown s1 = None /\
  (os_page s1 = None \/ os_page s1 = Some (os_next_elem s)).
Proof.
  intros Hwf Hr Ht. rewrite output_navigate, Hr. cbv zeta. unfold controller_entry. rewrite Ht.
  by apply new_page_fresh.
Qed.

Lemma templates_controller_texts q fa fs out rows :
  templates_controller q fa fs = (out, rows, Fulfilled tt) ->
  out = ["...Loading Template List..."; ""].
Proof.
  unfold templates_controller.
  destruct (promise_all2 _ _ _) as [[apps sets]|e]; [|by intros [=]].
  destruct (render_templates apps sets) as [rs []]; by intros [= <-].
Qed.

(** The first text each controller model writes is the one its
    synchronous start writes here: the two models of the controllers
    agree. *)
Theorem entry_text_first_write :
  (∀ fr, head (apps_controller fr).1.1 = entry_text CtlApps "") /\
  (∀ fr, head (create_controller fr).1.1 = entry_text CtlCreate "") /\
  (∀ appID fr, head (modify_controller appID fr).1.1 = entry_text CtlModify appID) /\
  (∀ q fa fs, head (templates_controller q fa fs).1.1 = entry_text CtlTemplates "").
Proof.
  split_and!.
  - intros fr. unfold apps_controller. by destruct (getJSON _ fr).
  - intros fr. unfold create_controller. by destruct (getJSON _ fr).
  - intros appID fr. unfold modify_controller. by destruct (_ <- _ ;; _).
  - intros q fa fs. unfold templates_controller.
    destruct (promise_all2 _ _ _) as [[apps sets]|e]; [|done].
    destruct (render_templates apps sets) as [rs []]; done.
Qed.

(** ** Theorems *)

(** C13. Safety (a defect of the code): [outputElem] is shared by
    every controller, so a controller the user has left writes into the
    page shown next.  Open [#templates], then the application list before
    the templates' fetches settle: the list page shows "Fetching
    applications list" until the templates controller, settling, writes
    its final empty text there, so the user sees the list's loading message
    cleared by another page. *)
Theorem left_controller_writes_on_new_page s q fa fs out rows :
  has_output "apps" = true ->
  templates_controller q fa fs = (out, rows, Fulfilled tt) ->
  let s2 := output_run has_output s [ONavigate "#templates"; ONavigate "#"] in
  shown s2 = Some "Fetching applications list" /\
  shown (foldl disp_output s2 (tail out)) = Some "".
Proof.
  intros Ha Ht. cbv zeta. unfold output_run. cbn [foldl].
  set (s1 := output_step has_output s (ONavigate "#templates")).
  destruct (navigate_retargeting s1 "#" "apps" CtlApps "" (navDisplay (w_dom (os_world s1)))
              "Fetching applications list") as (Hts & Hp & Hs);
    [by rewrite app_router_home|done|by rewrite app_router_home|done|].
  split; [done|]. rewrite (templates_controller_texts q fa fs out rows Ht). simpl tail.
  by rewrite shown_writes_live.
Qed.

(** C14. Safety (a defect of the code): the tasks and api
    controllers do not re-target [outputElem].  After a navigation to
    them, [outputElem] still names the [#output] element of the page left,
    now detached: every later [dispOutput] (the pending error of a
    controller left, say) is written there and logged to the console, but
    the page shown never displays any of it. *)
Theorem writes_lost_after_leaving s h c arg saved msgs e :
  output_wf s ->
  (app_router h (w_dom (os_world s))).2 = RouteCalled (Some c) arg saved ->
  entry_text c arg = None ->
  os_target s = Some e -> msgs <> [] ->
  let s1 := output_step has_output s (ONavigate h) in
  let s2 := foldl disp_output s1 msgs in
  shown s2 = None /\ os_page s2 <> Some e /\
  os_text s2 !! e = last msgs /\ os_log s2 = os_log s ++ msgs.
Proof.
  intros Hwf Hr Hc He Hm. cbv zeta.
  destruct (navigate_quiet s h c arg saved Hwf Hr Hc) as (Ht1 & Hx1 & Hs1 & Hp1).
  destruct (foldl_disp_output_fields (output_step has_output s (ONavigate h)) msgs) as (-> & _ & _ & ->).
  destruct Hwf as (_ & Hlt & _). specialize (Hlt e He).
  split_and!.
  - rewrite shown_writes_stale; [done|]. rewrite Ht1, He. destruct Hp1 as [-> | ->]; [by right|left; intros [= Heq]; lia].
  - destruct Hp1 as [-> | ->]; [done|intros [= Heq]; lia].
  - apply writes_land; [by rewrite Ht1|done].
  - f_equal. rewrite output_navigate, Hr. cbv zeta. unfold controller_entry. rewrite Hc.
    unfold new_page. by destruct (appContent _) as [| |p]; [| |destruct (has_output p)].
Qed.

(** C23. Functional: after a navigation to a controller that re-targets
    [outputElem] (apps, create, modify, templates) on a page with an
    [#output] element, the page shows the controller's loading text and
    then the last text any handler writes, and the console has logged them
    all in order. *)
Theorem page_shows_last_write s h p c arg saved t msgs :
  appContent (app_router h (w_dom (os_world s))).1 = ContentPage p -> has_output p = true ->
  (app_router h (w_dom (os_world s))).2 = RouteCalled (Some c) arg saved -> entry_text c arg = Some t ->
  let s2 := foldl disp_output (output_step has_output s (ONavigate h)) msgs in
  shown s2 = last (t :: msgs) /\ os_log s2 = os_log s ++ t :: msgs.
Proof.
  intros Hc Hp Hr Ht. cbv zeta.
  destruct (navigate_retargeting s h p c arg saved t Hc Hp Hr Ht) as (Htg & Hpg & Hs1).
  destruct (foldl_disp_output_fields (output_step has_output s (ONavigate h)) msgs) as (_ & _ & _ & ->).
  split.
  - destruct msgs as [|m msgs]; [done|]. rewrite shown_writes_live by done.
    destruct msgs; done.
  - rewrite output_navigate, Hc, Hr. cbv zeta. unfold controller_entry. rewrite Ht.
    unfold new_page. rewrite Hp. simpl. by rewrite <- app_assoc.
Qed.

(** C35. Functional: [dispOutput] always logs its text; it shows
    on the page exactly when [outputElem] is the page's own [#output]
    element, and otherwise leaves the page's text as it was while still
    writing into the element [outputElem] names. *)
Theorem dispOutput_spec s msg :
  shown (disp_output s msg) =
    (if bool_decide (is_Some (os_page s) ∧ os_target s = os_page s) then Some msg else shown s) /\
  os_log (disp_output s msg) = os_log s ++ [msg] /\
  (∀ e, os_target s = Some e -> os_text (disp_output s msg) !! e = Some msg).
Proof.
  split_and!; [apply shown_disp_output|done|].
  intros e He. unfold disp_output. rewrite He. simpl. by rewrite lookup_insert_eq.
Qed.

End OutputLemmas.

(** ** Witnesses *)

(** The pages whose controllers look up [#output]. *)
Definition output_pages (p : string) : bool := bool_decide (p ∈ ["apps"; "create"; "templates"]%string).

Definition fetch_ok {A} (a : A) : fetch_result A := Fulfilled (mkResponse true 200 "OK" (Fulfilled a)).

Lemma left_controller_writes_on_new_page_witness :
  output_pages "apps" = true /\
  templates_controller true (fetch_ok apps_sample) (fetch_ok sets_sample) =
    (["...Loading Template List..."; ""], templates_page apps_sample sets_sample, Fulfilled tt) /\
  shown (foldl disp_output (output_run output_pages output_init [ONavigate "#templates"; ONavigate "#"]) [""]) = Some "".
Proof.
  assert (Ht : templates_controller true (fetch_ok apps_sample) (fetch_ok sets_sample) =
    (["...Loading Template List..."; ""], templates_page apps_sample sets_sample, Fulfilled tt))
    by (vm_compute; reflexivity).
  split_and!; [reflexivity|exact Ht|].
  exact (proj2 (left_controller_writes_on_new_page output_pages output_init true _ _ _ _ eq_refl Ht)).
Defined.

Lemma page_shows_last_write_witness :
  shown (foldl disp_output (output_step output_pages output_init (ONavigate "#")) ["";"Deleting t1/app1"]) =
  Some "Deleting t1/app1".
Proof.
  exact (proj1 (page_shows_last_write output_pages output_init "#" "apps" CtlApps "" _
                  "Fetching applications list" ["";"Deleting t1/app1"] eq_refl eq_refl eq_refl eq_refl)).
Defined.

Lemma writes_lost_after_leaving_witness :
  let s := output_run output_pages output_init [ONavigate "#"] in
  output_wf s /\ os_target s = Some 0 /\
  shown (foldl disp_output (output_step output_pages s (ONavigate "#tasks")) ["Error fetching applications: x"]) = None.
Proof.
  cbv zeta. assert (Hwf : output_wf (output_run output_pages output_init [ONavigate "#"]))
    by apply output_run_wf, output_init_wf.
  split_and!; [exact Hwf|reflexivity|].
  refine (proj1 (writes_lost_after_leaving output_pages _ "#tasks" CtlTasks "" _ _ 0 Hwf _ eq_refl eq_refl _)).
  - by rewrite app_router_tasks.
  - done.
Defined.

(** The deep link [#tasks] at load: [outputElem] is still undefined, so
    nothing written shows anywhere but the console. *)
Example deep_link_tasks_writes_nowhere :
  let s := foldl disp_output (output_run output_pages output_init [ONavigate "#tasks"]) ["late"] in
  shown s = None /\ os_text s = ∅ /\ os_log s = ["late"].
Proof. vm_compute. split_and!; reflexivity. Qed.

End Output.
